(** * Web_Scrapers: listing collector and contact enricher

    A shallow embedding of [YP_scraper.py], [facebook.py] and
    [unified_scraper.py].  The browser (Selenium driver), the web and the
    spreadsheet are external collaborators: every call into them is modelled
    by its outcome (a value or a raised exception), and the Python code around
    the calls is transcribed as functions over these outcomes.

    Text is modelled by [string]; a character stands for one code point in
    the range 0..255.  Console output, sleeps and the progress auto-save of
    the collector have no influence on the values studied here and are left
    out. *)

From Stdlib Require Import Bool Arith ZArith Lia Ascii String List Permutation.
Import ListNotations.
Local Open Scope string_scope.
Local Open Scope nat_scope.
Local Open Scope list_scope.

Set Implicit Arguments.

(* ================================================================== *)
(** * Python strings *)
(* ================================================================== *)

Module Py.

(** [str.isspace] on one character. *)
Definition isspace (c : ascii) : bool :=
  let n := nat_of_ascii c in
  ((9 <=? n) && (n <=? 13)) || ((28 <=? n) && (n <=? 32))
  || (n =? 133) || (n =? 160).

(** [str.isdigit] on one character (the superscripts count, as in Python). *)
Definition isdigit (c : ascii) : bool :=
  let n := nat_of_ascii c in
  ((48 <=? n) && (n <=? 57)) || (n =? 178) || (n =? 179) || (n =? 185).

Definition is_ascii_digit (c : ascii) : bool :=
  let n := nat_of_ascii c in (48 <=? n) && (n <=? 57).

Definition is_ascii_letter (c : ascii) : bool :=
  let n := nat_of_ascii c in
  ((65 <=? n) && (n <=? 90)) || ((97 <=? n) && (n <=? 122)).

(** Truthiness of a string: [if s:]. *)
Definition truthy (s : string) : bool :=
  match s with EmptyString => false | String _ _ => true end.

Fixpoint lstrip (s : string) : string :=
  match s with
  | EmptyString => EmptyString
  | String c s' => if isspace c then lstrip s' else s
  end.

Fixpoint all_space (s : string) : bool :=
  match s with
  | EmptyString => true
  | String c s' => isspace c && all_space s'
  end.

Fixpoint rstrip (s : string) : string :=
  match s with
  | EmptyString => EmptyString
  | String c s' => if all_space s then EmptyString else String c (rstrip s')
  end.

(** [s.strip()] *)
Definition strip (s : string) : string := rstrip (lstrip s).

(** [s.split()]: the maximal runs of non-space characters.  [cur] is the
    run being read, reversed into place by appending. *)
Fixpoint split_ws_aux (cur : string) (s : string) : list string :=
  match s with
  | EmptyString => if truthy cur then [cur] else []
  | String c s' =>
      if isspace c
      then (if truthy cur then cur :: split_ws_aux EmptyString s'
            else split_ws_aux EmptyString s')
      else split_ws_aux (String.append cur (String c EmptyString)) s'
  end.

Definition split_ws (s : string) : list string := split_ws_aux EmptyString s.

(** [sep.join(parts)] *)
Fixpoint join (sep : string) (parts : list string) : string :=
  match parts with
  | [] => EmptyString
  | [p] => p
  | p :: rest => String.append p (String.append sep (join sep rest))
  end.

(** [needle in hay] *)
Fixpoint contains (needle hay : string) : bool :=
  String.prefix needle hay ||
  match hay with
  | EmptyString => false
  | String _ hay' => contains needle hay'
  end.

(** [s.startswith(p)] *)
Definition startswith (p s : string) : bool := String.prefix p s.

(** [s.endswith(p)] *)
Fixpoint endswith (p s : string) : bool :=
  String.eqb p s ||
  match s with
  | EmptyString => false
  | String _ s' => endswith p s'
  end.

(** [s.replace(old, new)] for a non-empty [old]: every occurrence, scanning
    left to right without overlap.  [skip] counts the characters of an
    occurrence already replaced. *)
Fixpoint replace_from (skip : nat) (old new s : string) : string :=
  match s with
  | EmptyString => EmptyString
  | String c s' =>
      match skip with
      | S k => replace_from k old new s'
      | O =>
          if String.prefix old s
          then String.append new (replace_from (String.length old - 1) old new s')
          else String c (replace_from 0 old new s')
      end
  end.

Definition replace (old new s : string) : string := replace_from 0 old new s.

(** [s.split(sep)[0]] for a non-empty [sep]. *)
Fixpoint split_head (sep s : string) : string :=
  match s with
  | EmptyString => EmptyString
  | String c s' => if String.prefix sep s then EmptyString
                   else String c (split_head sep s')
  end.

(** [s.count(c)] for a one-character string. *)
Fixpoint count_char (c : ascii) (s : string) : nat :=
  match s with
  | EmptyString => 0
  | String d s' => (if Ascii.eqb c d then 1 else 0) + count_char c s'
  end.

Definition lower_char (c : ascii) : ascii :=
  let n := nat_of_ascii c in
  if ((65 <=? n) && (n <=? 90))
     || ((192 <=? n) && (n <=? 222) && negb (n =? 215))
  then ascii_of_nat (n + 32) else c.

(** [s.lower()] *)
Fixpoint lower (s : string) : string :=
  match s with
  | EmptyString => EmptyString
  | String c s' => String (lower_char c) (lower s')
  end.

(** [s[:n]] *)
Fixpoint take (n : nat) (s : string) : string :=
  match n, s with
  | S k, String c s' => String c (take k s')
  | _, _ => EmptyString
  end.

End Py.

(* ================================================================== *)
(** * Regular expressions of the scrapers *)
(* ================================================================== *)

(** Both patterns of the source are sequences of quantified character
    classes, so the engine handles exactly that fragment of [re]: each item
    is a class with a minimal and an optional maximal repeat count, matched
    greedily with backtracking, as [re] does. *)

Module Re.

Record item := Item {
  cls : ascii -> bool;
  lo : nat;
  hi : option nat
}.

Definition pattern := list item.

Definition one (p : ascii -> bool) : item := Item p 1 (Some 1).
Definition opt (p : ascii -> bool) : item := Item p 0 (Some 1).
Definition exactly (n : nat) (p : ascii -> bool) : item := Item p n (Some n).
Definition at_least (n : nat) (p : ascii -> bool) : item := Item p n None.

Definition dec_hi (h : option nat) : option nat :=
  match h with Some n => Some (pred n) | None => None end.

Definition can_take (h : option nat) : bool :=
  match h with Some O => false | _ => true end.

(** Match [p{lo,hi}] at the head of [s], longest repeat first, then the
    rest of the pattern through [k]; the answer is the matched text. *)
Fixpoint rep (p : ascii -> bool) (l : nat) (h : option nat)
         (k : string -> option string) (s : string) : option string :=
  let stop := match l with O => k s | S _ => None end in
  match s with
  | EmptyString => stop
  | String c s' =>
      if can_take h && p c
      then match rep p (pred l) (dec_hi h) k s' with
           | Some m => Some (String c m)
           | None => stop
           end
      else stop
  end.

Fixpoint match_here (pat : pattern) (s : string) : option string :=
  match pat with
  | [] => Some EmptyString
  | it :: rest => rep (cls it) (lo it) (hi it) (match_here rest) s
  end.

(** [re.findall(pat, s)]: leftmost matches, not overlapping.  [skip] counts
    the characters of the last match still to be passed over. *)
Fixpoint findall_from (skip : nat) (pat : pattern) (s : string) : list string :=
  match s with
  | EmptyString => []
  | String c s' =>
      match skip with
      | S k => findall_from k pat s'
      | O =>
          match match_here pat s with
          | Some m => m :: findall_from (String.length m - 1) pat s'
          | None => findall_from 0 pat s'
          end
      end
  end.

Definition findall (pat : pattern) (s : string) : list string :=
  findall_from 0 pat s.

(** [re.search(pat, s)]: the leftmost match. *)
Fixpoint search (pat : pattern) (s : string) : option string :=
  match match_here pat s with
  | Some m => Some m
  | None =>
      match s with
      | EmptyString => None
      | String _ s' => search pat s'
      end
  end.

Definition chr (c : ascii) : ascii -> bool := Ascii.eqb c.

Definition any_of (cs : string) (c : ascii) : bool :=
  existsb (Ascii.eqb c) (list_ascii_of_string cs).

(** [\(?\d{3}\)?[-.\s]?\d{3}[-.\s]?\d{4}] *)
Definition phone_sep (c : ascii) : bool := any_of "-." c || Py.isspace c.

Definition phone_pattern : pattern :=
  [ opt (chr "(") ; exactly 3 Py.is_ascii_digit ; opt (chr ")") ;
    opt phone_sep ; exactly 3 Py.is_ascii_digit ;
    opt phone_sep ; exactly 4 Py.is_ascii_digit ].

(** [[a-zA-Z0-9._%+-]+@[a-zA-Z0-9.-]+\.[a-zA-Z]{2,}] *)
Definition email_local (c : ascii) : bool :=
  Py.is_ascii_letter c || Py.is_ascii_digit c || any_of "._%+-" c.

Definition email_domain (c : ascii) : bool :=
  Py.is_ascii_letter c || Py.is_ascii_digit c || any_of ".-" c.

Definition email_pattern : pattern :=
  [ at_least 1 email_local ; one (chr "@") ; at_least 1 email_domain ;
    one (chr ".") ; at_least 2 Py.is_ascii_letter ].

End Re.

(* ================================================================== *)
(** * Outcomes of driver calls *)
(* ================================================================== *)

(** The exception classes the handlers of the source tell apart.  Every
    other [Exception] is an [OtherException]. *)
Inductive exn :=
| NoSuchElementException
| TimeoutException
| OtherException (msg : string).

Inductive Result (A : Type) :=
| Ok (a : A)
| Raise (e : exn).

Arguments Ok {A} a.
Arguments Raise {A} e.

Definition bind {A B} (r : Result A) (f : A -> Result B) : Result B :=
  match r with
  | Ok a => f a
  | Raise e => Raise e
  end.

Notation "x <- r ;; k" := (bind r (fun x => k))
  (at level 100, r at next level, right associativity).

(** A [WebElement]: its visible text and its attributes. *)
Record Element := mkElement {
  text : Result string;
  get_attribute : string -> option string
}.

(** A listing element of a results page, as the collector queries it:
    the scroll script, [find_elements(By.CSS_SELECTOR, _)] below it, and its
    own attributes ([innerHTML]). *)
Record Listing := mkListing {
  scroll_into_view : Result unit;
  find_elements : string -> Result (list Element);
  listing_attribute : string -> option string
}.

(** [find_element]: the first match, or [NoSuchElementException]. *)
Definition find_element (l : Listing) (sel : string) : Result Element :=
  els <- find_elements l sel ;;
  match els with
  | [] => Raise NoSuchElementException
  | e :: _ => Ok e
  end.

(** One record of the result set. *)
Record ListingRecord := mkRecord {
  business_name : string;
  phone_number : string
}.

(* ================================================================== *)
(** * Field extraction (the loop body of [extract_listings]) *)
(* ================================================================== *)

(** The text of this part is the same in [YP_scraper.py] (lines 239-349)
    and in [unified_scraper.py] (lines 200-291). *)

Module Extract.

Definition name_selectors : list string :=
  [ "a.business-name" ; ".business-name" ; "h2.n a" ;
    ".info-section h2 a" ; "[class*='business-name']" ; ".info h2 a" ].

Definition name_sentinel : string := "Unknown".

(** The name loop.  [cur] is the variable [business_name]; the answer
    pairs the selectors looked up, in order, with the outcome. *)
Fixpoint name_loop (l : Listing) (sels : list string) (cur : string)
  : list string * Result string :=
  match sels with
  | [] => ([], Ok cur)
  | sel :: rest =>
      match (e <- find_element l sel ;; text e) with
      | Ok raw =>
          let t := Py.strip raw in
          if Py.truthy t then ([sel], Ok t)
          else let (q, r) := name_loop l rest t in (sel :: q, r)
      | Raise NoSuchElementException =>
          let (q, r) := name_loop l rest cur in (sel :: q, r)
      | Raise e => ([sel], Raise e)
      end
  end.

Definition name_chain (l : Listing) (sels : list string)
  : list string * Result string :=
  name_loop l sels name_sentinel.

Definition extract_name (l : Listing) (sels : list string) : Result string :=
  snd (name_chain l sels).

Definition phone_selectors : list string :=
  [ ".phones.phone.primary" ; ".phone.primary" ; ".phones" ; "div.phone" ;
    "[class*='phone primary']" ; ".info-secondary .phone" ].

Definition phone_sentinel : string := "Not Available".

Definition looks_like_phone (t : string) : bool :=
  match t with
  | EmptyString => false
  | String c _ => Py.isdigit c || Py.startswith "(" t
  end.

(** Method 1, inner loop over the elements of one selector.  An exception
    leaves the selector ([except: continue]). *)
Fixpoint phone_elements_loop (els : list Element) : Result (option string) :=
  match els with
  | [] => Ok None
  | el :: rest =>
      raw <- text el ;;
      let t := Py.join " " (Py.split_ws (Py.strip raw)) in
      if looks_like_phone t then Ok (Some t) else phone_elements_loop rest
  end.

(** Method 1: direct phone text. *)
Fixpoint phone_method1 (l : Listing) (sels : list string) : option string :=
  match sels with
  | [] => None
  | sel :: rest =>
      match (els <- find_elements l sel ;; phone_elements_loop els) with
      | Ok (Some t) => Some t
      | Ok None => phone_method1 l rest
      | Raise _ => phone_method1 l rest
      end
  end.

(** The candidate value of one telephone link: the visible text, or the
    link target without ["tel:"] and ["+1"] when the text is empty.  A link
    without [href] makes [href.replace] raise. *)
Definition tel_candidate (a : Element) : Result string :=
  raw <- text a ;;
  let t := Py.strip raw in
  if Py.truthy t then Ok t
  else match get_attribute a "href" with
       | Some href => Ok (Py.strip (Py.replace "+1" EmptyString (Py.replace "tel:" EmptyString href)))
       | None => Raise (OtherException "AttributeError")
       end.

Fixpoint tel_links_loop (links : list Element) : Result (option string) :=
  match links with
  | [] => Ok None
  | a :: rest =>
      t <- tel_candidate a ;;
      if Py.truthy t && (10 <=? String.length t) then Ok (Some t)
      else tel_links_loop rest
  end.

(** Method 2: telephone links ([except: pass]). *)
Definition phone_method2 (l : Listing) : option string :=
  match (links <- find_elements l "a[href^='tel:']" ;; tel_links_loop links) with
  | Ok r => r
  | Raise _ => None
  end.

(** Method 3: the phone pattern over the markup of the listing.  A missing
    [innerHTML] makes [re.findall] raise ([except: pass]). *)
Definition phone_method3 (l : Listing) : option string :=
  match listing_attribute l "innerHTML" with
  | Some html =>
      match Re.findall Re.phone_pattern html with
      | m :: _ => Some m
      | [] => None
      end
  | None => None
  end.

Definition extract_phone (l : Listing) : string :=
  match phone_method1 l phone_selectors with
  | Some t => t
  | None =>
      match phone_method2 l with
      | Some t => t
      | None =>
          match phone_method3 l with
          | Some t => t
          | None => phone_sentinel
          end
      end
  end.

(** The body of the [try] for one listing: [Ok None] is the [continue] of
    the name check, [Ok (Some r)] the record appended, [Raise _] an exception
    reaching [except Exception: continue]. *)
Definition process_listing (l : Listing) : Result (option ListingRecord) :=
  _ <- scroll_into_view l ;;
  name <- extract_name l name_selectors ;;
  if String.eqb name name_sentinel then Ok None
  else
    let phone := extract_phone l in
    if negb (String.eqb name name_sentinel)
    then Ok (Some (mkRecord name phone))
    else Ok None.

(** One iteration of the listing loop on the list [results]. *)
Definition listing_step (results : list ListingRecord) (l : Listing) : list ListingRecord :=
  match process_listing l with
  | Ok (Some r) => results ++ [r]
  | Ok None => results
  | Raise _ => results
  end.

End Extract.

(* ================================================================== *)
(** * The search form ([perform_search]) *)
(* ================================================================== *)

Inductive By := ID | NAME | CSS_SELECTOR | XPATH.

(** What the browser answers while the search form is driven, and what
    it answers to the calls of the handlers: the current URL, the title, and
    [save_screenshot], which reports with [False] a file it could not
    write. *)
Record SearchPage := mkSearchPage {
  wait_clickable : By * string -> Result unit;
  fill_what : Result unit;
  fill_where : Result unit;
  find_button : By * string -> Result unit;
  click_button : Result unit;
  press_return : Result unit;
  url_after_submit : Result string;
  wait_results : Result unit;
  handler_url : Result string;
  handler_title : Result string;
  save_screenshot : string -> Result bool
}.

(** What the program does to the outside while it searches. *)
Inductive Effect :=
| SendKeys (field : string) (keys : string)
| ClickSearch
| PressReturn
| SaveScreenshot (filename : string).

(** Computations that log effects and may raise. *)
Definition Eff (A : Type) : Type := list Effect * Result A.

Definition call {A} (r : Result A) : Eff A := ([], r).
Definition emit (e : Effect) : Eff unit := ([e], Ok tt).

Definition bindE {A B} (m : Eff A) (f : A -> Eff B) : Eff B :=
  match m with
  | (w, Ok a) => let (w', r) := f a in (w ++ w', r)
  | (w, Raise e) => (w, Raise e)
  end.

Notation "x <~ m ;; k" := (bindE m (fun x => k))
  (at level 100, m at next level, right associativity).

Module Search.

Definition what_selectors : list (By * string) :=
  [ (ID, "query") ; (NAME, "search_terms") ;
    (CSS_SELECTOR, "input.search-input") ;
    (CSS_SELECTOR, "#search-form input[type='text']") ].

Definition where_selectors : list (By * string) :=
  [ (ID, "location") ; (CSS_SELECTOR, "input[placeholder*='Where']") ;
    (CSS_SELECTOR, "input#geo_location_terms") ;
    (NAME, "geo_location_terms") ;
    (CSS_SELECTOR, "#search-form input[placeholder*='Where']") ].

Definition button_selectors : list (By * string) :=
  [ (CSS_SELECTOR, "button[value='Find']") ;
    (CSS_SELECTOR, "button[type='submit']") ;
    (CSS_SELECTOR, ".search-submit") ;
    (XPATH, "//button[contains(text(), 'FIND')]") ;
    (XPATH, "//button[@type='submit']") ].

(** [for by, selector in ...: try: field = wait.until(...); break
    except TimeoutException: continue] *)
Fixpoint first_clickable (p : SearchPage) (sels : list (By * string))
  : Result bool :=
  match sels with
  | [] => Ok false
  | x :: rest =>
      match wait_clickable p x with
      | Ok _ => Ok true
      | Raise TimeoutException => first_clickable p rest
      | Raise e => Raise e
      end
  end.

(** The same with [find_element] and [NoSuchElementException]. *)
Fixpoint first_button (p : SearchPage) (sels : list (By * string))
  : Result bool :=
  match sels with
  | [] => Ok false
  | x :: rest =>
      match find_button p x with
      | Ok _ => Ok true
      | Raise NoSuchElementException => first_button p rest
      | Raise e => Raise e
      end
  end.

(** The body of the [try] of [perform_search]; [msg_what] and [msg_where]
    are the messages of the two [raise Exception(...)]. *)
Definition search_body (msg_what msg_where : string)
           (p : SearchPage) (job_type location : string) : Eff unit :=
  found <~ call (first_clickable p what_selectors) ;;
  _ <~ call (if found : bool then Ok tt else Raise (OtherException msg_what)) ;;
  _ <~ call (fill_what p) ;;
  _ <~ emit (SendKeys "what" job_type) ;;
  found <~ call (first_clickable p where_selectors) ;;
  _ <~ call (if found : bool then Ok tt else Raise (OtherException msg_where)) ;;
  _ <~ call (fill_where p) ;;
  _ <~ emit (SendKeys "where" location) ;;
  button <~ call (first_button p button_selectors) ;;
  _ <~ (if button : bool
        then (_ <~ call (click_button p) ;; emit ClickSearch)
        else (_ <~ call (press_return p) ;; emit PressReturn)) ;;
  _ <~ call (url_after_submit p) ;;
  call (wait_results p).

End Search.

(* ================================================================== *)
(** * The pagination walk ([extract_listings]) *)
(* ================================================================== *)

(** The browsing session as [extract_listings] sees it: the listing
    elements and the next controls a selector finds on the current page,
    the effect of scrolling to a control and clicking it (an exception
    leaves the page as it is), and the current URL. *)
Record Driver := mkDriver {
  Browser : Type;
  listing_elements : Browser -> string -> Result (list Listing);
  next_elements : Browser -> string -> Result (list Element);
  click : Browser -> Element -> Result Browser;
  current_url : Browser -> string
}.

Module Walk.

Definition listing_selectors : list string :=
  [ ".srp-listing" ; ".result" ; ".search-results .result" ; ".organic" ;
    "[class*='srp-listing']" ; "[class*='result-item']" ].

Definition next_button_selectors : list string :=
  [ "a.next" ; "a[rel='next']" ; ".pagination a.next" ;
    "a[aria-label='Next']" ; ".next a" ].

Section WithDriver.

Variable d : Driver.

(** The listing containers of the page: the first selector that finds at
    least one element. *)
Fixpoint find_listings (b : Browser d) (sels : list string) : list Listing :=
  match sels with
  | [] => []
  | sel :: rest =>
      match listing_elements d b sel with
      | Ok (l :: ls) => l :: ls
      | Ok [] => find_listings b rest
      | Raise _ => find_listings b rest
      end
  end.

(** [button_class = next_button.get_attribute('class') or ''] and the
    test ['disabled' in button_class.lower()]. *)
Definition is_disabled (btn : Element) : bool :=
  let button_class :=
    match get_attribute btn "class" with
    | Some c => c
    | None => EmptyString
    end in
  Py.contains "disabled" (Py.lower button_class).

(** The controls of one selector.  [Ok true]: a click changed the URL. *)
Fixpoint try_buttons (b : Browser d) (btns : list Element)
  : Browser d * Result bool :=
  match btns with
  | [] => (b, Ok false)
  | btn :: rest =>
      if is_disabled btn then (b, Ok false)
      else
        match click d b btn with
        | Raise e => (b, Raise e)
        | Ok b' =>
            if negb (String.eqb (current_url d b') (current_url d b))
            then (b', Ok true)
            else try_buttons b' rest
        end
  end.

(** The loop over [next_button_selectors]; the boolean is
    [next_button_found]. *)
Fixpoint find_next (b : Browser d) (sels : list string) : Browser d * bool :=
  match sels with
  | [] => (b, false)
  | sel :: rest =>
      match next_elements d b sel with
      | Raise _ => find_next b rest
      | Ok btns =>
          match try_buttons b btns with
          | (b', Ok true) => (b', true)
          | (b', _) => find_next b' rest
          end
      end
  end.

End WithDriver.

(** [if bound and n >= bound] for an optional integer bound. *)
Definition reached (bound : option Z) (n : nat) : bool :=
  match bound with
  | None => false
  | Some m => negb (Z.eqb m 0) && Z.leb m (Z.of_nat n)
  end.

Inductive PageOutcome :=
| Continue (results : list ListingRecord)
| Return (results : list ListingRecord).

(** The loop over the listings of one page. *)
Fixpoint listings_loop (max_results : option Z) (ls : list Listing)
         (results : list ListingRecord) : PageOutcome :=
  match ls with
  | [] => Continue results
  | l :: rest =>
      if reached max_results (length results) then Return results
      else listings_loop max_results rest (Extract.listing_step results l)
  end.

End Walk.

(* ================================================================== *)
(** * [YP_scraper.py] *)
(* ================================================================== *)

Module YP.

(** The handlers of [perform_search]: they print the current URL (and
    the title, for a timeout), save the screenshot and raise [e] again.  An
    exception of one of these calls takes the place of [e]. *)
Definition handler (p : SearchPage) (with_title : bool)
           (w : list Effect) (e : exn) : Eff unit :=
  match handler_url p with
  | Raise e' => (w, Raise e')
  | Ok _ =>
      match (if with_title then handler_title p else Ok EmptyString) with
      | Raise e' => (w, Raise e')
      | Ok _ =>
          match save_screenshot p "search_error.png" with
          | Raise e' => (w, Raise e')
          | Ok true => (w ++ [SaveScreenshot "search_error.png"], Raise e)
          | Ok false => (w, Raise e)
          end
      end
  end.

(** [perform_search] *)
Definition perform_search (p : SearchPage) (job_type location : string)
  : Eff unit :=
  match Search.search_body
          "Could not find 'What' input field with any selector"
          "Could not find 'Where' input field with any selector"
          p job_type location with
  | (w, Ok tt) => (w, Ok tt)
  | (w, Raise TimeoutException) => handler p true w TimeoutException
  | (w, Raise e) => handler p false w e
  end.

(** [extract_listings]: the [while True] loop, with [fuel] bounding the
    number of iterations.  The answer is the list returned and the value of
    [current_page] on return, which counts the pages processed. *)
Fixpoint walk (d : Driver) (max_results max_pages : option Z) (fuel : nat)
         (b : Browser d) (current_page : nat) (results : list ListingRecord)
  : option (list ListingRecord * nat) :=
  match fuel with
  | O => None
  | S fuel' =>
      match Walk.find_listings d b Walk.listing_selectors with
      | [] => Some (results, current_page)
      | listings =>
          match Walk.listings_loop max_results listings results with
          | Walk.Return results' => Some (results', current_page)
          | Walk.Continue results' =>
              if Walk.reached max_pages current_page
              then Some (results', current_page)
              else
                match Walk.find_next d b Walk.next_button_selectors with
                | (b', true) =>
                    walk d max_results max_pages fuel' b' (S current_page) results'
                | (_, false) => Some (results', current_page)
                end
          end
      end
  end.

Definition extract_listings (d : Driver) (max_results max_pages : option Z)
           (fuel : nat) (b : Browser d) : option (list ListingRecord * nat) :=
  walk d max_results max_pages fuel b 1 [].

End YP.

(* ================================================================== *)
(** * [unified_scraper.py], part 1 *)
(* ================================================================== *)

Module Unified.

(** [perform_search]: the handlers print and re-raise. *)
Definition perform_search (p : SearchPage) (job_type location : string)
  : Eff unit :=
  match Search.search_body
          "Could not find 'What' input field"
          "Could not find 'Where' input field"
          p job_type location with
  | (w, Ok tt) => (w, Ok tt)
  | (w, Raise TimeoutException) => (w, Raise TimeoutException)
  | (w, Raise e) => (w, Raise e)
  end.

(** [extract_listings]: no result or page bound. *)
Fixpoint walk (d : Driver) (fuel : nat)
         (b : Browser d) (current_page : nat) (results : list ListingRecord)
  : option (list ListingRecord * nat) :=
  match fuel with
  | O => None
  | S fuel' =>
      match Walk.find_listings d b Walk.listing_selectors with
      | [] => Some (results, current_page)
      | listings =>
          let results' := fold_left Extract.listing_step listings results in
          match Walk.find_next d b Walk.next_button_selectors with
          | (b', true) => walk d fuel' b' (S current_page) results'
          | (_, false) => Some (results', current_page)
          end
      end
  end.

Definition extract_listings (d : Driver) (fuel : nat) (b : Browser d)
  : option (list ListingRecord * nat) :=
  walk d fuel b 1 [].

End Unified.

(* ================================================================== *)
(** * The record table (a pandas [DataFrame]) *)
(* ================================================================== *)

(** A cell is a missing value (the float NaN that [read_excel] produces
    for an empty cell and for the text ["NaN"]) or a string. *)
Inductive Cell :=
| NA
| Str (s : string).

Definition cell_eqb (a b : Cell) : bool :=
  match a, b with
  | NA, NA => true
  | Str x, Str y => String.eqb x y
  | _, _ => false
  end.

(** Columns in order, and the rows, each aligned with the columns; the
    index is the default one, 0, 1, 2, ... *)
Record DataFrame := mkDataFrame {
  columns : list string;
  rows : list (list Cell)
}.

Module Df.

Fixpoint index_of (col : string) (cols : list string) : option nat :=
  match cols with
  | [] => None
  | c :: rest =>
      if String.eqb col c then Some 0
      else match index_of col rest with
           | Some i => Some (S i)
           | None => None
           end
  end.

(** [col in df.columns] *)
Definition has_column (df : DataFrame) (col : string) : bool :=
  match index_of col (columns df) with Some _ => true | None => false end.

(** [row[col]] for a column of the table. *)
Definition row_get (cols : list string) (row : list Cell) (col : string) : Cell :=
  match index_of col cols with
  | Some j => nth j row NA
  | None => NA
  end.

Fixpoint set_nth {A} (i : nat) (x : A) (l : list A) : list A :=
  match l, i with
  | [], _ => []
  | _ :: t, O => x :: t
  | h :: t, S k => h :: set_nth k x t
  end.

Fixpoint update_nth {A} (i : nat) (f : A -> A) (l : list A) : list A :=
  match l, i with
  | [], _ => []
  | h :: t, O => f h :: t
  | h :: t, S k => h :: update_nth k f t
  end.

(** [df.at[idx, col] = v] for a row and a column of the table, when the
    assignment goes through.  The assignment of a text into a column of
    missing values can raise: [Run.assign] below gives its outcome. *)
Definition set_at (df : DataFrame) (idx : nat) (col : string) (v : Cell)
  : DataFrame :=
  match index_of col (columns df) with
  | Some j => mkDataFrame (columns df) (update_nth idx (set_nth j v) (rows df))
  | None => df
  end.

(** [df[col] = v] for a new column: appended, the same value in each row. *)
Definition add_column (df : DataFrame) (col : string) (v : Cell) : DataFrame :=
  mkDataFrame (columns df ++ [col]) (map (fun r => r ++ [v]) (rows df)).

(** [pd.notna] *)
Definition notna (c : Cell) : bool :=
  match c with NA => false | Str _ => true end.

(** [f"{cell}"] *)
Definition format (c : Cell) : string :=
  match c with NA => "nan" | Str s => s end.

End Df.

(* ================================================================== *)
(** * The contact enricher ([facebook.py]) *)
(* ================================================================== *)

(** What the browser answers during one web search. *)
Record GooglePage := mkGooglePage {
  g_get : Result unit;
  g_wait_clickable : By * string -> Result unit;
  g_submit : Result unit;
  g_wait_links : Result unit;
  g_links : Result (list Element)
}.

(** What the browser answers on a profile page. *)
Record ProfilePage := mkProfilePage {
  p_find_elements : By * string -> Result (list Element);
  p_page_source : Result string
}.

(** The web: the search page a query leads to, and the outcome of
    [driver.get] on a profile URL. *)
Record Web := mkWeb {
  google : string -> GooglePage;
  profile : string -> Result ProfilePage
}.

(** Network activity and writes of the table to disk. *)
Inductive IO :=
| GoogleSearch (query : string)
| VisitProfile (url : string)
| ToExcel (df : DataFrame).

Module Facebook.

Definition sentinel : string := "NaN".

Definition search_selectors : list (By * string) :=
  [ (NAME, "q") ; (ID, "APjFqb") ; (CSS_SELECTOR, "input[type='text']") ].

Fixpoint first_input (g : GooglePage) (sels : list (By * string)) : Result bool :=
  match sels with
  | [] => Ok false
  | x :: rest =>
      match g_wait_clickable g x with
      | Ok _ => Ok true
      | Raise TimeoutException => first_input g rest
      | Raise e => Raise e
      end
  end.

Definition interaction_fragments : list string :=
  [ "share" ; "comment" ; "like" ; "watch" ; "video" ].

(** [href.split('&')[0].split('?')[0]] *)
Definition clean_url (href : string) : string :=
  Py.split_head "?" (Py.split_head "&" href).

(** The loop over the result links: the first link accepted. *)
Fixpoint pick_link (links : list Element) : option string :=
  match links with
  | [] => None
  | link :: rest =>
      match get_attribute link "href" with
      | Some href =>
          if Py.truthy href && Py.contains "facebook.com" href then
            if existsb (fun x => Py.contains x href) interaction_fragments
            then pick_link rest
            else if Py.contains "facebook.com/" href then
              let facebook_url := clean_url href in
              if Py.contains "facebook.com/pages" facebook_url
                 || Py.contains "facebook.com/pg" facebook_url
              then Some facebook_url
              else if 3 <=? Py.count_char "/" facebook_url
                   then Some facebook_url
                   else pick_link rest
            else pick_link rest
          else pick_link rest
      | None => pick_link rest
      end
  end.

(** After the loop: the first link seen, whatever it is. *)
Definition first_link (links : list Element) : option string :=
  match links with
  | [] => None
  | link :: _ =>
      match get_attribute link "href" with
      | Some href => if Py.truthy href then Some (clean_url href) else None
      | None => None
      end
  end.

(** The inner [try] of [search_google]; a [TimeoutException] is passed
    over, any other exception leaves it. *)
Definition scan_results (g : GooglePage) : Result (option string) :=
  match (_ <- g_wait_links g ;;
         links <- g_links g ;;
         Ok match pick_link links with
            | Some u => Some u
            | None => first_link links
            end) with
  | Raise TimeoutException => Ok None
  | r => r
  end.

Definition dquote : string := String (ascii_of_nat 34) EmptyString.

(** [f'"{business_name}" facebook'] *)
Definition search_query_of (business_name : string) : string :=
  String.append dquote
    (String.append business_name (String.append dquote " facebook")).

(** The outer [try] of [search_google]. *)
Definition search_google_try (g : GooglePage) : Result (option string) :=
  _ <- g_get g ;;
  found <- first_input g search_selectors ;;
  if found : bool
  then (_ <- g_submit g ;; scan_results g)
  else Ok None.

(** [search_google]: the profile URL, or [None]. *)
Definition search_google (w : Web) (business_name : string)
  : list IO * option string :=
  let search_query := search_query_of business_name in
  let g := google w search_query in
  ([GoogleSearch search_query],
   match search_google_try g with
   | Ok r => r
   | Raise _ => None
   end).

Definition email_selectors : list (By * string) :=
  [ (XPATH, "//*[contains(text(), '@')]") ;
    (CSS_SELECTOR, "span[data-field='email']") ;
    (CSS_SELECTOR, "[data-field='email']") ;
    (XPATH, "//span[contains(., '@')]") ;
    (CSS_SELECTOR, "div[role='main'] a[href*='mailto:']") ;
    (XPATH, "//a[contains(@href, 'mailto:')]") ].

(** [_extract_email_regex] *)
Definition _extract_email_regex (t : string) : option string :=
  Re.search Re.email_pattern t.

(** The elements of one selector: the first email found in a text or in
    a mail link. *)
Fixpoint email_elements_loop (els : list Element) : Result (option string) :=
  match els with
  | [] => Ok None
  | element :: rest =>
      raw <- text element ;;
      let t := Py.strip raw in
      match (if Py.contains "@" t then _extract_email_regex t else None) with
      | Some email => Ok (Some email)
      | None =>
          let href := match get_attribute element "href" with
                      | Some h => h
                      | None => EmptyString
                      end in
          let email := Py.strip (Py.split_head "?" (Py.replace "mailto:" EmptyString href)) in
          if Py.contains "mailto:" href && Py.truthy email && Py.contains "@" email
          then Ok (Some email)
          else email_elements_loop rest
      end
  end.

Fixpoint email_selectors_loop (p : ProfilePage) (sels : list (By * string))
  : option string :=
  match sels with
  | [] => None
  | x :: rest =>
      match (els <- p_find_elements p x ;; email_elements_loop els) with
      | Ok (Some email) => Some email
      | _ => email_selectors_loop p rest
      end
  end.

Definition blocked_fragments : list string :=
  [ "facebook.com" ; "support@" ; "noreply" ; "no-reply" ; "notification" ].

Definition is_blocked (e : string) : bool :=
  existsb (fun x => Py.contains x e) blocked_fragments.

(** The scan of the page source (lines 181-194). *)
Definition regex_fallback (page_html : string) : string :=
  let emails := Re.findall Re.email_pattern page_html in
  match emails with
  | [] => sentinel
  | _ =>
      let valid_emails := filter (fun e => negb (is_blocked e)) emails in
      match valid_emails with
      | e :: _ => e
      | [] => sentinel
      end
  end.

Definition normalize_url (facebook_url : string) : string :=
  if Py.startswith "http" facebook_url then facebook_url
  else String.append "https://" facebook_url.

(** The [try] of [extract_email_from_facebook], from [driver.get] on. *)
Definition extract_email_try (w : Web) (facebook_url : string) : Result string :=
  p <- profile w facebook_url ;;
  match email_selectors_loop p email_selectors with
  | Some email => Ok email
  | None =>
      page_html <- p_page_source p ;;
      Ok (regex_fallback page_html)
  end.

(** [extract_email_from_facebook] *)
Definition extract_email_from_facebook (w : Web) (facebook_url : string)
  : list IO * string :=
  let facebook_url := normalize_url facebook_url in
  ([VisitProfile facebook_url],
   match extract_email_try w facebook_url with
   | Ok email => email
   | Raise _ => sentinel
   end).

(** One row that is not skipped: the lookup and the write into the
    table (lines 262-289), when the assignment goes through. *)
Definition lookup_row (w : Web) (df : DataFrame) (idx : nat)
           (business_name : Cell) : list IO * DataFrame :=
  let (ev1, facebook_url) := search_google w (Df.format business_name) in
  match facebook_url with
  | Some url =>
      if Py.truthy url then
        let (ev2, email) := extract_email_from_facebook w url in
        if negb (String.eqb email sentinel)
        then (ev1 ++ ev2, Df.set_at df idx "Email" (Str email))
        else (ev1 ++ ev2, Df.set_at df idx "Email" (Str sentinel))
      else (ev1, Df.set_at df idx "Email" (Str sentinel))
  | None => (ev1, Df.set_at df idx "Email" (Str sentinel))
  end.

(** [if pd.notna(row['Email']) and row['Email'] != "NaN"] *)
Definition already_has_email (c : Cell) : bool :=
  Df.notna c && negb (cell_eqb c (Str sentinel)).

(** The loop over [df.iterrows()].  [todo] holds the rows still to come,
    [idx] the index of the first of them, [df] the table being updated. *)
Fixpoint rows_loop (w : Web) (cols : list string) (todo : list (list Cell))
         (idx : nat) (df : DataFrame) : list IO * DataFrame :=
  match todo with
  | [] => ([], df)
  | row :: rest =>
      let business_name := Df.row_get cols row "Business Name" in
      if already_has_email (Df.row_get cols row "Email")
      then rows_loop w cols rest (S idx) df
      else
        let (ev, df1) := lookup_row w df idx business_name in
        let saved := if (idx + 1) mod 10 =? 0 then [ToExcel df1] else [] in
        let (evs, df2) := rows_loop w cols rest (S idx) df1 in
        (ev ++ saved ++ evs, df2)
  end.

(** The file named by [excel_path], given by the table that
    [pd.read_excel] loads from it. *)
Inductive FileState :=
| Missing
| Unreadable
| Sheet (df : DataFrame).

(** The part of [process_excel_file] that follows the loading of the
    table: the [Email] column is added when it is missing, the rows are
    walked, and the table is written a last time.  The writes are taken to
    succeed and the assignments to go through.  How the call ends, with the
    assignments that raise and the previews printed after the last write, is
    given by [Run.process_table] below. *)
Definition enrich_table (w : Web) (df : DataFrame) : list IO :=
  let df := if negb (Df.has_column df "Email")
            then Df.add_column df "Email" (Str sentinel)
            else df in
  let (ev, df') := rows_loop w (columns df) (rows df) 0 df in
  ev ++ [ToExcel df'].

(** [process_excel_file]: the network activity and the writes, in
    order, of a run on the table that was loaded. *)
Definition process_excel_file (w : Web) (file : FileState) : list IO :=
  match file with
  | Missing => []
  | Unreadable => []
  | Sheet df =>
      if negb (Df.has_column df "Business Name") then []
      else enrich_table w df
  end.

Definition is_lookup (e : IO) : bool :=
  match e with
  | GoogleSearch _ => true
  | VisitProfile _ => true
  | ToExcel _ => false
  end.

Definition is_write (e : IO) : bool :=
  match e with ToExcel _ => true | _ => false end.

End Facebook.

(** [unified_scraper.py], part 2.  The class [FacebookEmailScraper] and
    the row loop repeat the text of [facebook.py];
    [process_excel_for_emails] also tells whether the run reached its end. *)
Module UnifiedEnricher.

(** [process_excel_for_emails]: the events as for [process_excel_file],
    and the boolean returned by a run that gets past the previews printed
    after the last write ([Run.process_excel_for_emails] below gives the
    outcome in general). *)
Definition process_excel_for_emails (w : Web) (file : Facebook.FileState)
  : list IO * bool :=
  match file with
  | Facebook.Missing => ([], false)
  | Facebook.Unreadable => ([], false)
  | Facebook.Sheet df =>
      if negb (Df.has_column df "Business Name") then ([], false)
      else
        let df := if negb (Df.has_column df "Email")
                  then Df.add_column df "Email" (Str Facebook.sentinel)
                  else df in
        let (ev, df') :=
          Facebook.rows_loop w (columns df) (rows df) 0 df in
        (ev ++ [ToExcel df'], true)
  end.

End UnifiedEnricher.

(* ================================================================== *)
(** * Example scopes *)
(* ================================================================== *)

Module Examples.

Definition no_attributes : string -> option string := fun _ => None.

Definition plain (t : string) : Element := mkElement (Ok t) no_attributes.

(** A listing given by the texts of the elements each selector finds. *)
Definition listing_of (els : string -> list Element) : Listing :=
  mkListing (Ok tt) (fun sel => Ok (els sel)) no_attributes.

(** Two candidates that both find a name, and one that finds blank text. *)
Definition two_names : Listing :=
  listing_of (fun sel =>
    if String.eqb sel "h2.n a" then [plain " Joe's Plumbing "]
    else if String.eqb sel ".info h2 a" then [plain "Joe"]
    else if String.eqb sel ".business-name" then [plain "  "]
    else []).

(** A listing whose only name element is blank. *)
Definition blank_name : Listing :=
  listing_of (fun sel =>
    if String.eqb sel ".business-name" then [plain "   "] else []).

(** A business that is called Unknown. *)
Definition called_unknown : Listing :=
  listing_of (fun sel =>
    if String.eqb sel "a.business-name" then [plain " Unknown "] else []).

(** A listing whose name lookup fails with a stale element. *)
Definition stale : Listing :=
  mkListing (Ok tt) (fun _ => Raise (OtherException "stale element"))
            no_attributes.

Definition joe : Listing :=
  listing_of (fun sel =>
    if String.eqb sel "a.business-name" then [plain "Joe's Plumbing"]
    else if String.eqb sel ".phones" then [plain "(800)  555-1234 "]
    else []).

Definition tel (t href : string) : Element :=
  mkElement (Ok t)
    (fun a => if String.eqb a "href" then Some href else None).

(** A listing with two telephone links, the first too short, and a
    number in its markup. *)
Definition with_tel_links : Listing :=
  mkListing (Ok tt)
    (fun sel =>
       if String.eqb sel "a.business-name" then Ok [plain "Ann's Bakery"]
       else if String.eqb sel "a[href^='tel:']"
            then Ok [tel "555-1234" "tel:5551234" ;
                     tel EmptyString "tel:+18005551234"]
            else Ok [])
    (fun a => if String.eqb a "innerHTML"
              then Some "<span>call 212.555.0000</span>" else None).

(** The same with short links only. *)
Definition with_short_tel_links : Listing :=
  mkListing (Ok tt)
    (fun sel =>
       if String.eqb sel "a.business-name" then Ok [plain "Ann's Bakery"]
       else if String.eqb sel "a[href^='tel:']"
            then Ok [tel "555-1234" "tel:5551234" ;
                     tel EmptyString "tel:+1555123"]
            else Ok [])
    (fun a => if String.eqb a "innerHTML"
              then Some "<span>call 212.555.0000</span>" else None).

(** A site of one results page holding the listings [ls]; no next
    control. *)
Definition one_page (ls : list Listing) : Driver :=
  {| Browser := unit;
     listing_elements := fun _ sel =>
       if String.eqb sel ".srp-listing" then Ok ls else Ok [];
     next_elements := fun _ _ => Ok [];
     click := fun b _ => Ok b;
     current_url := fun _ => "https://www.yellowpages.com/search" |}.

Fixpoint marks (n : nat) : string :=
  match n with O => EmptyString | S k => String "+" (marks k) end.

(** The URL of results page [n]. *)
Definition page_url (n : nat) : string :=
  String.append "https://www.yellowpages.com/search?p=" (marks n).

Definition button (class : string) : Element :=
  mkElement (Ok "Next")
    (fun a => if String.eqb a "class" then Some class else None).

(** A site of [n] results pages, each holding the listings [ls] and,
    except the last one, one working next control; the state is the number of
    the page, from 0. *)
Definition site (n : nat) (ls : list Listing) : Driver :=
  {| Browser := nat;
     listing_elements := fun b sel =>
       if String.eqb sel ".result" then Ok ls else Ok [];
     next_elements := fun b sel =>
       if String.eqb sel "a.next" && (S b <? n) then Ok [button "next ajax-page"]
       else Ok [];
     click := fun b _ => Ok (S b);
     current_url := page_url |}.

(** A site whose next control is preceded, under the same selector, by a
    disabled one. *)
Definition disabled_first : Driver :=
  {| Browser := nat;
     listing_elements := fun b sel =>
       if String.eqb sel ".result" then Ok [joe] else Ok [];
     next_elements := fun b sel =>
       if String.eqb sel "a.next"
       then Ok [button "prev Disabled" ; button "next"] else Ok [];
     click := fun b _ => Ok (S b);
     current_url := page_url |}.

(** A last page whose next controls bring nothing: a disabled control
    before a working one, a selector that raises, and a control whose click
    leaves the page as it is. *)
Definition dead_end : Driver :=
  {| Browser := nat;
     listing_elements := fun b sel =>
       if String.eqb sel ".result" then Ok [joe] else Ok [];
     next_elements := fun b sel =>
       if String.eqb sel "a.next"
       then Ok [button "next disabled"; button "next"]
       else if String.eqb sel "a[rel='next']"
            then Raise (OtherException "stale element")
            else if String.eqb sel ".next a" then Ok [button "more"]
                 else Ok [];
     click := fun b btn =>
       match get_attribute btn "class" with
       | Some "more" => Ok b
       | _ => Ok (S b)
       end;
     current_url := page_url |}.

(** A last page with a disabled control and a control that opens a menu:
    no click changes the page. *)
Definition stuck : Driver :=
  {| Browser := nat;
     listing_elements := fun b sel =>
       if String.eqb sel ".result" then Ok [joe] else Ok [];
     next_elements := fun b sel =>
       if String.eqb sel "a.next" then Ok [button "next disabled"]
       else if String.eqb sel ".next a" then Ok [button "more"]
            else Ok [];
     click := fun b _ => Ok b;
     current_url := page_url |}.

(** The search form is never found. *)
Definition form_missing : SearchPage :=
  {| wait_clickable := fun _ => Raise TimeoutException;
     fill_what := Ok tt; fill_where := Ok tt;
     find_button := fun _ => Raise NoSuchElementException;
     click_button := Ok tt; press_return := Ok tt;
     url_after_submit := Ok "https://www.yellowpages.com/";
     wait_results := Ok tt;
     handler_url := Ok "https://www.yellowpages.com/";
     handler_title := Ok "Yellow Pages";
     save_screenshot := fun _ => Ok true |}.

(** The form works, the results never show. *)
Definition results_missing : SearchPage :=
  {| wait_clickable := fun _ => Ok tt;
     fill_what := Ok tt; fill_where := Ok tt;
     find_button := fun _ => Raise NoSuchElementException;
     click_button := Ok tt; press_return := Ok tt;
     url_after_submit := Ok "https://www.yellowpages.com/search";
     wait_results := Raise TimeoutException;
     handler_url := Ok "https://www.yellowpages.com/search";
     handler_title := Ok "Yellow Pages";
     save_screenshot := fun _ => Ok true |}.

(** The browser is gone: every call raises. *)
Definition dead_session : SearchPage :=
  {| wait_clickable := fun _ => Raise (OtherException "invalid session id");
     fill_what := Raise (OtherException "invalid session id");
     fill_where := Raise (OtherException "invalid session id");
     find_button := fun _ => Raise (OtherException "invalid session id");
     click_button := Raise (OtherException "invalid session id");
     press_return := Raise (OtherException "invalid session id");
     url_after_submit := Raise (OtherException "invalid session id");
     wait_results := Raise (OtherException "invalid session id");
     handler_url := Raise (OtherException "no such window");
     handler_title := Raise (OtherException "no such window");
     save_screenshot := fun _ => Raise (OtherException "no such window") |}.

(** The results never show and the screenshot cannot be written. *)
Definition results_missing_disk_full : SearchPage :=
  {| wait_clickable := fun _ => Ok tt;
     fill_what := Ok tt; fill_where := Ok tt;
     find_button := fun _ => Raise NoSuchElementException;
     click_button := Ok tt; press_return := Ok tt;
     url_after_submit := Ok "https://www.yellowpages.com/search";
     wait_results := Raise TimeoutException;
     handler_url := Ok "https://www.yellowpages.com/search";
     handler_title := Ok "Yellow Pages";
     save_screenshot := fun _ => Ok false |}.

(** A web on which no search finds a profile link. *)
Definition no_links : GooglePage :=
  {| g_get := Ok tt;
     g_wait_clickable := fun _ => Ok tt;
     g_submit := Ok tt;
     g_wait_links := Raise TimeoutException;
     g_links := Ok [] |}.

Definition quiet_web : Web :=
  {| google := fun _ => no_links;
     profile := fun _ => Raise (OtherException "unreachable") |}.

Definition link (href : string) : Element :=
  mkElement (Ok "result")
    (fun a => if String.eqb a "href" then Some href else None).

(** A web on which the search page does not load for one query, every
    other search leads to one profile, and that profile does not load. *)
Definition broken_web : Web :=
  {| google := fun q =>
       if String.eqb q (Facebook.search_query_of "Down")
       then {| g_get := Raise (OtherException "net::ERR");
               g_wait_clickable := fun _ => Ok tt;
               g_submit := Ok tt;
               g_wait_links := Ok tt;
               g_links := Ok [] |}
       else {| g_get := Ok tt;
               g_wait_clickable := fun _ => Ok tt;
               g_submit := Ok tt;
               g_wait_links := Ok tt;
               g_links := Ok [link "https://www.facebook.com/pages/biz?ref=1"] |};
     profile := fun _ => Raise TimeoutException |}.

Definition contact_columns : list string :=
  ["Business Name"; "Phone Number"; "Email"].

Definition todo_row (name : string) : list Cell :=
  [Str name; Str "Not Available"; NA].

Definition done_row (name email : string) : list Cell :=
  [Str name; Str "Not Available"; Str email].

(** 35 rows, none with an email. *)
Definition table_35 : DataFrame :=
  mkDataFrame contact_columns (repeat (todo_row "Biz") 35).

(** 20 rows; the 10th and the 20th already have an email. *)
Definition table_20 : DataFrame :=
  mkDataFrame contact_columns
    (repeat (todo_row "Biz") 9 ++ [done_row "Ten" "ten@biz.com"]
     ++ repeat (todo_row "Biz") 9 ++ [done_row "Twenty" "twenty@biz.com"]).

(** Markup with [info@example.org] once and [support@facebook.com]
    twice. *)
Definition markup : string :=
  "<p>support@facebook.com</p><span>info@example.org</span><i>support@facebook.com</i>".

End Examples.

(* ================================================================== *)
(** * Notions used in the statements *)
(* ================================================================== *)

Module Notions.

(** What one candidate gives in a scope: the text of the first element,
    or the exception of the lookup. *)
Definition lookup (l : Listing) (sel : string) : Result string :=
  e <- find_element l sel ;; text e.

(** The candidate finds no element. *)
Definition no_match (l : Listing) (sel : string) : Prop :=
  lookup l sel = Raise NoSuchElementException.

(** The candidate finds no element, or an element whose text trims to
    the empty string. *)
Definition miss (l : Listing) (sel : string) : Prop :=
  no_match l sel \/ exists raw, lookup l sel = Ok raw /\ Py.strip raw = EmptyString.

(** The candidate yields the non-empty trimmed text [t]. *)
Definition yields (l : Listing) (sel : string) (t : string) : Prop :=
  exists raw, lookup l sel = Ok raw /\ Py.strip raw = t /\ Py.truthy t = true.

(** A record some listing produces. *)
Definition produced (r : ListingRecord) : Prop :=
  exists l, Extract.process_listing l = Ok (Some r).

(** [rs'] is [rs] followed by records produced from listings. *)
Definition grows (rs rs' : list ListingRecord) : Prop :=
  exists tail, rs' = rs ++ tail /\ Forall produced tail.

Definition outcome_results (o : Walk.PageOutcome) : list ListingRecord :=
  match o with Walk.Continue rs => rs | Walk.Return rs => rs end.

Definition tel_selector : string := "a[href^='tel:']".

Section NextControls.

Variable d : Driver.
Variable b : Browser d.

(** [btn] is a next control of the page at [b]: some selector of the
    chain finds it while the browser is on the URL of [b]. *)
Definition next_control (btn : Element) : Prop :=
  exists b1 sel btns,
    current_url d b1 = current_url d b
    /\ In sel Walk.next_button_selectors
    /\ next_elements d b1 sel = Ok btns
    /\ In btn btns.

(** Some next control found at [b] is not disabled and changes the URL
    when clicked at [b]. *)
Definition qualifying_control : Prop :=
  exists sel btns btn b',
    In sel Walk.next_button_selectors
    /\ next_elements d b sel = Ok btns
    /\ In btn btns
    /\ Walk.is_disabled btn = false
    /\ click d b btn = Ok b'
    /\ current_url d b' <> current_url d b.

(** No next control of the page changes the URL when it is clicked on
    that page, unless it is disabled. *)
Definition no_qualifying_control : Prop :=
  forall btn b2 b3,
    next_control btn -> Walk.is_disabled btn = false ->
    current_url d b2 = current_url d b ->
    click d b2 btn = Ok b3 ->
    current_url d b3 = current_url d b.

End NextControls.

(** The number of searches made before each write of the table. *)
Fixpoint write_points (searches : nat) (ev : list IO) : list nat :=
  match ev with
  | [] => []
  | GoogleSearch _ :: rest => write_points (S searches) rest
  | VisitProfile _ :: rest => write_points searches rest
  | ToExcel _ :: rest => searches :: write_points searches rest
  end.

(** The filter of the email scan, following the words of the
    specification: an address is left out when it is on the domain of the
    platform or begins with one of the four words. *)
Fixpoint domain_of (e : string) : string :=
  match e with
  | EmptyString => EmptyString
  | String c e' => if Ascii.eqb c "@" then e' else domain_of e'
  end.

Definition spec_blocked (e : string) : bool :=
  String.eqb (domain_of e) "facebook.com"
  || Py.endswith ".facebook.com" (domain_of e)
  || Py.startswith "support" e
  || Py.startswith "noreply" e
  || Py.startswith "no-reply" e
  || Py.startswith "notification" e.

Definition spec_regex_fallback (page_html : string) : string :=
  match filter (fun e => negb (spec_blocked e))
               (Re.findall Re.email_pattern page_html) with
  | e :: _ => e
  | [] => Facebook.sentinel
  end.

(** The lookup of a business fails with an exception: in the search, or
    on the profile the search leads to. *)
Definition lookup_raises (w : Web) (name : string) : Prop :=
  (exists e, Facebook.search_google_try
               (google w (Facebook.search_query_of name)) = Raise e)
  \/ (exists url e,
         snd (Facebook.search_google w name) = Some url
         /\ Py.truthy url = true
         /\ Facebook.extract_email_try w (Facebook.normalize_url url) = Raise e).

End Notions.

(* ================================================================== *)
(** * Saving and summarising the results *)
(* ================================================================== *)

(** [save_to_excel] and [print_summary] ([YP_scraper.py], lines 433-524;
    [unified_scraper.py], lines 517-539). *)

(** A write of a table to a named file. *)
Inductive FileWrite :=
| WriteExcel (filename : string) (df : DataFrame)
| WriteCsv (filename : string) (df : DataFrame).

(** What the file system answers to a write. *)
Record Disk := mkDisk {
  to_excel : string -> Result unit;
  to_csv : string -> Result unit
}.

Module Files.

(** [str.isalnum] on one character. *)
Definition isalnum (c : ascii) : bool :=
  let n := nat_of_ascii c in
  Py.is_ascii_letter c || Py.isdigit c
  || (n =? 170) || (n =? 181) || (n =? 186)
  || ((188 <=? n) && (n <=? 190))
  || ((192 <=? n) && (n <=? 214))
  || ((216 <=? n) && (n <=? 246))
  || (248 <=? n).

(** [c.isalnum() or c in ('_', '.', '-')] *)
Definition keep_char (c : ascii) : bool := isalnum c || Re.any_of "_.-" c.

(** ["".join(c for c in filename if ...)] *)
Fixpoint clean (s : string) : string :=
  match s with
  | EmptyString => EmptyString
  | String c s' => if keep_char c then String c (clean s') else clean s'
  end.

(** The name of the result file of a query. *)
Definition filename_of (job_type location : string) : string :=
  clean (String.append "YellowPages_"
           (String.append job_type
              (String.append "_" (String.append location ".xlsx")))).

(** [pd.DataFrame(results)] *)
Definition frame_of (results : list ListingRecord) : DataFrame :=
  mkDataFrame ["Business Name"; "Phone Number"]
    (map (fun r => [Str (business_name r); Str (phone_number r)]) results).

(** [save_to_excel] of [YP_scraper.py]: the writes made and the name
    returned. *)
Definition save_to_excel (disk : Disk) (results : list ListingRecord)
           (job_type location : string) : list FileWrite * option string :=
  match results with
  | [] => ([], None)
  | _ =>
      let df := frame_of results in
      let filename := filename_of job_type location in
      match to_excel disk filename with
      | Ok _ => ([WriteExcel filename df], Some filename)
      | Raise _ =>
          let csv_filename := Py.replace ".xlsx" ".csv" filename in
          match to_csv disk csv_filename with
          | Ok _ => ([WriteCsv csv_filename df], Some csv_filename)
          | Raise _ => ([], None)
          end
      end
  end.

(** [save_to_excel] of [unified_scraper.py]: no CSV fallback. *)
Definition unified_save_to_excel (disk : Disk) (results : list ListingRecord)
           (job_type location : string) : list FileWrite * option string :=
  match results with
  | [] => ([], None)
  | _ =>
      let df := frame_of results in
      let filename := filename_of job_type location in
      match to_excel disk filename with
      | Ok _ => ([WriteExcel filename df], Some filename)
      | Raise _ => ([], None)
      end
  end.

(** [enumerate(l, start)] *)
Fixpoint enumerate {A} (start : nat) (l : list A) : list (nat * A) :=
  match l with
  | [] => []
  | x :: rest => (start, x) :: enumerate (S start) rest
  end.

(** One line of the preview: the number, the name cut at 50 characters,
    the phone. *)
Definition preview_line (x : nat * ListingRecord) : nat * string * string :=
  (fst x, Py.take 50 (business_name (snd x)), phone_number (snd x)).

Record Summary := mkSummary {
  total : nat;
  with_phone : nat;
  without_phone : nat;
  first_lines : list (nat * string * string);
  last_lines : list (nat * string * string)
}.

(** [print_summary]: what is printed, or [None] for ["No results to
    display."]. *)
Definition print_summary (results : list ListingRecord) : option Summary :=
  match results with
  | [] => None
  | _ =>
      let n := length results in
      let w := length (filter (fun r =>
                 negb (String.eqb (phone_number r) "Not Available")) results) in
      Some (mkSummary n w (n - w)
              (map preview_line (enumerate 1 (firstn 5 results)))
              (if 10 <? n
               then map preview_line (enumerate (n - 4) (skipn (n - 5) results))
               else []))
  end.

End Files.

(* ================================================================== *)
(** * Further notions used in the statements *)
(* ================================================================== *)

Module MoreNotions.

(** The records one listing adds. *)
Definition records_of (l : Listing) : list ListingRecord :=
  match Extract.process_listing l with
  | Ok (Some r) => [r]
  | _ => []
  end.

(** A selector of the page chain that finds nothing or fails. *)
Definition finds_nothing (d : Driver) (b : Browser d) (sel : string) : Prop :=
  listing_elements d b sel = Ok [] \/ exists e, listing_elements d b sel = Raise e.

Fixpoint all_in (p : ascii -> bool) (s : string) : bool :=
  match s with
  | EmptyString => true
  | String c s' => p c && all_in p s'
  end.

Definition within (h : option nat) (n : nat) : Prop :=
  match h with Some k => n <= k | None => True end.

(** The texts a pattern describes: one run of characters per item, of a
    length the item allows. *)
Fixpoint in_lang (pat : Re.pattern) (m : string) : Prop :=
  match pat with
  | [] => m = EmptyString
  | it :: rest =>
      exists m1 m2,
        m = String.append m1 m2
        /\ all_in (Re.cls it) m1 = true
        /\ Re.lo it <= String.length m1
        /\ within (Re.hi it) (String.length m1)
        /\ in_lang rest m2
  end.

(** The table the enricher ends with, for a table that has the
    [Email] column. *)
Definition final_table (w : Web) (df : DataFrame) : DataFrame :=
  snd (Facebook.rows_loop w (columns df) (rows df) 0 df).

(** The row is as it was, or only its [Email] cell was set to a string. *)
Definition email_set_or_same (cols : list string) (row row' : list Cell) : Prop :=
  row' = row
  \/ exists j e, Df.index_of "Email" cols = Some j
                 /\ row' = Df.set_nth j (Str e) row.

(** The table keeps its columns, and each row is as it was or has its
    [Email] cell set. *)
Definition kept (df df' : DataFrame) : Prop :=
  columns df' = columns df
  /\ Forall2 (email_set_or_same (columns df)) (rows df) (rows df').

Definition is_search (e : IO) : bool :=
  match e with GoogleSearch _ => true | _ => false end.

Definition is_visit (e : IO) : bool :=
  match e with VisitProfile _ => true | _ => false end.

(** The row is one the enricher looks up. *)
Definition needs_lookup (cols : list string) (row : list Cell) : bool :=
  negb (Facebook.already_has_email (Df.row_get cols row "Email")).

Definition is_screenshot (e : Effect) : bool :=
  match e with SaveScreenshot _ => true | _ => false end.

(** The browser answers the calls of the handler for the exception [e]
    and writes the screenshot. *)
Definition session_answers (p : SearchPage) (e : exn) : Prop :=
  (exists u, handler_url p = Ok u)
  /\ (e = TimeoutException -> exists t, handler_title p = Ok t)
  /\ save_screenshot p "search_error.png" = Ok true.

End MoreNotions.

(* ================================================================== *)
(** * The phone chain with its lookups *)
(* ================================================================== *)

Module PhoneChain.

(** What one candidate of the phone chain gives in a scope: the first
    phone-like text among its elements, nothing, or an exception. *)
Definition phone_lookup (l : Listing) (sel : string) : Result (option string) :=
  els <- find_elements l sel ;; Extract.phone_elements_loop els.

Definition phone_yields (l : Listing) (sel : string) (t : string) : Prop :=
  phone_lookup l sel = Ok (Some t).

(** The candidate finds no phone-like text, or raises. *)
Definition phone_miss (l : Listing) (sel : string) : Prop :=
  phone_lookup l sel = Ok None \/ exists e, phone_lookup l sel = Raise e.

(** The text of a phone element, trimmed and with its white space
    collapsed. *)
Definition phone_text (raw : string) : string :=
  Py.join " " (Py.split_ws (Py.strip raw)).

(** An element whose text is read and is not phone-like. *)
Definition not_a_phone (el : Element) : Prop :=
  exists raw, text el = Ok raw
              /\ Extract.looks_like_phone (phone_text raw) = false.

(** Method 1 of the phone extraction together with the selectors it
    looks up, in order. *)
Fixpoint phone_chain (l : Listing) (sels : list string)
  : list string * option string :=
  match sels with
  | [] => ([], None)
  | sel :: rest =>
      match phone_lookup l sel with
      | Ok (Some t) => ([sel], Some t)
      | _ => let (q, r) := phone_chain l rest in (sel :: q, r)
      end
  end.

End PhoneChain.

(* ================================================================== *)
(** * The walk with its navigation *)
(* ================================================================== *)

(** What the walk does to find the next page: the look-up of a selector
    of the next chain, and the scroll-and-click script run on a control. *)
Inductive NavEvent :=
| LookForNext (sel : string)
| ClickNext (btn : Element).

Module Nav.

Section WithDriver.

Variable d : Driver.

(** [Walk.try_buttons] with the scripts it runs. *)
Fixpoint try_buttons (b : Browser d) (btns : list Element)
  : Browser d * Result bool * list NavEvent :=
  match btns with
  | [] => (b, Ok false, [])
  | btn :: rest =>
      if Walk.is_disabled btn then (b, Ok false, [])
      else
        match click d b btn with
        | Raise e => (b, Raise e, [ClickNext btn])
        | Ok b' =>
            if negb (String.eqb (current_url d b') (current_url d b))
            then (b', Ok true, [ClickNext btn])
            else let '(b2, r, ev) := try_buttons b' rest in
                 (b2, r, ClickNext btn :: ev)
        end
  end.

(** [Walk.find_next] with its look-ups and scripts. *)
Fixpoint find_next (b : Browser d) (sels : list string)
  : Browser d * bool * list NavEvent :=
  match sels with
  | [] => (b, false, [])
  | sel :: rest =>
      match next_elements d b sel with
      | Raise _ =>
          let '(b2, f, ev) := find_next b rest in (b2, f, LookForNext sel :: ev)
      | Ok btns =>
          match try_buttons b btns with
          | (b', Ok true, ev) => (b', true, LookForNext sel :: ev)
          | (b', _, ev) =>
              let '(b2, f, ev') := find_next b' rest in
              (b2, f, LookForNext sel :: ev ++ ev')
          end
      end
  end.

(** The control does nothing: it is not disabled and its click leaves
    the page as it is. *)
Definition inert (b : Browser d) (btn : Element) : Prop :=
  Walk.is_disabled btn = false /\ click d b btn = Ok b.

(** The selector brings no next page and leaves the page as it is: its
    look-up raises, or its controls do nothing up to the end of the list, to
    a disabled control, or to a control whose click raises. *)
Definition gives_up (b : Browser d) (sel : string) : Prop :=
  (exists e, next_elements d b sel = Raise e)
  \/ exists dull tail,
       next_elements d b sel = Ok (dull ++ tail)
       /\ Forall (inert b) dull
       /\ (tail = []
           \/ exists x t, tail = x :: t
                /\ (Walk.is_disabled x = true
                    \/ exists e, click d b x = Raise e)).

(** The selector brings the next page [b'] by its control [btn]: the
    controls before [btn] do nothing, [btn] is not disabled and its click
    changes the URL. *)
Definition advances (b : Browser d) (sel : string) (btn : Element)
           (b' : Browser d) : Prop :=
  exists dull rest,
    next_elements d b sel = Ok (dull ++ btn :: rest)
    /\ Forall (inert b) dull
    /\ Walk.is_disabled btn = false
    /\ click d b btn = Ok b'
    /\ current_url d b' <> current_url d b.

End WithDriver.

(** [YP.walk] with the navigation it makes. *)
Fixpoint walk (d : Driver) (max_results max_pages : option Z) (fuel : nat)
         (b : Browser d) (current_page : nat) (results : list ListingRecord)
  : option (list ListingRecord * nat * list NavEvent) :=
  match fuel with
  | O => None
  | S fuel' =>
      match Walk.find_listings d b Walk.listing_selectors with
      | [] => Some (results, current_page, [])
      | listings =>
          match Walk.listings_loop max_results listings results with
          | Walk.Return results' => Some (results', current_page, [])
          | Walk.Continue results' =>
              if Walk.reached max_pages current_page
              then Some (results', current_page, [])
              else
                match find_next d b Walk.next_button_selectors with
                | (b', true, ev) =>
                    match walk d max_results max_pages fuel' b'
                               (S current_page) results' with
                    | Some (rs, p, ev') => Some (rs, p, ev ++ ev')
                    | None => None
                    end
                | (_, false, ev) => Some (results', current_page, ev)
                end
          end
      end
  end.

(** The pages the walk can come to from [b]: by clicks on the site. *)
Inductive reach (d : Driver) (b : Browser d) : Browser d -> Prop :=
| reach_here : reach d b b
| reach_click : forall b1 btn b2,
    reach d b b1 -> click d b1 btn = Ok b2 -> reach d b b2.

(** [l] is a listing element of a page the walk can come to from [b]. *)
Definition listed_on (d : Driver) (b : Browser d) (l : Listing) : Prop :=
  exists b', reach d b b'
             /\ In l (Walk.find_listings d b' Walk.listing_selectors).

(** The record [r] was made from a listing element of such a page: its
    name is the trimmed text of the first element a name selector finds in
    that listing, its phone what the phone extraction gives for it. *)
Definition recorded_from (d : Driver) (b : Browser d) (r : ListingRecord)
  : Prop :=
  exists l sel raw,
    listed_on d b l
    /\ Extract.process_listing l = Ok (Some r)
    /\ In sel Extract.name_selectors
    /\ Notions.lookup l sel = Ok raw
    /\ business_name r = Py.strip raw
    /\ phone_number r = Extract.extract_phone l.

(** The result and the page count of a logged walk. *)
Definition outcome (r : option (list ListingRecord * nat * list NavEvent))
  : option (list ListingRecord * nat) :=
  match r with
  | Some (rs, p, _) => Some (rs, p)
  | None => None
  end.

End Nav.

(* ================================================================== *)
(** * The table on disk *)
(* ================================================================== *)

(** A cell of a worksheet: empty, or a text.  The sheets this program
    writes hold texts only. *)
Inductive XCell :=
| Blank
| Text (s : string).

(** A worksheet: the header row and the rows below it. *)
Record Workbook := mkWorkbook {
  header : list string;
  body : list (list XCell)
}.

(** The file named by [excel_path], as it is on disk. *)
Inductive File :=
| NoFile
| Corrupt
| Book (wb : Workbook).

Module Excel.

(** The texts that [pd.read_excel] reads as a missing value. *)
Definition na_values : list string :=
  [ EmptyString ; "#N/A" ; "#N/A N/A" ; "#NA" ; "-1.#IND" ; "-1.#QNAN" ;
    "-NaN" ; "-nan" ; "1.#IND" ; "1.#QNAN" ; "<NA>" ; "N/A" ; "NA" ;
    "NULL" ; "NaN" ; "None" ; "n/a" ; "nan" ; "null" ].

Definition na_like (s : string) : bool := existsb (String.eqb s) na_values.

Definition load_cell (c : XCell) : Cell :=
  match c with
  | Blank => NA
  | Text s => if na_like s then NA else Str s
  end.

(** [pd.read_excel(excel_path)] *)
Definition read_excel (wb : Workbook) : DataFrame :=
  mkDataFrame (header wb) (map (map load_cell) (body wb)).

Definition store_cell (c : Cell) : XCell :=
  match c with
  | NA => Blank
  | Str s => Text s
  end.

(** [df.to_excel(excel_path, index=False, sheet_name='Results')]: a
    missing value is written as an empty cell. *)
Definition to_excel (df : DataFrame) : Workbook :=
  mkWorkbook (columns df) (map (map store_cell) (rows df)).

(** A cell that is read back as it is written. *)
Definition plain_cell (c : XCell) : Prop :=
  match c with
  | Blank => True
  | Text s => na_like s = false
  end.

Definition plain_book (wb : Workbook) : Prop :=
  Forall (Forall plain_cell) (body wb).

End Excel.

(* ================================================================== *)
(** * The enricher on a file, with its outcome *)
(* ================================================================== *)

(** How the installed pandas stores a text into a column that holds
    missing values only, and so is a column of floats: it widens the column
    (with a warning), or it raises [TypeError]. *)
Inductive Pandas :=
| Widening
| Strict.

Module Run.

(** The column holds missing values only. *)
Definition all_missing (df : DataFrame) (col : string) : bool :=
  forallb (fun row => negb (Df.notna (Df.row_get (columns df) row col)))
          (rows df).

(** [df.at[idx, 'Email'] = v] for a text [v]. *)
Definition assign (pd : Pandas) (df : DataFrame) (idx : nat) (v : string)
  : Result DataFrame :=
  match pd with
  | Widening => Ok (Df.set_at df idx "Email" (Str v))
  | Strict =>
      if all_missing df "Email" then Raise (OtherException "TypeError")
      else Ok (Df.set_at df idx "Email" (Str v))
  end.

(** One row that is not skipped ([facebook.py], lines 262-289). *)
Definition lookup_row (pd : Pandas) (w : Web) (df : DataFrame) (idx : nat)
           (business_name : Cell) : list IO * Result DataFrame :=
  let (ev1, facebook_url) := Facebook.search_google w (Df.format business_name) in
  match facebook_url with
  | Some url =>
      if Py.truthy url then
        let (ev2, email) := Facebook.extract_email_from_facebook w url in
        if negb (String.eqb email Facebook.sentinel)
        then (ev1 ++ ev2, assign pd df idx email)
        else (ev1 ++ ev2, assign pd df idx Facebook.sentinel)
      else (ev1, assign pd df idx Facebook.sentinel)
  | None => (ev1, assign pd df idx Facebook.sentinel)
  end.

(** The loop over [df.iterrows()]; an exception of an assignment ends
    it. *)
Fixpoint rows_loop (pd : Pandas) (w : Web) (cols : list string)
         (todo : list (list Cell)) (idx : nat) (df : DataFrame)
  : list IO * Result DataFrame :=
  match todo with
  | [] => ([], Ok df)
  | row :: rest =>
      let business_name := Df.row_get cols row "Business Name" in
      if Facebook.already_has_email (Df.row_get cols row "Email")
      then rows_loop pd w cols rest (S idx) df
      else
        match lookup_row pd w df idx business_name with
        | (ev, Raise e) => (ev, Raise e)
        | (ev, Ok df1) =>
            let saved := if (idx + 1) mod 10 =? 0 then [ToExcel df1] else [] in
            let (evs, r) := rows_loop pd w cols rest (S idx) df1 in
            (ev ++ saved ++ evs, r)
        end
  end.

(** The rows of the two previews: [df.head()], and [df.tail()] when the
    table has more than 10 rows. *)
Definition previewed (df : DataFrame) : list (list Cell) :=
  let n := length (rows df) in
  firstn 5 (rows df) ++ (if 10 <? n then skipn (n - 5) (rows df) else []).

(** The code after the final save: [row['Business Name'][:40]] raises
    on a missing name. *)
Definition preview (df : DataFrame) : Result unit :=
  if forallb (fun row =>
                Df.notna (Df.row_get (columns df) row "Business Name"))
             (previewed df)
  then Ok tt
  else Raise (OtherException "TypeError").

(** The run on the table that was loaded.  The writes are taken to
    succeed. *)
Definition process_table (pd : Pandas) (w : Web) (df : DataFrame)
  : list IO * Result unit :=
  if negb (Df.has_column df "Business Name") then ([], Ok tt)
  else
    let df := if negb (Df.has_column df "Email")
              then Df.add_column df "Email" (Str Facebook.sentinel)
              else df in
    match rows_loop pd w (columns df) (rows df) 0 df with
    | (ev, Raise e) => (ev, Raise e)
    | (ev, Ok df') => (ev ++ [ToExcel df'], preview df')
    end.

(** [process_excel_file] of [facebook.py]: the network activity and the
    writes, in order, and how the call ends. *)
Definition process_excel_file (pd : Pandas) (w : Web) (file : File)
  : list IO * Result unit :=
  match file with
  | NoFile => ([], Ok tt)
  | Corrupt => ([], Ok tt)
  | Book wb => process_table pd w (Excel.read_excel wb)
  end.

(** [process_excel_for_emails] of [unified_scraper.py]: the same, with
    the boolean returned. *)
Definition process_excel_for_emails (pd : Pandas) (w : Web) (file : File)
  : list IO * Result bool :=
  match file with
  | NoFile => ([], Ok false)
  | Corrupt => ([], Ok false)
  | Book wb =>
      let df := Excel.read_excel wb in
      if negb (Df.has_column df "Business Name") then ([], Ok false)
      else
        let df := if negb (Df.has_column df "Email")
                  then Df.add_column df "Email" (Str Facebook.sentinel)
                  else df in
        match rows_loop pd w (columns df) (rows df) 0 df with
        | (ev, Raise e) => (ev, Raise e)
        | (ev, Ok df') =>
            (ev ++ [ToExcel df'],
             match preview df' with
             | Ok _ => Ok true
             | Raise e => Raise e
             end)
        end
  end.

(** The file after a run: what the last write left, or the file as it
    was. *)
Definition on_disk (file : File) (ev : list IO) : File :=
  fold_left (fun f e => match e with
                        | ToExcel df => Book (Excel.to_excel df)
                        | _ => f
                        end) ev file.

(** The assignment of a text into the [Email] column goes through. *)
Definition stores_text (pd : Pandas) (df : DataFrame) : Prop :=
  pd = Widening \/ all_missing df "Email" = false.

(** Every row has one cell per column. *)
Definition aligned (df : DataFrame) : Prop :=
  Forall (fun row => length row = length (columns df)) (rows df).

(** The searches made, in order. *)
Definition queries (ev : list IO) : list string :=
  flat_map (fun e => match e with GoogleSearch q => [q] | _ => [] end) ev.

(** The search a row leads to. *)
Definition query_of (cols : list string) (row : list Cell) : string :=
  Facebook.search_query_of (Df.format (Df.row_get cols row "Business Name")).

End Run.

Module RunExamples.

Definition book (rows : list (list XCell)) : Workbook :=
  mkWorkbook ["Business Name"; "Phone Number"; "Email"] rows.

(** Every row has an email; one phone cell holds the text [N/A]. *)
Definition book_with_na : Workbook :=
  book [ [Text "Joe's Plumbing"; Text "N/A"; Text "joe@biz.com"] ;
         [Text "Ann's Bakery"; Text "(800) 555-1234"; Text "ann@biz.com"] ].

(** Every row has an email and no cell reads as missing. *)
Definition book_done : Workbook :=
  book [ [Text "Joe's Plumbing"; Text "Not Available"; Text "joe@biz.com"] ;
         [Text "Ann's Bakery"; Text "(800) 555-1234"; Text "ann@biz.com"] ].

(** A second run on a file in which no email was found: the [Email]
    cells hold [NaN]. *)
Definition book_no_email : Workbook :=
  book [ [Text "Down"; Text "Not Available"; Text "NaN"] ;
         [Text "Up"; Text "Not Available"; Text "NaN"] ].

(** One row has an email, two have none. *)
Definition book_mixed : Workbook :=
  book [ [Text "A"; Text "Not Available"; Text "a@biz.com"] ;
         [Text "Down"; Text "Not Available"; Text "NaN"] ;
         [Text "Up"; Text "Not Available"; Blank] ].

(** A file in which the collector recorded a listing with a blank name
    (an empty cell, which loads as a missing value); every row has an
    email. *)
Definition book_blank_name : Workbook :=
  book [ [Text "Joe's Plumbing"; Text "Not Available"; Text "joe@biz.com"] ;
         [Blank; Text "(800) 555-1234"; Text "ann@biz.com"] ].

(** The file the collector writes: no [Email] column. *)
Definition first_run (n : nat) : DataFrame :=
  mkDataFrame ["Business Name"; "Phone Number"]
    (repeat [Str "Biz"; Str "Not Available"] n).

End RunExamples.

(* ================================================================== *)
(** * Properties of the field extractor *)
(* ================================================================== *)

Module ExtractFacts.
Import Extract Notions.

Lemma name_loop_winner l pre : forall s post t cur,
  Forall (miss l) pre -> yields l s t ->
  name_loop l (pre ++ s :: post) cur = (pre ++ [s], Ok t).
Proof.
  induction pre as [|x pre IH]; intros s post t cur Hpre (raw & Hl & Hs & Ht).
  - simpl. unfold lookup in Hl. rewrite Hl, Hs, Ht. reflexivity.
  - pose proof (Forall_inv Hpre) as Hx.
    pose proof (Forall_inv_tail Hpre) as Hrest. simpl.
    assert (Hy : yields l s t) by (exists raw; auto).
    destruct Hx as [Hx | (r & Hx & Hr)]; unfold no_match, lookup in Hx;
      rewrite Hx.
    + rewrite (IH s post t cur Hrest Hy). reflexivity.
    + rewrite Hr. simpl. rewrite (IH s post t EmptyString Hrest Hy). reflexivity.
Qed.

Lemma name_loop_no_match l c : forall cur,
  Forall (no_match l) c -> name_loop l c cur = (c, Ok cur).
Proof.
  induction c as [|x c IH]; intros cur H; [reflexivity|].
  pose proof (Forall_inv H) as Hx. pose proof (Forall_inv_tail H) as Hrest.
  simpl. unfold no_match, lookup in Hx. rewrite Hx, (IH cur Hrest). reflexivity.
Qed.

(** The selectors looked up are an initial part of the chain. *)
Lemma name_loop_queries_prefix l c : forall cur,
  exists rest, c = fst (name_loop l c cur) ++ rest.
Proof.
  induction c as [|x c IH]; intros cur; [exists []; reflexivity|].
  simpl. destruct (e <- find_element l x;; text e) as [raw|[| |m]].
  - destruct (Py.truthy (Py.strip raw)).
    + exists c. reflexivity.
    + destruct (IH (Py.strip raw)) as [rest Hr].
      destruct (name_loop l c (Py.strip raw)) as [q r]. simpl in *.
      exists rest. congruence.
  - destruct (IH cur) as [rest Hr].
    destruct (name_loop l c cur) as [q r]. simpl in *.
    exists rest. congruence.
  - exists c. reflexivity.
  - exists c. reflexivity.
Qed.

(** A name that comes out of the loop is the starting value or a trimmed
    text. *)
Lemma process_listing_name l r :
  process_listing l = Ok (Some r) ->
  extract_name l name_selectors = Ok (business_name r)
  /\ String.eqb (business_name r) name_sentinel = false.
Proof.
  unfold process_listing. destruct (scroll_into_view l) as [u|e]; simpl; [|discriminate].
  destruct (extract_name l name_selectors) as [n|e]; simpl; [|discriminate].
  destruct (String.eqb n name_sentinel) eqn:E; simpl; [discriminate|].
  intros H. inversion H; subst. simpl. auto.
Qed.

End ExtractFacts.

(* ================================================================== *)
(** * Properties of the walk *)
(* ================================================================== *)

Module WalkFacts.
Import Extract Notions ExtractFacts.

Lemma grows_refl rs : grows rs rs.
Proof. exists []. rewrite app_nil_r. auto. Qed.

Lemma grows_trans a b c : grows a b -> grows b c -> grows a c.
Proof.
  intros (t1 & -> & H1) (t2 & -> & H2). exists (t1 ++ t2).
  rewrite app_assoc. split; [reflexivity|]. apply Forall_app; auto.
Qed.

Lemma listing_step_grows rs l : grows rs (listing_step rs l).
Proof.
  unfold listing_step. destruct (process_listing l) as [[r|]|e] eqn:E;
    try apply grows_refl.
  exists [r]. split; [reflexivity|]. constructor; [|constructor].
  exists l. exact E.
Qed.

Lemma fold_step_grows ls : forall rs, grows rs (fold_left listing_step ls rs).
Proof.
  induction ls as [|l ls IH]; intros rs; simpl; [apply grows_refl|].
  eapply grows_trans; [apply listing_step_grows | apply IH].
Qed.

Lemma listings_loop_grows mr ls : forall rs,
  grows rs (outcome_results (Walk.listings_loop mr ls rs)).
Proof.
  induction ls as [|l ls IH]; intros rs; simpl; [apply grows_refl|].
  destruct (Walk.reached mr (length rs)); simpl; [apply grows_refl|].
  eapply grows_trans; [apply listing_step_grows | apply IH].
Qed.

(** Without a result bound the page loop is the plain iteration. *)
Lemma listings_loop_unbounded ls : forall rs,
  Walk.listings_loop None ls rs = Walk.Continue (fold_left listing_step ls rs).
Proof.
  induction ls as [|l ls IH]; intros rs; simpl; [reflexivity|]. apply IH.
Qed.

(** One iteration of the [while True] loop. *)
Lemma YP_walk_S d mr mp fuel b p rs :
  YP.walk d mr mp (S fuel) b p rs =
  match Walk.find_listings d b Walk.listing_selectors with
  | [] => Some (rs, p)
  | listings =>
      match Walk.listings_loop mr listings rs with
      | Walk.Return rs' => Some (rs', p)
      | Walk.Continue rs' =>
          if Walk.reached mp p then Some (rs', p)
          else match Walk.find_next d b Walk.next_button_selectors with
               | (b', true) => YP.walk d mr mp fuel b' (S p) rs'
               | (_, false) => Some (rs', p)
               end
      end
  end.
Proof. reflexivity. Qed.

Lemma Unified_walk_S d fuel b p rs :
  Unified.walk d (S fuel) b p rs =
  match Walk.find_listings d b Walk.listing_selectors with
  | [] => Some (rs, p)
  | listings =>
      let rs' := fold_left listing_step listings rs in
      match Walk.find_next d b Walk.next_button_selectors with
      | (b', true) => Unified.walk d fuel b' (S p) rs'
      | (_, false) => Some (rs', p)
      end
  end.
Proof. reflexivity. Qed.

Lemma YP_walk_grows d mr mp fuel : forall b p rs rs' p',
  YP.walk d mr mp fuel b p rs = Some (rs', p') -> grows rs rs'.
Proof.
  induction fuel as [|fuel IH]; intros b p rs rs' p' H;
    [discriminate | rewrite YP_walk_S in H].
  destruct (Walk.find_listings d b Walk.listing_selectors) as [|l ls].
  - inversion H; subst. apply grows_refl.
  - pose proof (listings_loop_grows mr (l :: ls) rs) as G.
    destruct (Walk.listings_loop mr (l :: ls) rs) as [rs1|rs1]; simpl in G.
    + destruct (Walk.reached mp p).
      * inversion H; subst. exact G.
      * destruct (Walk.find_next d b Walk.next_button_selectors) as [b' [|]].
        -- eapply grows_trans; [exact G | eapply IH; exact H].
        -- inversion H; subst. exact G.
    + inversion H; subst. exact G.
Qed.

Lemma Unified_walk_grows d fuel : forall b p rs rs' p',
  Unified.walk d fuel b p rs = Some (rs', p') -> grows rs rs'.
Proof.
  induction fuel as [|fuel IH]; intros b p rs rs' p' H;
    [discriminate | rewrite Unified_walk_S in H].
  destruct (Walk.find_listings d b Walk.listing_selectors) as [|l ls].
  - inversion H; subst. apply grows_refl.
  - pose proof (fold_step_grows (l :: ls) rs) as G. cbv zeta in H.
    destruct (Walk.find_next d b Walk.next_button_selectors) as [b' [|]].
    + eapply grows_trans; [exact G | eapply IH; exact H].
    + inversion H; subst. exact G.
Qed.

(** The unified walk is the walk of [YP_scraper.py] without bounds. *)
Lemma Unified_walk_is_YP_walk d fuel : forall b p rs,
  Unified.walk d fuel b p rs = YP.walk d None None fuel b p rs.
Proof.
  induction fuel as [|fuel IH]; intros b p rs; [reflexivity|].
  rewrite Unified_walk_S, YP_walk_S.
  destruct (Walk.find_listings d b Walk.listing_selectors) as [|l ls];
    [reflexivity|].
  rewrite listings_loop_unbounded. cbv zeta. unfold Walk.reached.
  destruct (Walk.find_next d b Walk.next_button_selectors) as [b' [|]];
    [apply IH | reflexivity].
Qed.

End WalkFacts.

(* ================================================================== *)
(** * The claims about the field extractor *)
(* ================================================================== *)

Module ExtractClaims.
Import Extract Notions PhoneChain ExtractFacts WalkFacts Examples.

Lemma phone_chain_is_method1 l sels :
  snd (phone_chain l sels) = phone_method1 l sels.
Proof.
  induction sels as [|s sels IH]; [reflexivity|].
  cbn [phone_chain phone_method1]. unfold phone_lookup.
  destruct (els <- find_elements l s;; phone_elements_loop els) as [[t|]|e];
    [reflexivity| |];
    destruct (phone_chain l sels) as [q r]; exact IH.
Qed.

Lemma phone_chain_winner l pre : forall s post t,
  Forall (phone_miss l) pre -> phone_yields l s t ->
  phone_chain l (pre ++ s :: post) = (pre ++ [s], Some t).
Proof.
  induction pre as [|x pre IH]; intros s post t Hpre Hy.
  - simpl. unfold phone_yields in Hy. rewrite Hy. reflexivity.
  - pose proof (Forall_inv Hpre) as Hx.
    pose proof (Forall_inv_tail Hpre) as Hrest.
    simpl. rewrite (IH s post t Hrest Hy).
    destruct Hx as [Hx|(e & Hx)]; rewrite Hx; reflexivity.
Qed.

Lemma phone_chain_no_winner l c :
  Forall (phone_miss l) c -> phone_chain l c = (c, None).
Proof.
  induction c as [|x c IH]; intros H; [reflexivity|].
  simpl. rewrite (IH (Forall_inv_tail H)).
  destruct (Forall_inv H) as [Hx|(e & Hx)]; rewrite Hx; reflexivity.
Qed.

Lemma phone_chain_queries_prefix l c :
  exists rest, c = fst (phone_chain l c) ++ rest.
Proof.
  induction c as [|x c IH]; [exists []; reflexivity|].
  simpl. destruct IH as (rest & IH).
  destruct (phone_lookup l x) as [[t|]|e].
  - exists c. reflexivity.
  - destruct (phone_chain l c) as [q r]. simpl in *. exists rest. congruence.
  - destruct (phone_chain l c) as [q r]. simpl in *. exists rest. congruence.
Qed.

Lemma phone_elements_loop_first pre : forall el post raw,
  Forall not_a_phone pre -> text el = Ok raw ->
  looks_like_phone (phone_text raw) = true ->
  phone_elements_loop (pre ++ el :: post) = Ok (Some (phone_text raw)).
Proof.
  induction pre as [|x pre IH]; intros el post raw Hpre Ht Hl.
  - cbn [app phone_elements_loop]. rewrite Ht. cbn [bind]. cbv zeta.
    fold (phone_text raw). rewrite Hl. reflexivity.
  - destruct (Forall_inv Hpre) as (r & Hr & Hn).
    cbn [app phone_elements_loop]. rewrite Hr. cbn [bind]. cbv zeta.
    fold (phone_text r). rewrite Hn.
    apply IH; [exact (Forall_inv_tail Hpre)|exact Ht|exact Hl].
Qed.


Lemma two_names_misses :
  Forall (miss two_names) ["a.business-name"; ".business-name"].
Proof.
  constructor; [left; reflexivity|].
  constructor; [|constructor].
  right. exists "  ". split; reflexivity.
Qed.

Lemma two_names_yields : yields two_names "h2.n a" "Joe's Plumbing".
Proof. exists " Joe's Plumbing ". repeat split. Qed.

Lemma joe_phone_misses :
  Forall (phone_miss joe) [".phones.phone.primary"; ".phone.primary"].
Proof. constructor; [left; reflexivity|]. constructor; [left; reflexivity|constructor]. Qed.



(** C2, at the failing input.  A listing whose only name element has blank
    text gets through the name check, and the collector of either file
    returns a record whose business name is the empty string. *)
Theorem C2_blank_name_is_recorded :
  extract_name blank_name name_selectors = Ok EmptyString
  /\ YP.extract_listings (one_page [blank_name]) None None 1 tt
     = Some ([mkRecord EmptyString "Not Available"], 1)
  /\ Unified.extract_listings (one_page [blank_name]) 1 tt
     = Some ([mkRecord EmptyString "Not Available"], 1).
Proof. repeat split. Qed.

Lemma listing_step_unknown l results :
  extract_name l name_selectors = Ok name_sentinel ->
  listing_step results l = results.
Proof.
  intros H. unfold listing_step, process_listing.
  destruct (scroll_into_view l); simpl; [|reflexivity].
  rewrite H. reflexivity.
Qed.

Lemma produced_not_unknown r : produced r -> business_name r <> "Unknown".
Proof.
  intros (l & H). apply process_listing_name in H. destruct H as [_ H].
  intros E. rewrite E in H. discriminate.
Qed.

Lemma grows_from_nil_not_unknown rs :
  grows [] rs -> Forall (fun r => business_name r <> "Unknown") rs.
Proof.
  intros (tail & -> & H). simpl.
  eapply Forall_impl; [|exact H]. intros r. apply produced_not_unknown.
Qed.

(** C9.  The value the name loop starts from, and returns when no
    candidate finds an element, is the string ["Unknown"]; a listing whose
    extracted name is ["Unknown"], found or not, leaves the result list as it
    was, any other name is recorded; so no record of the result set of
    either collector is named ["Unknown"]. *)
Theorem C9_name_unknown_is_dropped :
  (forall l, Forall (no_match l) name_selectors ->
             extract_name l name_selectors = Ok "Unknown")
  /\ (forall l results,
         extract_name l name_selectors = Ok "Unknown" ->
         listing_step results l = results)
  /\ (forall l results n,
         scroll_into_view l = Ok tt ->
         extract_name l name_selectors = Ok n -> n <> "Unknown" ->
         listing_step results l = results ++ [mkRecord n (extract_phone l)])
  /\ (forall d mr mp fuel b rs p,
         YP.extract_listings d mr mp fuel b = Some (rs, p) ->
         Forall (fun r => business_name r <> "Unknown") rs)
  /\ (forall d fuel b rs p,
         Unified.extract_listings d fuel b = Some (rs, p) ->
         Forall (fun r => business_name r <> "Unknown") rs).
Proof.
  split; [|split; [|split; [|split]]].
  - intros l H. unfold extract_name, name_chain.
    rewrite (name_loop_no_match name_sentinel H). reflexivity.
  - intros l results H. apply listing_step_unknown. exact H.
  - intros l results n Hs Hn Hne. unfold listing_step, process_listing.
    rewrite Hs, Hn. simpl.
    destruct (String.eqb n name_sentinel) eqn:E.
    + apply String.eqb_eq in E. contradiction.
    + reflexivity.
  - intros d mr mp fuel b rs p H. apply grows_from_nil_not_unknown.
    eapply YP_walk_grows. exact H.
  - intros d fuel b rs p H. apply grows_from_nil_not_unknown.
    eapply Unified_walk_grows. exact H.
Qed.

Lemma C9_name_unknown_is_dropped_witness :
  listing_step [mkRecord "Joe" "1"] called_unknown = [mkRecord "Joe" "1"]
  /\ Forall (fun r => business_name r <> "Unknown")
            [mkRecord "Joe's Plumbing" "(800) 555-1234"].
Proof.
  destruct C9_name_unknown_is_dropped as (_ & H2 & _ & H4 & _).
  split.
  - apply (H2 called_unknown). reflexivity.
  - apply (H4 (one_page [called_unknown; joe]) None None 1 tt _ 1). reflexivity.
Defined.

Lemma tel_links_loop_accepts links : forall v,
  tel_links_loop links = Ok (Some v) ->
  10 <= String.length v /\ exists a, In a links /\ tel_candidate a = Ok v.
Proof.
  induction links as [|a links IH]; intros v H; [discriminate|].
  cbn [tel_links_loop] in H.
  destruct (tel_candidate a) as [t|e] eqn:E; cbn [bind] in H; [|discriminate].
  destruct (Py.truthy t && (10 <=? String.length t)) eqn:A.
  - inversion H; subst. apply andb_prop in A. destruct A as [_ A].
    apply Nat.leb_le in A. split; [exact A|]. exists a. split; [left; reflexivity|exact E].
  - destruct (IH v H) as (Hlen & a' & Hin & Ha').
    split; [exact Hlen|]. exists a'. split; [right; exact Hin|exact Ha'].
Qed.

Lemma tel_links_loop_rejects links :
  Forall (fun a => exists t, tel_candidate a = Ok t /\ String.length t < 10) links ->
  tel_links_loop links = Ok None.
Proof.
  induction links as [|a links IH]; intros H; [reflexivity|].
  cbn [tel_links_loop].
  destruct (Forall_inv H) as (t & Ht & Hlen). rewrite Ht. cbn [bind].
  apply Nat.leb_gt in Hlen. rewrite Hlen, andb_false_r.
  apply IH. exact (Forall_inv_tail H).
Qed.

(** C10.  The telephone-link strategy accepts a value only if it has at
    least 10 characters, the value being the trimmed visible text of a link
    or, when that is empty, its target with ["tel:"] and ["+1"] taken out;
    when every link gives a shorter value the strategy finds nothing and the
    phone is what the pattern scan of the markup gives. *)
Theorem C10_tel_link_needs_ten_characters :
  forall (l : Listing),
    (forall v, phone_method2 l = Some v ->
       10 <= String.length v
       /\ exists links a, find_elements l tel_selector = Ok links
                          /\ In a links /\ tel_candidate a = Ok v)
    /\ (forall links,
          find_elements l tel_selector = Ok links ->
          Forall (fun a => exists t, tel_candidate a = Ok t
                                     /\ String.length t < 10) links ->
          phone_method2 l = None
          /\ (phone_method1 l phone_selectors = None ->
              extract_phone l = match phone_method3 l with
                                | Some t => t
                                | None => phone_sentinel
                                end))
    /\ (forall a raw,
          text a = Ok raw ->
          tel_candidate a =
          if Py.truthy (Py.strip raw) then Ok (Py.strip raw)
          else match get_attribute a "href" with
               | Some href =>
                   Ok (Py.strip (Py.replace "+1" EmptyString
                                   (Py.replace "tel:" EmptyString href)))
               | None => Raise (OtherException "AttributeError")
               end).
Proof.
  intros l. split; [|split].
  - intros v H. unfold phone_method2 in H. fold tel_selector in H.
    destruct (find_elements l tel_selector) as [links|e] eqn:F; simpl in H;
      [|discriminate].
    destruct (tel_links_loop links) as [r|e] eqn:T; [|discriminate].
    subst r. destruct (tel_links_loop_accepts _ T) as (Hlen & a & Hin & Ha).
    split; [exact Hlen|]. exists links, a. auto.
  - intros links F Hshort.
    assert (M2 : phone_method2 l = None).
    { unfold phone_method2. fold tel_selector. rewrite F. simpl.
      rewrite (tel_links_loop_rejects Hshort). reflexivity. }
    split; [exact M2|]. intros M1. unfold extract_phone. rewrite M1, M2.
    reflexivity.
  - intros a raw Ht. unfold tel_candidate. rewrite Ht. reflexivity.
Qed.

Lemma C10_tel_link_needs_ten_characters_witness :
  (10 <= String.length "8005551234")
  /\ phone_method2 with_short_tel_links = None
  /\ extract_phone with_short_tel_links = "212.555.0000".
Proof.
  destruct (C10_tel_link_needs_ten_characters with_tel_links) as (H1 & _).
  destruct (C10_tel_link_needs_ten_characters with_short_tel_links)
    as (_ & H2 & _).
  split.
  - apply (H1 "8005551234"). reflexivity.
  - assert (S : Forall (fun a => exists t, tel_candidate a = Ok t
                                           /\ String.length t < 10)
                       [tel "555-1234" "tel:5551234" ;
                        tel EmptyString "tel:+1555123"]).
    { constructor; [exists "555-1234"; split; [reflexivity|simpl; lia]|].
      constructor; [exists "555123"; split; [reflexivity|simpl; lia]|].
      constructor. }
    destruct (H2 _ eq_refl S) as (M2 & Hx). split; [exact M2|].
    apply Hx. reflexivity.
Defined.

End ExtractClaims.

(* ================================================================== *)
(** * The claims about pagination and the search form *)
(* ================================================================== *)

Module WalkClaims.
Import Extract ExtractFacts WalkFacts Examples Notions MoreNotions.

Lemma reached_spec m p :
  Walk.reached (Some m) p = true <-> (m <> 0 /\ m <= Z.of_nat p)%Z.
Proof.
  unfold Walk.reached. rewrite andb_true_iff, negb_true_iff, Z.eqb_neq, Z.leb_le.
  reflexivity.
Qed.

(** With a positive page bound the walk returns within the bound. *)
Lemma YP_walk_bounded d mr m : (1 <= m)%Z ->
  forall fuel b p rs,
    (Z.of_nat p <= m)%Z -> Z.to_nat m < fuel + p ->
    exists rs' p', YP.walk d mr (Some m) fuel b p rs = Some (rs', p')
                   /\ (Z.of_nat p' <= m)%Z.
Proof.
  intros Hm. induction fuel as [|fuel IH]; intros b p rs Hp Hf; [lia|].
  rewrite YP_walk_S.
  destruct (Walk.find_listings d b Walk.listing_selectors) as [|l ls];
    [eauto|].
  destruct (Walk.listings_loop mr (l :: ls) rs) as [rs1|rs1]; [|eauto].
  destruct (Walk.reached (Some m) p) eqn:R; [eauto|].
  destruct (Walk.find_next d b Walk.next_button_selectors) as [b' [|]]; [|eauto].
  assert (Hlt : (Z.of_nat p < m)%Z).
  { destruct (Z.lt_ge_cases (Z.of_nat p) m) as [?|Hge]; [assumption|].
    assert (Walk.reached (Some m) p = true) by (apply reached_spec; lia).
    congruence. }
  apply IH; lia.
Qed.

(** Once the bound is reached the walk returns on the page it is on. *)
Lemma YP_walk_at_bound d mr m fuel b p rs :
  (m <> 0)%Z -> (m <= Z.of_nat p)%Z ->
  exists rs', YP.walk d mr (Some m) (S fuel) b p rs = Some (rs', p).
Proof.
  intros H0 Hp. rewrite YP_walk_S.
  destruct (Walk.find_listings d b Walk.listing_selectors) as [|l ls];
    [eauto|].
  destruct (Walk.listings_loop mr (l :: ls) rs) as [rs1|rs1]; [|eauto].
  assert (R : Walk.reached (Some m) p = true) by (apply reached_spec; auto).
  rewrite R. eauto.
Qed.

Section Stay.

Variable d : Driver.
Variable b : Browser d.
Hypothesis none : no_qualifying_control d b.

Lemma try_buttons_stay btns : forall b2,
  current_url d b2 = current_url d b ->
  (forall btn, In btn btns -> next_control d b btn) ->
  exists b3 r, Walk.try_buttons d b2 btns = (b3, r)
               /\ current_url d b3 = current_url d b /\ r <> Ok true.
Proof.
  induction btns as [|btn btns IH]; intros b2 Hu Hc; simpl.
  - exists b2, (Ok false). repeat split; [assumption|discriminate].
  - destruct (Walk.is_disabled btn) eqn:D.
    + exists b2, (Ok false). repeat split; [assumption|discriminate].
    + destruct (click d b2 btn) as [b3|e] eqn:C.
      * assert (U : current_url d b3 = current_url d b).
        { apply (@none btn b2 b3); auto. apply Hc. left. reflexivity. }
        assert (E : String.eqb (current_url d b3) (current_url d b2) = true).
        { apply String.eqb_eq. congruence. }
        rewrite E. simpl. apply IH; [assumption|].
        intros x Hx. apply Hc. right. exact Hx.
      * exists b2, (Raise e). repeat split; [assumption|discriminate].
Qed.

Lemma find_next_stay sels : forall b2,
  incl sels Walk.next_button_selectors ->
  current_url d b2 = current_url d b ->
  exists b3, Walk.find_next d b2 sels = (b3, false)
             /\ current_url d b3 = current_url d b.
Proof.
  induction sels as [|sel sels IH]; intros b2 Hi Hu; simpl.
  - exists b2. auto.
  - assert (Hi' : incl sels Walk.next_button_selectors).
    { intros x Hx. apply Hi. right. exact Hx. }
    destruct (next_elements d b2 sel) as [btns|e] eqn:N; [|apply IH; auto].
    destruct (@try_buttons_stay btns b2 Hu) as (b3 & r & T & U & R).
    { intros btn Hb. exists b2, sel, btns. repeat split; auto.
      apply Hi. left. reflexivity. }
    rewrite T. destruct r as [[|]|e]; [congruence| |]; apply IH; auto.
Qed.

End Stay.


Lemma search_body_shape m1 m2 p j l w r :
  Search.search_body m1 m2 p j l = (w, r) ->
  existsb is_screenshot w = false
  /\ (r = Ok tt ->
      exists submit, (submit = ClickSearch \/ submit = PressReturn)
                     /\ w = [SendKeys "what" j; SendKeys "where" l; submit]).
Proof.
  unfold Search.search_body, bindE, call, emit. cbv beta iota zeta.
  destruct (Search.first_clickable p Search.what_selectors) as [[|]|e1];
    cbv beta iota zeta;
    try (intros H; inversion H; subst; split; [reflexivity|discriminate]).
  destruct (fill_what p) as [u1|e2]; cbv beta iota zeta;
    try (intros H; inversion H; subst; split; [reflexivity|discriminate]).
  destruct (Search.first_clickable p Search.where_selectors) as [[|]|e3];
    cbv beta iota zeta;
    try (intros H; inversion H; subst; split; [reflexivity|discriminate]).
  destruct (fill_where p) as [u2|e4]; cbv beta iota zeta;
    try (intros H; inversion H; subst; split; [reflexivity|discriminate]).
  destruct (Search.first_button p Search.button_selectors) as [[|]|e5];
    cbv beta iota zeta;
    try (intros H; inversion H; subst; split; [reflexivity|discriminate]).
  - destruct (click_button p) as [u3|e6]; cbv beta iota zeta;
      try (intros H; inversion H; subst; split; [reflexivity|discriminate]).
    destruct (url_after_submit p) as [u4|e8]; cbv beta iota zeta;
      try (intros H; inversion H; subst; split; [reflexivity|discriminate]).
    destruct (wait_results p) as [[]|e7]; intros H; inversion H; subst;
      (split; [reflexivity|]); [|discriminate].
    intros _. exists ClickSearch. split; [left|]; reflexivity.
  - destruct (press_return p) as [u3|e6]; cbv beta iota zeta;
      try (intros H; inversion H; subst; split; [reflexivity|discriminate]).
    destruct (url_after_submit p) as [u4|e8]; cbv beta iota zeta;
      try (intros H; inversion H; subst; split; [reflexivity|discriminate]).
    destruct (wait_results p) as [[]|e7]; intros H; inversion H; subst;
      (split; [reflexivity|]); [|discriminate].
    intros _. exists PressReturn. split; [right|]; reflexivity.
Qed.

Lemma existsb_screenshot_app w :
  existsb is_screenshot w = false ->
  existsb is_screenshot (w ++ [SaveScreenshot "search_error.png"]) = true.
Proof. intros H. rewrite existsb_app. simpl. apply orb_true_r. Qed.

(** What a handler of [perform_search] leaves behind. *)
Lemma handler_cases p t w0 e0 w r :
  YP.handler p t w0 e0 = (w, r) ->
  existsb is_screenshot w0 = false ->
  (exists e, r = Raise e)
  /\ ((exists u, handler_url p = Ok u) ->
      (t = true -> exists x, handler_title p = Ok x) ->
      save_screenshot p "search_error.png" = Ok true ->
      w = w0 ++ [SaveScreenshot "search_error.png"] /\ r = Raise e0)
  /\ (existsb is_screenshot w = true ->
      w = w0 ++ [SaveScreenshot "search_error.png"] /\ r = Raise e0)
  /\ (forall e', handler_url p = Raise e' -> w = w0 /\ r = Raise e').
Proof.
  unfold YP.handler. intros H N.
  destruct (handler_url p) as [u|eu].
  - destruct (if t then handler_title p else Ok EmptyString) as [x|et] eqn:T.
    + destruct (save_screenshot p "search_error.png") as [[|]|es];
        inversion H; subst; (split; [eauto|]); (split; [|split]);
        try (intros; discriminate); try (intros; congruence); auto.
    + inversion H; subst. split; [eauto|]. split; [|split].
      * intros _ Ht _. destruct t; [|discriminate].
        destruct (Ht eq_refl) as (x & Hx). congruence.
      * intros C. congruence.
      * intros e' C. discriminate.
  - inversion H; subst. split; [eauto|]. split; [|split].
    + intros (u & C). discriminate.
    + intros C. congruence.
    + intros e' C. inversion C. auto.
Qed.

(** C8 (as amended).  When the search of [perform_search] of
    [YP_scraper.py] fails with an exception, the handler reads the current
    URL (and the title, for a timeout) and saves the screenshot: if the
    browser answers these calls, the last thing the program does is to save
    [search_error.png], and the exception of the search reaches the caller;
    a screenshot is never saved otherwise than so; and if the browser does
    not answer the read of the URL, nothing is saved and the exception of
    that read reaches the caller instead. *)
Theorem C8_screenshot_before_reraise :
  forall (p : SearchPage) (job_type location : string)
         (w : list Effect) (e : exn),
    YP.perform_search p job_type location = (w, Raise e) ->
    exists w0 e0,
      Search.search_body
        "Could not find 'What' input field with any selector"
        "Could not find 'Where' input field with any selector"
        p job_type location = (w0, Raise e0)
      /\ (session_answers p e0 ->
          w = w0 ++ [SaveScreenshot "search_error.png"] /\ e = e0)
      /\ (existsb is_screenshot w = true ->
          w = w0 ++ [SaveScreenshot "search_error.png"] /\ e = e0)
      /\ (forall e', handler_url p = Raise e' -> w = w0 /\ e = e').
Proof.
  intros p j loc w e H. unfold YP.perform_search in H.
  destruct (Search.search_body _ _ p j loc) as [w0 [[]|e0]] eqn:B;
    [discriminate|].
  destruct (search_body_shape _ _ _ _ _ B) as (N & _).
  exists w0, e0. split; [reflexivity|].
  assert (C : exists t, YP.handler p t w0 e0 = (w, Raise e)
                        /\ (t = true -> e0 = TimeoutException)).
  { destruct e0; [exists false|exists true|exists false];
      (split; [exact H|]); try discriminate; reflexivity. }
  destruct C as (t & Ht & Htt).
  destruct (handler_cases _ _ _ _ Ht N) as (_ & A & S & D).
  split; [|split].
  - intros (U & T & V). destruct (A U (fun x => T (Htt x)) V) as (-> & E).
    split; [reflexivity|congruence].
  - intros X. destruct (S X) as (-> & E). split; [reflexivity|congruence].
  - intros e' X. destruct (D e' X) as (-> & E). split; [reflexivity|congruence].
Qed.

Lemma results_missing_answers : session_answers results_missing TimeoutException.
Proof. split; [eexists; reflexivity|]. split; [eexists; reflexivity|reflexivity]. Qed.

Lemma C8_screenshot_before_reraise_witness :
  YP.perform_search results_missing "Plumber" "Los Angeles, CA"
  = ([SendKeys "what" "Plumber"; SendKeys "where" "Los Angeles, CA";
      PressReturn; SaveScreenshot "search_error.png"], Raise TimeoutException)
  /\ YP.perform_search dead_session "Plumber" "Los Angeles, CA"
     = ([], Raise (OtherException "no such window")).
Proof.
  destruct (@C8_screenshot_before_reraise results_missing "Plumber"
              "Los Angeles, CA" _ _ eq_refl)
    as (w0 & e0 & B & A & _).
  destruct (@C8_screenshot_before_reraise dead_session "Plumber"
              "Los Angeles, CA" _ _ eq_refl)
    as (w1 & e1 & B1 & _ & _ & D).
  split.
  - inversion B; subst. destruct (A results_missing_answers). reflexivity.
  - inversion B1; subst.
    destruct (D (OtherException "no such window") eq_refl). reflexivity.
Defined.


(** C8 as stated fails for [unified_scraper.py]: its [perform_search]
    re-raises the timeout, and the missing form, without a screenshot. *)
Lemma C8_unified_search_takes_no_screenshot :
  Unified.perform_search results_missing "Plumber" "Los Angeles, CA"
  = ([SendKeys "what" "Plumber"; SendKeys "where" "Los Angeles, CA";
      PressReturn], Raise TimeoutException)
  /\ Unified.perform_search form_missing "Plumber" "Los Angeles, CA"
     = ([], Raise (OtherException "Could not find 'What' input field"))
  /\ ~ (forall p j loc w e,
          Unified.perform_search p j loc = (w, Raise e) ->
          In (SaveScreenshot "search_error.png") w).
Proof.
  split; [reflexivity|]. split; [reflexivity|].
  intros H.
  destruct (H form_missing "Plumber" "Los Angeles, CA" []
              (OtherException "Could not find 'What' input field") eq_refl).
Qed.

End WalkClaims.

(* ================================================================== *)
(** * The claims about the enricher *)
(* ================================================================== *)

Module EnricherClaims.
Import Facebook Examples Notions.

Lemma has_email_of_string e :
  e <> "NaN" -> already_has_email (Str e) = true.
Proof.
  intros H. unfold already_has_email. simpl.
  destruct (String.eqb e sentinel) eqn:E; [|reflexivity].
  apply String.eqb_eq in E. contradiction.
Qed.

Lemma filter_first_kept (f : string -> bool) pre : forall e post,
  Forall (fun x => f x = true) pre -> f e = false ->
  filter (fun x => negb (f x)) (pre ++ e :: post)
  = e :: filter (fun x => negb (f x)) post.
Proof.
  induction pre as [|x pre IH]; intros e post Hpre He; simpl.
  - rewrite He. reflexivity.
  - rewrite (Forall_inv Hpre). simpl. apply IH; [exact (Forall_inv_tail Hpre)|exact He].
Qed.

Lemma filter_none_kept (f : string -> bool) l :
  Forall (fun x => f x = true) l -> filter (fun x => negb (f x)) l = [].
Proof.
  induction l as [|x l IH]; intros H; simpl; [reflexivity|].
  rewrite (Forall_inv H). simpl. apply IH. exact (Forall_inv_tail H).
Qed.

(** C5 (as amended).  For every page source the scan takes the matches of
    the email pattern in document order, leaves out exactly those that
    contain one of ["facebook.com"], ["support@"], ["noreply"], ["no-reply"],
    ["notification"] anywhere, and returns the first one left, or ["NaN"]
    when none is left; on markup with [info@example.org] once and
    [support@facebook.com] twice it returns [info@example.org]. *)
Theorem C5_scan_returns_first_unblocked_match :
  forall (page_html : string),
    (forall pre e post,
        Re.findall Re.email_pattern page_html = pre ++ e :: post ->
        Forall (fun x => is_blocked x = true) pre -> is_blocked e = false ->
        regex_fallback page_html = e)
    /\ (Forall (fun x => is_blocked x = true)
               (Re.findall Re.email_pattern page_html) ->
        regex_fallback page_html = "NaN")
    /\ (forall e, is_blocked e = true <->
                  exists x, In x ["facebook.com"; "support@"; "noreply";
                                  "no-reply"; "notification"]
                            /\ Py.contains x e = true)
    /\ Re.findall Re.email_pattern markup
       = ["support@facebook.com"; "info@example.org"; "support@facebook.com"]
    /\ regex_fallback markup = "info@example.org".
Proof.
  intros html. split; [|split; [|split; [|split]]].
  - intros pre e post Hm Hpre He. unfold regex_fallback. rewrite Hm.
    rewrite (@filter_first_kept is_blocked pre e post Hpre He).
    destruct (pre ++ e :: post) eqn:E; [|reflexivity].
    destruct pre; discriminate.
  - intros H. unfold regex_fallback.
    rewrite (@filter_none_kept is_blocked _ H).
    destruct (Re.findall Re.email_pattern html); reflexivity.
  - intros e. unfold is_blocked. apply existsb_exists.
  - vm_compute. reflexivity.
  - vm_compute. reflexivity.
Qed.

Lemma C5_scan_returns_first_unblocked_match_witness :
  regex_fallback markup = "info@example.org"
  /\ regex_fallback "<b>noreply@biz.com</b>" = "NaN".
Proof.
  destruct (C5_scan_returns_first_unblocked_match markup) as (H1 & _).
  destruct (C5_scan_returns_first_unblocked_match "<b>noreply@biz.com</b>")
    as (_ & H2 & _).
  split.
  - apply (H1 ["support@facebook.com"] "info@example.org"
              ["support@facebook.com"]).
    + vm_compute. reflexivity.
    + constructor; [vm_compute; reflexivity | constructor].
    + vm_compute. reflexivity.
  - apply H2. vm_compute. constructor; [reflexivity | constructor].
Defined.

(** C5 as stated fails: an address that begins with ["support"] is kept
    when no ["@"] follows the word, and addresses that only contain
    ["support@"] or ["facebook.com"] are left out. *)
Lemma C5_filter_is_by_substring :
  (regex_fallback "mail support-team@biz.com" = "support-team@biz.com"
   /\ spec_regex_fallback "mail support-team@biz.com" = "NaN")
  /\ (regex_fallback "mail customersupport@biz.com" = "NaN"
      /\ spec_regex_fallback "mail customersupport@biz.com"
         = "customersupport@biz.com")
  /\ (regex_fallback "mail joe@myfacebook.com" = "NaN"
      /\ spec_regex_fallback "mail joe@myfacebook.com" = "joe@myfacebook.com").
Proof. vm_compute. repeat split. Qed.

(** C6, at the failing input.  In a table of 20 rows whose 10th and 20th
    rows already have an email, 18 rows are looked up and the only write of
    the table is the final one, after the 18 searches: the [continue] of a
    skipped row passes over the save that its index calls for.  In a table
    of 35 rows that are all looked up the writes come after 10, 20, 30 and 35
    searches. *)
Theorem C6_skipped_row_skips_the_save :
  write_points 0 (process_excel_file quiet_web (Sheet table_20)) = [18]
  /\ write_points 0
       (fst (UnifiedEnricher.process_excel_for_emails quiet_web (Sheet table_20)))
     = [18]
  /\ write_points 0 (process_excel_file quiet_web (Sheet table_35))
     = [10; 20; 30; 35].
Proof. repeat split; vm_compute; reflexivity. Qed.

Lemma update_nth_other {A} (f : A -> A) (l : list A) : forall idx i,
  i <> idx -> nth_error (Df.update_nth idx f l) i = nth_error l i.
Proof.
  induction l as [|h t IH]; intros idx i H; destruct idx, i; simpl;
    try reflexivity; try congruence.
  apply IH. congruence.
Qed.

Lemma set_at_other df idx col v i :
  i <> idx ->
  nth_error (rows (Df.set_at df idx col v)) i = nth_error (rows df) i.
Proof.
  intros H. unfold Df.set_at.
  destruct (Df.index_of col (columns df)); [|reflexivity].
  simpl. apply update_nth_other. exact H.
Qed.

Lemma lookup_row_raises w df idx c :
  lookup_raises w (Df.format c) ->
  snd (lookup_row w df idx c) = Df.set_at df idx "Email" (Str "NaN").
Proof.
  intros [(e & H) | (url & e & Hs & Ht & He)]; unfold lookup_row.
  - unfold search_google. rewrite H. reflexivity.
  - destruct (search_google w (Df.format c)) as [ev1 r]. simpl in Hs. subst r.
    rewrite Ht. unfold extract_email_from_facebook. rewrite He. reflexivity.
Qed.

End EnricherClaims.

(* ================================================================== *)
(** * Facts about the string functions *)
(* ================================================================== *)

Module PyFacts.

Lemma lstrip_head s :
  Py.lstrip s = EmptyString
  \/ exists c t, Py.lstrip s = String c t /\ Py.isspace c = false.
Proof.
  induction s as [|c s IH]; simpl; [left; reflexivity|].
  destruct (Py.isspace c) eqn:E; [exact IH|]. right. exists c, s. auto.
Qed.

Lemma rstrip_all_space s : Py.all_space s = true -> Py.rstrip s = EmptyString.
Proof. destruct s; simpl; [reflexivity|]. intros ->. reflexivity. Qed.

Lemma rstrip_not_all_space s :
  Py.all_space s = false -> Py.all_space (Py.rstrip s) = false.
Proof.
  induction s as [|c s IH]; [discriminate|]. intros H.
  cbn [Py.rstrip]. rewrite H. cbn [Py.all_space] in *.
  destruct (Py.isspace c); [|reflexivity]. simpl in *. apply IH. exact H.
Qed.

Lemma rstrip_idem s : Py.rstrip (Py.rstrip s) = Py.rstrip s.
Proof.
  induction s as [|c s IH]; [reflexivity|].
  cbn [Py.rstrip]. destruct (Py.all_space (String c s)) eqn:E; [reflexivity|].
  pose proof (rstrip_not_all_space _ E) as E'. cbn [Py.rstrip] in E'.
  rewrite E in E'. cbn [Py.rstrip]. rewrite E', IH. reflexivity.
Qed.

Lemma lstrip_rstrip_lstrip s :
  Py.lstrip (Py.rstrip (Py.lstrip s)) = Py.rstrip (Py.lstrip s).
Proof.
  destruct (lstrip_head s) as [-> | (c & t & -> & Hc)]; [reflexivity|].
  cbn [Py.rstrip]. destruct (Py.all_space (String c t)); [reflexivity|].
  cbn [Py.lstrip]. rewrite Hc. reflexivity.
Qed.

(** Trimming a trimmed text changes nothing. *)
Lemma strip_idem s : Py.strip (Py.strip s) = Py.strip s.
Proof.
  unfold Py.strip. rewrite lstrip_rstrip_lstrip. apply rstrip_idem.
Qed.

Lemma prefix_contains m s : String.prefix m s = true -> Py.contains m s = true.
Proof. intros H. destruct s; simpl in *; rewrite H; reflexivity. Qed.

Lemma contains_tail m c s : Py.contains m s = true -> Py.contains m (String c s) = true.
Proof. intros H. cbn [Py.contains]. rewrite H. apply orb_true_r. Qed.

Lemma prefix_cons c m s : String.prefix m s = true -> String.prefix (String c m) (String c s) = true.
Proof. intros H. simpl. destruct (ascii_dec c c); [exact H|contradiction]. Qed.

Lemma prefix_refl s : String.prefix s s = true.
Proof. induction s as [|c s IH]; [reflexivity|]. apply prefix_cons. exact IH. Qed.

Lemma prefix_append a b : String.prefix a (String.append a b) = true.
Proof.
  induction a as [|c a IH]; [destruct b; reflexivity|]. simpl.
  destruct (ascii_dec c c); [exact IH|contradiction].
Qed.

Lemma contains_append_r a b m :
  Py.contains m b = true -> Py.contains m (String.append a b) = true.
Proof.
  intros H. induction a as [|c a IH]; [exact H|].
  simpl String.append. apply contains_tail. exact IH.
Qed.

Lemma length_append a b :
  String.length (String.append a b) = String.length a + String.length b.
Proof. induction a as [|c a IH]; simpl; [reflexivity|]. rewrite IH. reflexivity. Qed.

End PyFacts.

(* ================================================================== *)
(** * Further properties of the collector *)
(* ================================================================== *)

Module CollectorExtras.
Import Extract Notions MoreNotions Examples ExtractFacts WalkFacts.

Lemma find_listings_first d b sels : forall l ls,
  Walk.find_listings d b sels = l :: ls ->
  exists pre sel post,
    sels = pre ++ sel :: post
    /\ Forall (finds_nothing d b) pre
    /\ listing_elements d b sel = Ok (l :: ls).
Proof.
  induction sels as [|s sels IH]; intros l ls H; [discriminate|].
  cbn [Walk.find_listings] in H.
  destruct (listing_elements d b s) as [[|x xs]|e] eqn:E.
  - destruct (IH l ls H) as (pre & sel & post & -> & Hp & Hs).
    exists (s :: pre), sel, post. repeat split; auto.
    constructor; [left; exact E | exact Hp].
  - inversion H; subst. exists [], s, sels. repeat split; auto.
  - destruct (IH l ls H) as (pre & sel & post & -> & Hp & Hs).
    exists (s :: pre), sel, post. repeat split; auto.
    constructor; [right; exists e; exact E | exact Hp].
Qed.

Lemma find_listings_none d b sels :
  Walk.find_listings d b sels = [] <-> Forall (finds_nothing d b) sels.
Proof.
  induction sels as [|s sels IH]; [split; auto|].
  cbn [Walk.find_listings]. split.
  - intros H. destruct (listing_elements d b s) as [[|x xs]|e] eqn:E;
      [|discriminate|].
    + constructor; [left; exact E | apply IH; exact H].
    + constructor; [right; exists e; exact E | apply IH; exact H].
  - intros H. destruct (Forall_inv H) as [E|(e & E)]; rewrite E;
      apply IH; exact (Forall_inv_tail H).
Qed.

(** X1.  The listing elements of a page are those of the first selector,
    in the order of the chain, that finds at least one element; selectors
    that find none or raise are passed over, and the page has no listing
    elements exactly when every selector finds none or raises. *)
Theorem X1_first_matching_container_selector :
  forall (d : Driver) (b : Browser d) (sels : list string),
    (forall l ls, Walk.find_listings d b sels = l :: ls ->
        exists pre sel post,
          sels = pre ++ sel :: post
          /\ Forall (finds_nothing d b) pre
          /\ listing_elements d b sel = Ok (l :: ls))
    /\ (Walk.find_listings d b sels = [] <-> Forall (finds_nothing d b) sels).
Proof.
  intros d b sels. split;
    [apply find_listings_first | apply find_listings_none].
Qed.

Lemma X1_first_matching_container_selector_witness :
  exists pre sel post,
    Walk.listing_selectors = pre ++ sel :: post
    /\ Forall (finds_nothing (site 2 [joe]) 0) pre
    /\ listing_elements (site 2 [joe]) 0 sel = Ok [joe].
Proof.
  destruct (X1_first_matching_container_selector
              (site 2 [joe]) 0 Walk.listing_selectors) as (H & _).
  apply (H joe []). reflexivity.
Defined.

Lemma listing_step_length rs l :
  length (listing_step rs l) <= S (length rs).
Proof.
  unfold listing_step. destruct (process_listing l) as [[r|]|e]; simpl;
    try lia. rewrite length_app. simpl. lia.
Qed.

Lemma listings_loop_bounded m ls : (1 <= m)%Z -> forall rs,
  (Z.of_nat (length rs) <= m)%Z ->
  (Z.of_nat (length (outcome_results
                       (Walk.listings_loop (Some m) ls rs))) <= m)%Z.
Proof.
  intros Hm. induction ls as [|l ls IH]; intros rs H; simpl; [exact H|].
  destruct (negb (m =? 0)%Z && (m <=? Z.of_nat (length rs))%Z) eqn:R;
    simpl; [exact H|].
  apply IH. pose proof (listing_step_length rs l).
  apply andb_false_iff in R. destruct R as [R|R].
  - apply negb_false_iff, Z.eqb_eq in R. lia.
  - apply Z.leb_gt in R. lia.
Qed.

Lemma YP_walk_results_bounded d m mp fuel : (1 <= m)%Z ->
  forall b p rs rs' p',
    (Z.of_nat (length rs) <= m)%Z ->
    YP.walk d (Some m) mp fuel b p rs = Some (rs', p') ->
    (Z.of_nat (length rs') <= m)%Z.
Proof.
  intros Hm. induction fuel as [|fuel IH]; intros b p rs rs' p' Hrs H;
    [discriminate | rewrite YP_walk_S in H].
  destruct (Walk.find_listings d b Walk.listing_selectors) as [|l ls].
  - inversion H; subst. exact Hrs.
  - pose proof (listings_loop_bounded (l :: ls) Hm rs Hrs) as G.
    destruct (Walk.listings_loop (Some m) (l :: ls) rs) as [rs1|rs1];
      simpl in G.
    + destruct (Walk.reached mp p).
      * inversion H; subst. exact G.
      * destruct (Walk.find_next d b Walk.next_button_selectors) as [b' [|]].
        -- eapply IH; [exact G | exact H].
        -- inversion H; subst. exact G.
    + inversion H; subst. exact G.
Qed.

(** X2.  With a positive result bound, [extract_listings] of
    [YP_scraper.py] returns at most that many records. *)
Theorem X2_result_bound_is_kept :
  forall (d : Driver) (m : Z) (max_pages : option Z) (fuel : nat)
         (b : Browser d) (rs : list ListingRecord) (p : nat),
    (1 <= m)%Z ->
    YP.extract_listings d (Some m) max_pages fuel b = Some (rs, p) ->
    (Z.of_nat (length rs) <= m)%Z.
Proof.
  intros d m mp fuel b rs p Hm H. unfold YP.extract_listings in H.
  eapply YP_walk_results_bounded; [exact Hm | | exact H]. simpl. lia.
Qed.

Lemma X2_result_bound_is_kept_witness :
  (Z.of_nat (length [mkRecord "Joe's Plumbing" "(800) 555-1234";
                     mkRecord "Joe's Plumbing" "(800) 555-1234";
                     mkRecord "Joe's Plumbing" "(800) 555-1234"]) <= 3)%Z.
Proof.
  apply (@X2_result_bound_is_kept (site 5 [joe; joe]) 3%Z None 4 0 _ 2).
  - lia.
  - reflexivity.
Defined.

Lemma name_loop_origin l sels : forall cur n,
  snd (name_loop l sels cur) = Ok n ->
  n = cur \/ exists sel raw, In sel sels /\ lookup l sel = Ok raw
                             /\ n = Py.strip raw.
Proof.
  induction sels as [|s sels IH]; intros cur n H.
  - simpl in H. inversion H. left. reflexivity.
  - cbn [name_loop] in H. fold (lookup l s) in H.
    destruct (lookup l s) as [raw|[| |msg]] eqn:E.
    + destruct (Py.truthy (Py.strip raw)).
      * simpl in H. inversion H. right. exists s, raw.
        split; [left; reflexivity|auto].
      * destruct (name_loop l sels (Py.strip raw)) as [q r] eqn:N.
        simpl in H. subst r.
        destruct (IH (Py.strip raw) n) as [->|(sel & raw' & Hin & Hl & Hn)];
          [rewrite N; reflexivity | |].
        -- right. exists s, raw. split; [left; reflexivity|auto].
        -- right. exists sel, raw'. split; [right; exact Hin|auto].
    + destruct (name_loop l sels cur) as [q r] eqn:N. simpl in H. subst r.
      destruct (IH cur n) as [->|(sel & raw' & Hin & Hl & Hn)];
        [rewrite N; reflexivity | left; reflexivity |].
      right. exists sel, raw'. split; [right; exact Hin|auto].
    + discriminate.
    + discriminate.
Qed.

Lemma produced_name_is_trimmed r :
  produced r ->
  exists l sel raw, In sel name_selectors /\ lookup l sel = Ok raw
                    /\ business_name r = Py.strip raw
                    /\ phone_number r = extract_phone l.
Proof.
  intros (l & H). pose proof (process_listing_name _ H) as (Hn & Hu).
  assert (Hp : phone_number r = extract_phone l).
  { unfold process_listing in H.
    destruct (scroll_into_view l); simpl in H; [|discriminate].
    destruct (extract_name l name_selectors) as [n|]; simpl in H; [|discriminate].
    destruct (String.eqb n name_sentinel); simpl in H; [discriminate|].
    inversion H. reflexivity. }
  unfold extract_name, name_chain in Hn.
  destruct (name_loop_origin _ _ _ Hn) as [E|(sel & raw & Hin & Hl & E)].
  - rewrite E, String.eqb_refl in Hu. discriminate.
  - exists l, sel, raw. auto.
Qed.

Lemma fold_step_flat_map ls : forall rs,
  fold_left listing_step ls rs = rs ++ flat_map records_of ls.
Proof.
  induction ls as [|l ls IH]; intros rs; simpl; [rewrite app_nil_r; reflexivity|].
  rewrite IH. unfold listing_step, records_of.
  destruct (process_listing l) as [[r|]|e]; simpl.
  - rewrite <- app_assoc. reflexivity.
  - reflexivity.
  - reflexivity.
Qed.

(** X4.  The records of a page are appended in the order of its listing
    elements, each listing adding its record or nothing; nothing already in
    the list is moved, dropped or merged, so a business listed twice is
    recorded twice. *)
Theorem X4_page_records_keep_listing_order :
  forall (ls : list Listing) (rs : list ListingRecord),
    fold_left listing_step ls rs = rs ++ flat_map records_of ls
    /\ Walk.listings_loop None ls rs
       = Walk.Continue (rs ++ flat_map records_of ls)
    /\ (forall l r, process_listing l = Ok (Some r) ->
          fold_left listing_step [l; l] rs = rs ++ [r; r]).
Proof.
  intros ls rs. split; [apply fold_step_flat_map|]. split.
  - rewrite listings_loop_unbounded, fold_step_flat_map. reflexivity.
  - intros l r H. rewrite fold_step_flat_map. unfold records_of. simpl.
    rewrite H. reflexivity.
Qed.

Lemma X4_page_records_keep_listing_order_witness :
  fold_left listing_step [joe; joe] []
  = [] ++ [mkRecord "Joe's Plumbing" "(800) 555-1234";
           mkRecord "Joe's Plumbing" "(800) 555-1234"].
Proof.
  destruct (X4_page_records_keep_listing_order [] []) as (_ & _ & H).
  apply (H joe). reflexivity.
Defined.

Section UrlChange.

Variable d : Driver.

Lemma try_buttons_url btns : forall b b' r,
  Walk.try_buttons d b btns = (b', r) ->
  (r = Ok true -> current_url d b' <> current_url d b)
  /\ (r <> Ok true -> current_url d b' = current_url d b).
Proof.
  induction btns as [|btn btns IH]; intros b b' r H; cbn [Walk.try_buttons] in H.
  - inversion H; subst. split; [discriminate|reflexivity].
  - destruct (Walk.is_disabled btn).
    + inversion H; subst. split; [discriminate|reflexivity].
    + destruct (click d b btn) as [b1|e].
      * destruct (String.eqb (current_url d b1) (current_url d b)) eqn:E; simpl in H.
        -- apply String.eqb_eq in E. destruct (IH _ _ _ H) as (H1 & H2).
           rewrite <- E. split; assumption.
        -- apply String.eqb_neq in E. inversion H; subst.
           split; [intros _; exact E | intros C; contradiction C; reflexivity].
      * inversion H; subst. split; [discriminate|reflexivity].
Qed.

Lemma find_next_url sels : forall b b' found,
  Walk.find_next d b sels = (b', found) ->
  (found = true -> current_url d b' <> current_url d b)
  /\ (found = false -> current_url d b' = current_url d b).
Proof.
  induction sels as [|sel sels IH]; intros b b' found H; cbn [Walk.find_next] in H.
  - inversion H; subst. split; [discriminate|reflexivity].
  - destruct (next_elements d b sel) as [btns|e]; [|apply IH; exact H].
    destruct (Walk.try_buttons d b btns) as [b1 r] eqn:T.
    destruct (try_buttons_url _ _ T) as (T1 & T2).
    destruct r as [[|]|e].
    + inversion H; subst. split; [intros _; apply T1; reflexivity|discriminate].
    + destruct (IH _ _ _ H) as (H1 & H2).
      rewrite <- (T2 ltac:(discriminate)). split; assumption.
    + destruct (IH _ _ _ H) as (H1 & H2).
      rewrite <- (T2 ltac:(discriminate)). split; assumption.
Qed.

End UrlChange.

(** X5.  The scan of the next controls reports a next page exactly when
    it leaves the browser on a URL other than the one it started from:
    clicks that do not change the URL, disabled controls and failing lookups
    all leave the URL as it was. *)
Theorem X5_next_found_iff_url_changed :
  forall (d : Driver) (b b' : Browser d) (found : bool),
    Walk.find_next d b Walk.next_button_selectors = (b', found) ->
    (found = true <-> current_url d b' <> current_url d b).
Proof.
  intros d b b' found H.
  destruct (@find_next_url d _ b b' found H) as (H1 & H2).
  split; [exact H1|]. intros Hne. destruct found; [reflexivity|].
  contradiction Hne. apply H2. reflexivity.
Qed.

Lemma X5_next_found_iff_url_changed_witness :
  true = true <-> page_url 1 <> page_url 0.
Proof.
  apply (@X5_next_found_iff_url_changed (site 3 [joe]) 0 1 true).
  reflexivity.
Defined.

(** X6.  The collector of [unified_scraper.py] returns what the collector
    of [YP_scraper.py] returns when it is called without a result bound and
    without a page bound. *)
Theorem X6_unified_collector_is_unbounded_YP :
  forall (d : Driver) (fuel : nat) (b : Browser d),
    Unified.extract_listings d fuel b = YP.extract_listings d None None fuel b.
Proof.
  intros d fuel b. apply Unified_walk_is_YP_walk.
Qed.

End CollectorExtras.

(* ================================================================== *)
(** * Further properties of the search form *)
(* ================================================================== *)

Module SearchExtras.
Import MoreNotions Examples.

(** X7.  [perform_search] of [YP_scraper.py] saves a screenshot only
    when it fails, and it does save one when it fails while the browser still
    answers the handler (current URL, title, screenshot written); when it
    succeeds it has typed the job type, then the location, and submitted the
    form once, by the button or by the Enter key.  [perform_search] of
    [unified_scraper.py] never saves one. *)
Theorem X7_screenshot_only_on_failure :
  forall (p : SearchPage) (job_type location : string)
         (w : list Effect) (r : Result unit),
    YP.perform_search p job_type location = (w, r) ->
    (existsb is_screenshot w = true -> exists e, r = Raise e)
    /\ ((exists e, r = Raise e) ->
        (exists u, handler_url p = Ok u) ->
        (exists t, handler_title p = Ok t) ->
        save_screenshot p "search_error.png" = Ok true ->
        existsb is_screenshot w = true)
    /\ (r = Ok tt ->
        exists submit, (submit = ClickSearch \/ submit = PressReturn)
          /\ w = [SendKeys "what" job_type; SendKeys "where" location; submit])
    /\ existsb is_screenshot
         (fst (Unified.perform_search p job_type location)) = false.
Proof.
  intros p j l w r H.
  assert (U : existsb is_screenshot
                (fst (Unified.perform_search p j l)) = false).
  { unfold Unified.perform_search.
    destruct (Search.search_body _ _ p j l) as [w0 r0] eqn:B.
    destruct (WalkClaims.search_body_shape _ _ _ _ _ B) as (Hn & _).
    destruct r0 as [[]|[| |m]]; exact Hn. }
  unfold YP.perform_search in H.
  destruct (Search.search_body _ _ p j l) as [w0 r0] eqn:B.
  destruct (WalkClaims.search_body_shape _ _ _ _ _ B) as (Hn & Hs).
  destruct r0 as [[]|e0].
  - inversion H; subst. split; [rewrite Hn; discriminate|].
    split; [intros (e & He); discriminate|].
    split; [exact Hs|exact U].
  - assert (C : exists t, YP.handler p t w0 e0 = (w, r)).
    { destruct e0; [exists false|exists true|exists false]; exact H. }
    destruct C as (t & Ht).
    destruct (WalkClaims.handler_cases _ _ _ _ Ht Hn) as (F & A & _ & _).
    split; [intros _; exact F|].
    split; [|split; [|exact U]].
    + intros _ Hu (x & Hx) Hv.
      destruct (A Hu (fun _ => ex_intro _ x Hx) Hv) as (-> & _).
      apply WalkClaims.existsb_screenshot_app. exact Hn.
    + intros ->. destruct F as (e & F). discriminate.
Qed.

Lemma X7_screenshot_only_on_failure_witness :
  existsb is_screenshot
    [SendKeys "what" "Plumber"; SendKeys "where" "Los Angeles, CA";
     PressReturn; SaveScreenshot "search_error.png"] = true.
Proof.
  destruct (@X7_screenshot_only_on_failure results_missing "Plumber"
              "Los Angeles, CA" _ _ eq_refl) as (_ & H & _).
  apply H; [eexists; reflexivity | eexists; reflexivity
            | eexists; reflexivity | reflexivity].
Defined.


End SearchExtras.

(* ================================================================== *)
(** * Facts about the pattern matcher *)
(* ================================================================== *)

Unset Implicit Arguments.

Module ReFacts.
Import MoreNotions.

Lemma within_zero h : within h 0.
Proof. destruct h; simpl; [lia|exact I]. Qed.

Lemma within_succ h n :
  Re.can_take h = true -> within (Re.dec_hi h) n -> within h (S n).
Proof.
  destruct h as [[|k]|]; simpl; intros C H; [discriminate|lia|exact I].
Qed.

Section Rep.

Variable p : ascii -> bool.
Variable k : string -> option string.
Variable Q : string -> Prop.
Hypothesis k_sound :
  forall s m, k s = Some m -> Q m /\ String.prefix m s = true.

Lemma rep_stop l s m :
  match l with O => k s | S _ => None end = Some m ->
  exists m1 m2,
    m = String.append m1 m2 /\ all_in p m1 = true
    /\ l <= String.length m1 /\ within (Some 0) (String.length m1)
    /\ Q m2 /\ String.prefix m s = true.
Proof.
  destruct l; [|discriminate]. intros H.
  destruct (k_sound _ _ H) as (HQ & Hp).
  exists EmptyString, m. simpl. repeat split; auto.
Qed.

Lemma rep_sound s : forall l h m,
  Re.rep p l h k s = Some m ->
  exists m1 m2,
    m = String.append m1 m2 /\ all_in p m1 = true
    /\ l <= String.length m1 /\ within h (String.length m1)
    /\ Q m2 /\ String.prefix m s = true.
Proof.
  assert (stop : forall l h s m,
    match l with O => k s | S _ => None end = Some m ->
    exists m1 m2,
      m = String.append m1 m2 /\ all_in p m1 = true
      /\ l <= String.length m1 /\ within h (String.length m1)
      /\ Q m2 /\ String.prefix m s = true).
  { intros l h s0 m H.
    destruct (rep_stop _ _ _ H) as (m1 & m2 & E & A & L & W & HQ & Hp).
    exists m1, m2. repeat split; auto. simpl in W.
    assert (String.length m1 = 0) as -> by lia. apply within_zero. }
  induction s as [|c s IH]; intros l h m H; cbn [Re.rep] in H;
    cbv zeta in H; [apply (stop _ _ _ _ H)|].
  destruct (Re.can_take h && p c) eqn:C; [|apply (stop _ _ _ _ H)].
  destruct (Re.rep p (pred l) (Re.dec_hi h) k s) as [m0|] eqn:R;
    [|apply (stop _ _ _ _ H)].
  inversion H; subst m. apply andb_prop in C. destruct C as (Ch & Cp).
  destruct (IH _ _ _ R) as (m1 & m2 & E & A & L & W & HQ & Hp).
  exists (String c m1), m2. subst m0. simpl. rewrite Cp, A.
  repeat split; auto; [lia | apply within_succ; assumption |].
  destruct (ascii_dec c c); [exact Hp|contradiction].
Qed.

End Rep.

Lemma match_here_sound pat : forall s m,
  Re.match_here pat s = Some m ->
  in_lang pat m /\ String.prefix m s = true.
Proof.
  induction pat as [|it rest IH]; intros s m H.
  - simpl in H. inversion H; subst. split; [reflexivity|destruct s; reflexivity].
  - cbn [Re.match_here] in H.
    destruct (@rep_sound (Re.cls it) (Re.match_here rest) (in_lang rest) IH
                s (Re.lo it) (Re.hi it) m H)
      as (m1 & m2 & E & A & L & W & HQ & Hp).
    split; [|exact Hp]. simpl. exists m1, m2. auto.
Qed.

(** Every match that [findall] returns is described by the pattern and
    occurs in the text. *)
Lemma findall_from_sound pat s : forall skip m,
  In m (Re.findall_from skip pat s) ->
  in_lang pat m /\ Py.contains m s = true.
Proof.
  induction s as [|c s IH]; intros skip m H; [destruct H|].
  cbn [Re.findall_from] in H. destruct skip as [|n].
  - destruct (Re.match_here pat (String c s)) as [m0|] eqn:M.
    + destruct H as [<-|H].
      * destruct (match_here_sound _ _ _ M) as (HL & Hp).
        split; [exact HL|apply PyFacts.prefix_contains; exact Hp].
      * destruct (IH _ _ H) as (HL & Hc).
        split; [exact HL|apply PyFacts.contains_tail; exact Hc].
    + destruct (IH _ _ H) as (HL & Hc).
      split; [exact HL|apply PyFacts.contains_tail; exact Hc].
  - destruct (IH _ _ H) as (HL & Hc).
    split; [exact HL|apply PyFacts.contains_tail; exact Hc].
Qed.

Lemma search_sound pat s : forall m,
  Re.search pat s = Some m -> in_lang pat m /\ Py.contains m s = true.
Proof.
  induction s as [|c s IH]; intros m H; cbn [Re.search] in H.
  - destruct (Re.match_here pat EmptyString) as [m0|] eqn:M; [|discriminate].
    inversion H; subst. destruct (match_here_sound _ _ _ M) as (HL & Hp).
    split; [exact HL|apply PyFacts.prefix_contains; exact Hp].
  - destruct (Re.match_here pat (String c s)) as [m0|] eqn:M.
    + inversion H; subst. destruct (match_here_sound _ _ _ M) as (HL & Hp).
      split; [exact HL|apply PyFacts.prefix_contains; exact Hp].
    + destruct (IH _ H) as (HL & Hc).
      split; [exact HL|apply PyFacts.contains_tail; exact Hc].
Qed.

Lemma all_in_chr_head c m :
  all_in (Re.chr c) m = true -> 1 <= String.length m ->
  exists t, m = String c t.
Proof.
  destruct m as [|x t]; simpl; [lia|]. intros H _.
  apply andb_prop in H. destruct H as (H & _). unfold Re.chr in H.
  apply Ascii.eqb_eq in H. subst. exists t. reflexivity.
Qed.

(** A text the email pattern describes contains an at sign. *)
Lemma email_lang_has_at m :
  in_lang Re.email_pattern m -> Py.contains "@" m = true.
Proof.
  intros (m1 & r1 & -> & _ & _ & _ & (m2 & r2 & -> & A & L & _ & _)).
  simpl in A, L. destruct (all_in_chr_head _ _ A L) as (t & ->).
  apply PyFacts.contains_append_r, PyFacts.prefix_contains.
  simpl. destruct t, r2; reflexivity.
Qed.

(** A text the phone pattern describes has 10 to 14 characters. *)
Lemma phone_lang_length m :
  in_lang Re.phone_pattern m ->
  10 <= String.length m <= 14.
Proof.
  intros (m1 & r1 & -> & _ & L1 & W1 &
          (m2 & r2 & -> & _ & L2 & W2 &
           (m3 & r3 & -> & _ & L3 & W3 &
            (m4 & r4 & -> & _ & L4 & W4 &
             (m5 & r5 & -> & _ & L5 & W5 &
              (m6 & r6 & -> & _ & L6 & W6 &
               (m7 & r7 & -> & _ & L7 & W7 & E))))))).
  simpl in E. subst r7. rewrite !PyFacts.length_append. simpl in *. lia.
Qed.

End ReFacts.

(* ================================================================== *)
(** * Further properties of the field values *)
(* ================================================================== *)

Module ValueExtras.
Import Extract Notions MoreNotions Examples Facebook.

Lemma email_elements_loop_has_at els : forall e,
  email_elements_loop els = Ok (Some e) -> Py.contains "@" e = true.
Proof.
  induction els as [|el els IH]; intros e H; [discriminate|].
  cbn [email_elements_loop] in H.
  destruct (text el) as [raw|x]; cbn [bind] in H; [|discriminate].
  destruct (if Py.contains "@" (Py.strip raw)
            then _extract_email_regex (Py.strip raw) else None) as [m|] eqn:M.
  - inversion H; subst.
    destruct (Py.contains "@" (Py.strip raw)); [|discriminate].
    unfold _extract_email_regex in M.
    destruct (ReFacts.search_sound _ _ _ M) as (HL & _).
    apply ReFacts.email_lang_has_at. exact HL.
  - cbv zeta in H.
    match type of H with
    | (if ?c then _ else _) = _ => destruct c eqn:C
    end.
    + inversion H; subst. apply andb_prop in C. destruct C as (_ & C). exact C.
    + apply IH. exact H.
Qed.

Lemma email_selectors_loop_has_at p sels : forall e,
  email_selectors_loop p sels = Some e -> Py.contains "@" e = true.
Proof.
  induction sels as [|x sels IH]; intros e H; [discriminate|].
  cbn [email_selectors_loop] in H.
  destruct (p_find_elements p x) as [els|err]; cbn [bind] in H;
    [|apply IH; exact H].
  destruct (email_elements_loop els) as [[m|]|err] eqn:L;
    [|apply IH; exact H|apply IH; exact H].
  inversion H; subst. apply (email_elements_loop_has_at _ _ L).
Qed.

Lemma regex_fallback_cases html :
  regex_fallback html = "NaN"
  \/ (In (regex_fallback html) (Re.findall Re.email_pattern html)
      /\ is_blocked (regex_fallback html) = false).
Proof.
  unfold regex_fallback.
  destruct (Re.findall Re.email_pattern html) as [|m ms] eqn:F;
    [left; reflexivity|].
  destruct (filter (fun e => negb (is_blocked e)) (m :: ms)) as [|e es] eqn:V;
    [left; reflexivity|].
  right. assert (I : In e (filter (fun e => negb (is_blocked e)) (m :: ms))).
  { rewrite V. left. reflexivity. }
  apply filter_In in I. destruct I as (I & B).
  split; [exact I|]. apply negb_true_iff. exact B.
Qed.

Lemma regex_fallback_has_at html :
  regex_fallback html = "NaN"
  \/ Py.contains "@" (regex_fallback html) = true.
Proof.
  destruct (regex_fallback_cases html) as [H|(I & _)]; [left; exact H|right].
  destruct (ReFacts.findall_from_sound _ _ _ _ I) as (HL & _).
  apply ReFacts.email_lang_has_at. exact HL.
Qed.

(** X8.  What the scan of the page source returns is ["NaN"] or a match
    of the email pattern that occurs in the page source, contains an at sign
    and contains none of the five blocked fragments. *)
Theorem X8_fallback_returns_an_address_of_the_page :
  forall (page_html : string),
    regex_fallback page_html = "NaN"
    \/ (Py.contains (regex_fallback page_html) page_html = true
        /\ Py.contains "@" (regex_fallback page_html) = true
        /\ in_lang Re.email_pattern (regex_fallback page_html)
        /\ forall x, In x blocked_fragments ->
                     Py.contains x (regex_fallback page_html) = false).
Proof.
  intros html. destruct (regex_fallback_cases html) as [H|(I & B)];
    [left; exact H|right].
  destruct (ReFacts.findall_from_sound _ _ _ _ I) as (HL & Hc).
  repeat split; [exact Hc | apply ReFacts.email_lang_has_at; exact HL
                 | exact HL |].
  intros x Hx. unfold is_blocked in B.
  destruct (Py.contains x (regex_fallback html)) eqn:C; [|reflexivity].
  assert (T : existsb (fun y => Py.contains y (regex_fallback html))
                      blocked_fragments = true).
  { apply existsb_exists. exists x. auto. }
  congruence.
Qed.

Lemma normalize_url_http u : Py.startswith "http" (normalize_url u) = true.
Proof.
  unfold normalize_url. destruct (Py.startswith "http" u) eqn:E; [exact E|].
  reflexivity.
Qed.

(** X9.  [extract_email_from_facebook] visits one URL, which begins with
    ["http"], and returns ["NaN"] or a text that contains an at sign,
    whatever the page holds and whatever fails. *)
Theorem X9_email_is_sentinel_or_has_an_at_sign :
  forall (w : Web) (facebook_url : string),
    (exists u, fst (extract_email_from_facebook w facebook_url) = [VisitProfile u]
               /\ Py.startswith "http" u = true)
    /\ (snd (extract_email_from_facebook w facebook_url) = "NaN"
        \/ Py.contains "@" (snd (extract_email_from_facebook w facebook_url))
           = true).
Proof.
  intros w url. split.
  - exists (normalize_url url). split; [reflexivity|apply normalize_url_http].
  - unfold extract_email_from_facebook, extract_email_try. cbn [snd].
    destruct (profile w (normalize_url url)) as [p|e]; cbn [bind];
      [|left; reflexivity].
    destruct (email_selectors_loop p email_selectors) as [m|] eqn:S.
    + right. apply (email_selectors_loop_has_at _ _ _ S).
    + destruct (p_page_source p) as [html|e]; cbn [bind]; [|left; reflexivity].
      apply regex_fallback_has_at.
Qed.

End ValueExtras.

(* ================================================================== *)
(** * Further properties of the phone value and of the profile search *)
(* ================================================================== *)

Module LookupExtras.
Import Extract Notions MoreNotions Examples Facebook.

Lemma phone_elements_loop_looks els : forall t,
  phone_elements_loop els = Ok (Some t) -> looks_like_phone t = true.
Proof.
  induction els as [|el els IH]; intros t H; [discriminate|].
  cbn [phone_elements_loop] in H.
  destruct (text el) as [raw|e]; cbn [bind] in H; [|discriminate].
  cbv zeta in H.
  destruct (looks_like_phone (Py.join " " (Py.split_ws (Py.strip raw)))) eqn:L.
  - inversion H; subst. exact L.
  - apply IH. exact H.
Qed.

Lemma phone_method1_looks l sels : forall t,
  phone_method1 l sels = Some t -> looks_like_phone t = true.
Proof.
  induction sels as [|s sels IH]; intros t H; [discriminate|].
  cbn [phone_method1] in H.
  destruct (find_elements l s) as [els|e]; cbn [bind] in H; [|apply IH; exact H].
  destruct (phone_elements_loop els) as [[x|]|e] eqn:P;
    [|apply IH; exact H|apply IH; exact H].
  inversion H; subst. apply (phone_elements_loop_looks _ _ P).
Qed.

Lemma phone_method2_length l t :
  phone_method2 l = Some t -> 10 <= String.length t.
Proof.
  unfold phone_method2.
  destruct (find_elements l "a[href^='tel:']") as [links|e]; cbn [bind];
    [|discriminate].
  destruct (tel_links_loop links) as [r|e] eqn:T; [|discriminate].
  intros ->. apply (@ExtractClaims.tel_links_loop_accepts _ _ T).
Qed.

Lemma phone_method3_match l t :
  phone_method3 l = Some t ->
  10 <= String.length t <= 14
  /\ exists html, listing_attribute l "innerHTML" = Some html
                  /\ Py.contains t html = true.
Proof.
  unfold phone_method3.
  destruct (listing_attribute l "innerHTML") as [html|]; [|discriminate].
  destruct (Re.findall Re.phone_pattern html) as [|m ms] eqn:F; [discriminate|].
  intros H. inversion H; subst.
  assert (I : In t (Re.findall_from 0 Re.phone_pattern html)).
  { unfold Re.findall in F. rewrite F. left. reflexivity. }
  destruct (ReFacts.findall_from_sound _ _ _ _ I) as (HL & Hc).
  split; [apply ReFacts.phone_lang_length; exact HL|].
  exists html. auto.
Qed.

(** X10.  The phone of a record is the sentinel ["Not Available"], or a
    text that begins with a digit or an opening parenthesis (direct text), or
    a text of at least 10 characters (telephone link), or a text of 10 to 14
    characters that occurs in the markup of the listing (pattern scan); it
    is never empty. *)
Theorem X10_phone_value_cases :
  forall (l : Listing),
    (extract_phone l = "Not Available"
     \/ (phone_method1 l phone_selectors = Some (extract_phone l)
         /\ looks_like_phone (extract_phone l) = true)
     \/ (phone_method2 l = Some (extract_phone l)
         /\ 10 <= String.length (extract_phone l))
     \/ (phone_method3 l = Some (extract_phone l)
         /\ 10 <= String.length (extract_phone l) <= 14
         /\ exists html, listing_attribute l "innerHTML" = Some html
                         /\ Py.contains (extract_phone l) html = true))
    /\ extract_phone l <> EmptyString.
Proof.
  intros l.
  assert (C : extract_phone l = "Not Available"
     \/ (phone_method1 l phone_selectors = Some (extract_phone l)
         /\ looks_like_phone (extract_phone l) = true)
     \/ (phone_method2 l = Some (extract_phone l)
         /\ 10 <= String.length (extract_phone l))
     \/ (phone_method3 l = Some (extract_phone l)
         /\ 10 <= String.length (extract_phone l) <= 14
         /\ exists html, listing_attribute l "innerHTML" = Some html
                         /\ Py.contains (extract_phone l) html = true)).
  { unfold extract_phone.
    destruct (phone_method1 l phone_selectors) as [t|] eqn:M1.
    - right. left. split; [reflexivity|apply (phone_method1_looks _ _ _ M1)].
    - destruct (phone_method2 l) as [t|] eqn:M2.
      + right. right. left. split; [reflexivity|apply (phone_method2_length _ _ M2)].
      + destruct (phone_method3 l) as [t|] eqn:M3.
        * right. right. right. split; [reflexivity|apply (phone_method3_match _ _ M3)].
        * left. reflexivity. }
  split; [exact C|].
  destruct C as [E|[(_ & L)|[(_ & L)|(_ & L & _)]]]; intros Z; rewrite Z in *;
    simpl in *; try discriminate; lia.
Qed.

Lemma prefix_single c d t t' :
  String.prefix (String c EmptyString) (String d t)
  = String.prefix (String c EmptyString) (String d t').
Proof. simpl. destruct (ascii_dec c d); [|reflexivity]. destruct t, t'; reflexivity. Qed.

Lemma split_head_drops_sep c s :
  Py.contains (String c EmptyString) (Py.split_head (String c EmptyString) s)
  = false.
Proof.
  induction s as [|d s IH]; [reflexivity|].
  cbn [Py.split_head].
  destruct (String.prefix (String c EmptyString) (String d s)) eqn:P;
    [reflexivity|].
  cbn [Py.contains]. rewrite (prefix_single c d _ s), P, IH. reflexivity.
Qed.

Lemma split_head_keeps_absent c sep s :
  Py.contains (String c EmptyString) s = false ->
  Py.contains (String c EmptyString) (Py.split_head sep s) = false.
Proof.
  induction s as [|d s IH]; intros H; [reflexivity|].
  cbn [Py.split_head]. destruct (String.prefix sep (String d s)); [reflexivity|].
  cbn [Py.contains] in *. apply orb_false_iff in H. destruct H as (H1 & H2).
  rewrite (prefix_single c d _ s), H1, (IH H2). reflexivity.
Qed.

Lemma clean_url_has_no_query href :
  Py.contains "?" (clean_url href) = false
  /\ Py.contains "&" (clean_url href) = false.
Proof.
  unfold clean_url. split.
  - apply split_head_drops_sep.
  - apply split_head_keeps_absent, split_head_drops_sep.
Qed.

Lemma pick_link_accepts links : forall u,
  pick_link links = Some u ->
  exists link href,
    In link links /\ get_attribute link "href" = Some href
    /\ u = clean_url href
    /\ Py.contains "facebook.com/" href = true
    /\ existsb (fun x => Py.contains x href) interaction_fragments = false
    /\ (Py.contains "facebook.com/pages" u
        || Py.contains "facebook.com/pg" u
        || (3 <=? Py.count_char "/" u)) = true.
Proof.
  induction links as [|link links IH]; intros u H; [discriminate|].
  assert (R : pick_link links = Some u ->
              exists link0 href,
                In link0 (link :: links) /\ get_attribute link0 "href" = Some href
                /\ u = clean_url href
                /\ Py.contains "facebook.com/" href = true
                /\ existsb (fun x => Py.contains x href) interaction_fragments = false
                /\ (Py.contains "facebook.com/pages" u
                    || Py.contains "facebook.com/pg" u
                    || (3 <=? Py.count_char "/" u)) = true).
  { intros H'. destruct (IH u H') as (k & h & I & A & B).
    exists k, h. split; [right; exact I|auto]. }
  cbn [pick_link] in H.
  destruct (get_attribute link "href") as [href|] eqn:A; [|apply R; exact H].
  destruct (Py.truthy href && Py.contains "facebook.com" href);
    [|apply R; exact H].
  destruct (existsb (fun x => Py.contains x href) interaction_fragments) eqn:B;
    [apply R; exact H|].
  destruct (Py.contains "facebook.com/" href) eqn:F; [|apply R; exact H].
  cbv zeta in H.
  destruct (Py.contains "facebook.com/pages" (clean_url href)
            || Py.contains "facebook.com/pg" (clean_url href)) eqn:P.
  - inversion H; subst. exists link, href.
    repeat split; auto; [left; reflexivity|]. rewrite P. reflexivity.
  - destruct (3 <=? Py.count_char "/" (clean_url href)) eqn:D;
      [|apply R; exact H].
    inversion H; subst. exists link, href.
    repeat split; auto; [left; reflexivity|]. rewrite P, D. reflexivity.
Qed.

Lemma search_google_result w name u :
  snd (search_google w name) = Some u ->
  exists links,
    g_links (google w (search_query_of name)) = Ok links
    /\ (pick_link links = Some u
        \/ (pick_link links = None /\ first_link links = Some u)).
Proof.
  unfold search_google, search_google_try, scan_results. cbn [snd].
  set (g := google w (search_query_of name)).
  destruct (g_get g); cbn [bind]; [|discriminate].
  destruct (first_input g search_selectors) as [[|]|e]; cbn [bind];
    try discriminate.
  destruct (g_submit g); cbn [bind]; [|discriminate].
  destruct (g_wait_links g) as [x|[| |m]]; cbn [bind]; try discriminate.
  destruct (g_links g) as [links|[| |m]]; cbn [bind]; try discriminate.
  intros H. exists links. split; [reflexivity|].
  destruct (pick_link links) as [v|]; [left|right; split; [reflexivity|]];
    exact H.
Qed.

(** X11.  [search_google] makes one search, for the quoted name followed
    by [facebook].  A URL it returns is the target of one of the result links
    cut at its first [&] and first [?], so it contains neither.  It is the
    first link, in order, that has [facebook.com/], none of the five
    interaction fragments, and a [pages] or [pg] path or three slashes; when
    no link passes, it is the first link of the results, whatever it is. *)
Theorem X11_profile_url_is_a_cleaned_result_link :
  forall (w : Web) (name u : string),
    snd (search_google w name) = Some u ->
    fst (search_google w name) = [GoogleSearch (search_query_of name)]
    /\ Py.contains "?" u = false /\ Py.contains "&" u = false
    /\ exists links,
         g_links (google w (search_query_of name)) = Ok links
         /\ ((exists link href,
                In link links /\ get_attribute link "href" = Some href
                /\ u = clean_url href
                /\ Py.contains "facebook.com/" href = true
                /\ existsb (fun x => Py.contains x href)
                           interaction_fragments = false
                /\ (Py.contains "facebook.com/pages" u
                    || Py.contains "facebook.com/pg" u
                    || (3 <=? Py.count_char "/" u)) = true)
             \/ (pick_link links = None
                 /\ exists link rest href,
                      links = link :: rest
                      /\ get_attribute link "href" = Some href
                      /\ u = clean_url href)).
Proof.
  intros w name u H. split; [reflexivity|].
  destruct (search_google_result _ _ _ H) as (links & G & [P|(P & F)]).
  - destruct (pick_link_accepts _ _ P) as (link & href & I & A & E & R).
    rewrite E. destruct (clean_url_has_no_query href) as (Q1 & Q2).
    split; [exact Q1|]. split; [exact Q2|].
    exists links. split; [exact G|]. left. exists link, href.
    rewrite <- E. auto.
  - unfold first_link in F. destruct links as [|link rest]; [discriminate|].
    destruct (get_attribute link "href") as [href|] eqn:A; [|discriminate].
    destruct (Py.truthy href); [|discriminate]. inversion F; subst.
    destruct (clean_url_has_no_query href) as (Q1 & Q2).
    split; [exact Q1|]. split; [exact Q2|].
    exists (link :: rest). split; [exact G|]. right. split; [exact P|].
    exists link, rest, href. auto.
Qed.

Lemma X11_profile_url_is_a_cleaned_result_link_witness :
  Py.contains "?" "https://www.facebook.com/pages/biz" = false.
Proof.
  destruct (X11_profile_url_is_a_cleaned_result_link broken_web "Up"
              "https://www.facebook.com/pages/biz" eq_refl) as (_ & H & _).
  exact H.
Defined.

End LookupExtras.

(* ================================================================== *)
(** * Further properties of the enricher *)
(* ================================================================== *)

Module TableExtras.
Import Notions MoreNotions Examples Facebook.

Lemma lookup_row_shape w df idx c :
  exists visits e,
    lookup_row w df idx c
    = (GoogleSearch (search_query_of (Df.format c)) :: visits,
       Df.set_at df idx "Email" (Str e))
    /\ (visits = [] \/ exists u, visits = [VisitProfile u]).
Proof.
  unfold lookup_row, search_google, extract_email_from_facebook.
  destruct (search_google_try (google w (search_query_of (Df.format c))))
    as [[url|]|x].
  - destruct (Py.truthy url).
    + destruct (extract_email_try w (normalize_url url)) as [email|x].
      * destruct (negb (String.eqb email sentinel));
          eexists; eexists; (split; [reflexivity|right; eexists; reflexivity]).
      * eexists; eexists; (split; [reflexivity|right; eexists; reflexivity]).
    + eexists; eexists; (split; [reflexivity|left; reflexivity]).
  - eexists; eexists; (split; [reflexivity|left; reflexivity]).
  - eexists; eexists; (split; [reflexivity|left; reflexivity]).
Qed.

Lemma set_nth_twice {A} (j : nat) (u v : A) (l : list A) :
  Df.set_nth j v (Df.set_nth j u l) = Df.set_nth j v l.
Proof.
  revert j. induction l as [|h t IH]; intros [|j]; simpl; try reflexivity.
  rewrite IH. reflexivity.
Qed.

Lemma Forall2_update_nth {A} (R : A -> A -> Prop) (f : A -> A) :
  (forall a b, R a b -> R a (f b)) ->
  forall l l1 i, Forall2 R l l1 -> Forall2 R l (Df.update_nth i f l1).
Proof.
  intros Hf l l1 i H. revert i.
  induction H as [|a b l l1 Hab H IH]; intros [|i]; simpl; constructor; auto.
Qed.

Lemma Forall2_same {A} (R : A -> A -> Prop) :
  (forall a, R a a) -> forall l, Forall2 R l l.
Proof. intros H l. induction l; constructor; auto. Qed.

Lemma kept_set_at df df1 idx e :
  kept df df1 -> kept df (Df.set_at df1 idx "Email" (Str e)).
Proof.
  intros (Hc & Hr). unfold Df.set_at. rewrite Hc.
  destruct (Df.index_of "Email" (columns df)) as [j|] eqn:J;
    [|split; assumption].
  split; [reflexivity|]. simpl. apply Forall2_update_nth; [|exact Hr].
  intros a b [->|(j' & e' & J' & ->)]; right; exists j, e;
    (split; [exact J|]); [reflexivity|].
  rewrite J in J'. inversion J'; subst. apply set_nth_twice.
Qed.

Lemma rows_loop_kept w cols df todo : forall idx df1,
  kept df df1 -> kept df (snd (rows_loop w cols todo idx df1)).
Proof.
  induction todo as [|row todo IH]; intros idx df1 H; [exact H|].
  cbn [rows_loop]. cbv zeta.
  destruct (already_has_email (Df.row_get cols row "Email")); [apply IH; exact H|].
  destruct (lookup_row_shape w df1 idx (Df.row_get cols row "Business Name"))
    as (visits & e & -> & _).
  specialize (IH (S idx) _ (kept_set_at df df1 idx e H)).
  destruct (rows_loop w cols todo (S idx) (Df.set_at df1 idx "Email" (Str e))).
  exact IH.
Qed.

Lemma rows_loop_untouched w cols todo : forall idx df1 i,
  (forall k row, nth_error todo k = Some row -> idx + k = i ->
                 already_has_email (Df.row_get cols row "Email") = true) ->
  nth_error (rows (snd (rows_loop w cols todo idx df1))) i
  = nth_error (rows df1) i.
Proof.
  induction todo as [|row todo IH]; intros idx df1 i H; [reflexivity|].
  cbn [rows_loop]. cbv zeta.
  assert (H' : forall k r, nth_error todo k = Some r -> S idx + k = i ->
                           already_has_email (Df.row_get cols r "Email") = true).
  { intros k r Hk Hi. apply (H (S k) r Hk). lia. }
  destruct (already_has_email (Df.row_get cols row "Email")) eqn:E;
    [apply IH; exact H'|].
  destruct (lookup_row_shape w df1 idx (Df.row_get cols row "Business Name"))
    as (visits & e & -> & _).
  specialize (IH (S idx) (Df.set_at df1 idx "Email" (Str e)) i H').
  destruct (rows_loop w cols todo (S idx) (Df.set_at df1 idx "Email" (Str e))).
  cbn [snd] in *. rewrite IH.
  apply EnricherClaims.set_at_other. intros ->.
  specialize (H 0 row eq_refl (Nat.add_0_r _)). congruence.
Qed.

Lemma rows_loop_counts w cols todo : forall idx df1,
  length (filter is_search (fst (rows_loop w cols todo idx df1)))
  = length (filter (needs_lookup cols) todo)
  /\ length (filter is_visit (fst (rows_loop w cols todo idx df1)))
     <= length (filter (needs_lookup cols) todo).
Proof.
  induction todo as [|row todo IH]; intros idx df1; [split; reflexivity|].
  cbn [rows_loop filter]. cbv zeta.
  replace (needs_lookup cols row)
    with (negb (already_has_email (Df.row_get cols row "Email")))
    by reflexivity.
  destruct (already_has_email (Df.row_get cols row "Email")); cbn [negb];
    [apply IH|].
  destruct (lookup_row_shape w df1 idx (Df.row_get cols row "Business Name"))
    as (visits & e & -> & V).
  specialize (IH (S idx) (Df.set_at df1 idx "Email" (Str e))).
  destruct (rows_loop w cols todo (S idx) (Df.set_at df1 idx "Email" (Str e)))
    as [evs df2]. cbn [fst] in *. destruct IH as (I1 & I2).
  rewrite !filter_app, !length_app.
  destruct ((idx + 1) mod 10 =? 0);
    destruct V as [->|(u & ->)]; simpl; lia.
Qed.

Lemma write_points_visits n visits tail :
  (visits = [] \/ exists u, visits = [VisitProfile u]) ->
  write_points n (visits ++ tail) = write_points n tail.
Proof. intros [->|(u & ->)]; reflexivity. Qed.

Lemma rows_loop_cadence w cols todo : forall idx df1 tail,
  Forall (fun row => needs_lookup cols row = true) todo ->
  write_points idx (fst (rows_loop w cols todo idx df1) ++ tail)
  = filter (fun k => k mod 10 =? 0) (seq (S idx) (length todo))
    ++ write_points (idx + length todo) tail.
Proof.
  induction todo as [|row todo IH]; intros idx df1 tail H.
  - simpl. rewrite Nat.add_0_r. reflexivity.
  - pose proof (Forall_inv H) as Hr. unfold needs_lookup in Hr.
    apply negb_true_iff in Hr.
    cbn [rows_loop]. cbv zeta. rewrite Hr.
    destruct (lookup_row_shape w df1 idx (Df.row_get cols row "Business Name"))
      as (visits & e & -> & V).
    specialize (IH (S idx) (Df.set_at df1 idx "Email" (Str e)) tail
                   (Forall_inv_tail H)).
    destruct (rows_loop w cols todo (S idx) (Df.set_at df1 idx "Email" (Str e)))
      as [evs df2]. cbn [fst] in *.
    cbn [length seq filter]. rewrite Nat.add_1_r.
    change ((GoogleSearch (search_query_of
               (Df.format (Df.row_get cols row "Business Name"))) :: visits)
            ++ (if S idx mod 10 =? 0
                then [ToExcel (Df.set_at df1 idx "Email" (Str e))] else [])
            ++ evs)
      with ([GoogleSearch (search_query_of
               (Df.format (Df.row_get cols row "Business Name")))]
            ++ visits
            ++ (if S idx mod 10 =? 0
                then [ToExcel (Df.set_at df1 idx "Email" (Str e))] else [])
            ++ evs).
    rewrite <- !app_assoc. cbn [app write_points].
    rewrite (write_points_visits _ _ _ V).
    replace (idx + S (length todo)) with (S idx + length todo) by lia.
    destruct (S idx mod 10 =? 0); cbn [app write_points]; rewrite IH;
      reflexivity.
Qed.

Lemma table_35_needs_lookup :
  Forall (fun row => needs_lookup (columns table_35) row = true)
         (rows table_35).
Proof.
  apply Forall_forall. intros row Hr. apply repeat_spec in Hr. subst.
  reflexivity.
Qed.

End TableExtras.

(* ================================================================== *)
(** * Properties of saving and summarising *)
(* ================================================================== *)

Module FileExtras.
Import MoreNotions Examples Files.

Lemma clean_app a b :
  clean (String.append a b) = String.append (clean a) (clean b).
Proof.
  induction a as [|c a IH]; [reflexivity|]. simpl.
  destruct (keep_char c); simpl; rewrite IH; reflexivity.
Qed.

Lemma clean_kept s : all_in keep_char (clean s) = true.
Proof.
  induction s as [|c s IH]; [reflexivity|]. simpl.
  destruct (keep_char c) eqn:K; [|exact IH]. simpl. rewrite K, IH. reflexivity.
Qed.

Lemma clean_fixed s : all_in keep_char s = true -> clean s = s.
Proof.
  induction s as [|c s IH]; [reflexivity|]. simpl. intros H.
  apply andb_prop in H. destruct H as (K & H). rewrite K, (IH H). reflexivity.
Qed.

Lemma kept_has_no c s :
  all_in keep_char s = true -> keep_char c = false ->
  Py.contains (String c EmptyString) s = false.
Proof.
  intros H K. induction s as [|d s IH]; [reflexivity|].
  simpl in H. apply andb_prop in H. destruct H as (Kd & H).
  cbn [Py.contains]. rewrite (IH H), orb_false_r. simpl.
  destruct (ascii_dec c d) as [->|]; [congruence|reflexivity].
Qed.

Lemma filename_of_parts j l :
  filename_of j l
  = String.append "YellowPages_"
      (String.append (clean j)
         (String.append "_" (String.append (clean l) ".xlsx"))).
Proof.
  unfold filename_of. rewrite !clean_app. reflexivity.
Qed.

(** X15.  The file name of a query is [YellowPages_], the job type, [_],
    the location and [.xlsx], with every character of the two inputs dropped
    that is neither alphanumeric nor one of [_], [.], [-]; so the name holds
    no slash, backslash or space, cleaning it again changes nothing, and two
    queries that differ only in dropped characters get the same file. *)
Theorem X15_file_name_keeps_safe_characters :
  forall (job_type location : string),
    filename_of job_type location
    = String.append "YellowPages_"
        (String.append (clean job_type)
           (String.append "_" (String.append (clean location) ".xlsx")))
    /\ all_in keep_char (filename_of job_type location) = true
    /\ Py.contains "/" (filename_of job_type location) = false
    /\ Py.contains "\" (filename_of job_type location) = false
    /\ Py.contains " " (filename_of job_type location) = false
    /\ clean (filename_of job_type location) = filename_of job_type location
    /\ (forall job_type' location',
          clean job_type' = clean job_type ->
          clean location' = clean location ->
          filename_of job_type' location' = filename_of job_type location).
Proof.
  intros j l. split; [apply filename_of_parts|].
  assert (K : all_in keep_char (filename_of j l) = true) by apply clean_kept.
  split; [exact K|].
  split; [apply kept_has_no; [exact K|reflexivity]|].
  split; [apply kept_has_no; [exact K|reflexivity]|].
  split; [apply kept_has_no; [exact K|reflexivity]|].
  split; [apply clean_fixed; exact K|].
  intros j' l' Hj Hl. rewrite !filename_of_parts, Hj, Hl. reflexivity.
Qed.

Lemma X15_file_name_keeps_safe_characters_witness :
  filename_of "Plumber" "LosAngelesCA" = filename_of "Plumber" "Los Angeles, CA".
Proof.
  destruct (X15_file_name_keeps_safe_characters "Plumber" "Los Angeles, CA")
    as (_ & _ & _ & _ & _ & _ & H).
  apply (H "Plumber" "LosAngelesCA"); reflexivity.
Defined.

Lemma all_in_app p a b :
  all_in p (String.append a b) = all_in p a && all_in p b.
Proof.
  induction a as [|c a IH]; [reflexivity|]. simpl. rewrite IH.
  apply andb_assoc.
Qed.

Lemma replace_from_kept p old new s : forall skip,
  all_in p new = true -> all_in p s = true ->
  all_in p (Py.replace_from skip old new s) = true.
Proof.
  induction s as [|c s IH]; intros skip Hn Hs; [reflexivity|].
  simpl in Hs. apply andb_prop in Hs. destruct Hs as (Hc & Hs).
  cbn [Py.replace_from]. destruct skip as [|k]; [|apply IH; assumption].
  destruct (String.prefix old (String c s)).
  - rewrite all_in_app, Hn. apply IH; assumption.
  - simpl. rewrite Hc. apply IH; assumption.
Qed.

(** X16.  [save_to_excel] of either file writes nothing and returns no
    name when there are no results or when every write fails; otherwise it
    writes one file and returns its name, which holds only alphanumeric
    characters and [_], [.], [-]; the table written has the two columns and
    one row per record, in order.  The CSV file is written only by
    [YP_scraper.py], and only after the Excel write failed.  With results
    to save, a disk that takes the Excel file gets it, under the cleaned
    name, from either file; when it refuses the Excel file,
    [unified_scraper.py] writes nothing and [YP_scraper.py] writes the CSV
    file named after it, or nothing when that write fails too. *)
Theorem X16_save_writes_one_safely_named_file :
  forall (disk : Disk) (results : list ListingRecord)
         (job_type location : string),
    (results = [] ->
       save_to_excel disk results job_type location = ([], None)
       /\ unified_save_to_excel disk results job_type location = ([], None))
    /\ (results <> [] ->
        forall u, to_excel disk (filename_of job_type location) = Ok u ->
          save_to_excel disk results job_type location
          = ([WriteExcel (filename_of job_type location) (frame_of results)],
             Some (filename_of job_type location))
          /\ unified_save_to_excel disk results job_type location
             = ([WriteExcel (filename_of job_type location) (frame_of results)],
                Some (filename_of job_type location)))
    /\ (results <> [] ->
        forall e, to_excel disk (filename_of job_type location) = Raise e ->
          unified_save_to_excel disk results job_type location = ([], None)
          /\ (forall u,
                to_csv disk (Py.replace ".xlsx" ".csv"
                               (filename_of job_type location)) = Ok u ->
                save_to_excel disk results job_type location
                = ([WriteCsv (Py.replace ".xlsx" ".csv"
                                (filename_of job_type location))
                             (frame_of results)],
                   Some (Py.replace ".xlsx" ".csv"
                           (filename_of job_type location))))
          /\ (forall e',
                to_csv disk (Py.replace ".xlsx" ".csv"
                               (filename_of job_type location)) = Raise e' ->
                save_to_excel disk results job_type location = ([], None)))
    /\ (forall ws name,
        (save_to_excel disk results job_type location = (ws, name)
         \/ unified_save_to_excel disk results job_type location = (ws, name)) ->
        (name = None /\ ws = [])
        \/ (exists f, name = Some f
              /\ all_in keep_char f = true
              /\ results <> []
              /\ (ws = [WriteExcel f (frame_of results)]
                  \/ (ws = [WriteCsv f (frame_of results)]
                      /\ (exists e, to_excel disk
                                      (filename_of job_type location) = Raise e)
                      /\ save_to_excel disk results job_type location
                         = (ws, name)))))
    /\ map (fun row => nth 0 row NA) (rows (frame_of results))
       = map (fun r => Str (business_name r)) results
    /\ map (fun row => nth 1 row NA) (rows (frame_of results))
       = map (fun r => Str (phone_number r)) results.
Proof.
  intros disk results j l. split; [|split; [|split; [|split; [|split]]]].
  - intros ->. split; reflexivity.
  - intros NE u X. destruct results as [|r rs]; [contradiction|].
    unfold save_to_excel, unified_save_to_excel. rewrite X.
    split; reflexivity.
  - intros NE e X. destruct results as [|r rs]; [contradiction|].
    unfold save_to_excel, unified_save_to_excel. rewrite X. cbv zeta.
    split; [reflexivity|]. split.
    + intros u Y. rewrite Y. reflexivity.
    + intros e' Y. rewrite Y. reflexivity.
  - intros ws name H.
    assert (K : all_in keep_char (filename_of j l) = true) by apply clean_kept.
    destruct results as [|r rs].
    + left. destruct H as [H|H]; inversion H; auto.
    + destruct H as [H|H].
      * unfold save_to_excel in H.
        destruct (to_excel disk (filename_of j l)) as [u|e] eqn:X.
        -- inversion H; subst. right. exists (filename_of j l).
           repeat split; auto; discriminate.
        -- cbv zeta in H.
           destruct (to_csv disk (Py.replace ".xlsx" ".csv" (filename_of j l)))
             as [u|e'] eqn:Y.
           ++ right. exists (Py.replace ".xlsx" ".csv" (filename_of j l)).
              inversion H; subst.
              repeat split; auto; [|discriminate|].
              ** apply replace_from_kept; [reflexivity|exact K].
              ** right. repeat split; eauto.
                 unfold save_to_excel. rewrite X. cbv zeta. rewrite Y.
                 reflexivity.
           ++ left. inversion H; auto.
      * unfold unified_save_to_excel in H.
        destruct (to_excel disk (filename_of j l)) as [u|e] eqn:X.
        -- inversion H; subst. right. exists (filename_of j l).
           repeat split; auto; discriminate.
        -- left. inversion H; auto.
  - unfold frame_of. simpl. rewrite map_map. reflexivity.
  - unfold frame_of. simpl. rewrite map_map. reflexivity.
Qed.

Lemma X16_save_writes_one_safely_named_file_witness :
  (Some "YellowPages_Plumber_LA.csv" = None (A:=string)
   /\ [WriteCsv "YellowPages_Plumber_LA.csv"
                (frame_of [mkRecord "Joe" "Not Available"])] = [])
  \/ (exists f, Some "YellowPages_Plumber_LA.csv" = Some f
        /\ all_in keep_char f = true
        /\ [mkRecord "Joe" "Not Available"] <> []
        /\ ([WriteCsv "YellowPages_Plumber_LA.csv"
                      (frame_of [mkRecord "Joe" "Not Available"])]
            = [WriteExcel f (frame_of [mkRecord "Joe" "Not Available"])]
            \/ ([WriteCsv "YellowPages_Plumber_LA.csv"
                          (frame_of [mkRecord "Joe" "Not Available"])]
                = [WriteCsv f (frame_of [mkRecord "Joe" "Not Available"])]
                /\ (exists e, to_excel
                                (mkDisk (fun _ => Raise (OtherException "locked"))
                                        (fun _ => Ok tt))
                                (filename_of "Plumber" "L A") = Raise e)
                /\ save_to_excel
                     (mkDisk (fun _ => Raise (OtherException "locked"))
                             (fun _ => Ok tt))
                     [mkRecord "Joe" "Not Available"] "Plumber" "L A"
                   = ([WriteCsv "YellowPages_Plumber_LA.csv"
                                (frame_of [mkRecord "Joe" "Not Available"])],
                      Some "YellowPages_Plumber_LA.csv")))).
Proof.
  destruct (X16_save_writes_one_safely_named_file
              (mkDisk (fun _ => Raise (OtherException "locked"))
                      (fun _ => Ok tt))
              [mkRecord "Joe" "Not Available"] "Plumber" "L A")
    as (_ & _ & _ & H & _).
  apply H. left. reflexivity.
Defined.

Lemma enumerate_In {A} (l : list A) : forall s i x,
  In (i, x) (enumerate s l) -> s <= i /\ nth_error l (i - s) = Some x.
Proof.
  induction l as [|a l IH]; intros s i x H; [destruct H|].
  simpl in H. destruct H as [H|H].
  - inversion H; subst. rewrite Nat.sub_diag. split; [lia|reflexivity].
  - destruct (IH _ _ _ H) as (Hs & Hn). split; [lia|].
    replace (i - s) with (S (i - S s)) by lia. exact Hn.
Qed.

Lemma enumerate_length {A} (l : list A) : forall s,
  length (enumerate s l) = length l.
Proof. induction l as [|a l IH]; intros s; simpl; [|rewrite IH]; reflexivity. Qed.

Lemma nth_error_firstn_some {A} (l : list A) : forall n i x,
  nth_error (firstn n l) i = Some x -> nth_error l i = Some x.
Proof.
  induction l as [|a l IH]; intros [|n] [|i] x H; simpl in *;
    try discriminate; auto.
  apply (IH _ _ _ H).
Qed.

Lemma enumerate_nth {A} (l : list A) : forall s k,
  nth_error (enumerate s l) k
  = option_map (fun x => (s + k, x)) (nth_error l k).
Proof.
  induction l as [|a l IH]; intros s [|k]; simpl; try reflexivity.
  - rewrite Nat.add_0_r. reflexivity.
  - rewrite IH, Nat.add_succ_r. reflexivity.
Qed.

Lemma nth_error_firstn_lt {A} (l : list A) : forall n k,
  k < n -> nth_error (firstn n l) k = nth_error l k.
Proof.
  induction l as [|a l IH]; intros [|n] [|k] H; simpl; try lia;
    try reflexivity.
  apply IH. lia.
Qed.

Lemma preview_line_of results s l line :
  (forall i r, In (i, r) (enumerate s l) ->
               1 <= i /\ nth_error results (i - 1) = Some r) ->
  In line (map preview_line (enumerate s l)) ->
  exists i r, 1 <= i /\ nth_error results (i - 1) = Some r
              /\ line = (i, Py.take 50 (business_name r), phone_number r).
Proof.
  intros H I. apply in_map_iff in I. destruct I as ([i r] & <- & I).
  destruct (H _ _ I) as (H1 & H2). exists i, r. auto.
Qed.

Lemma print_summary_nonempty results :
  results <> [] ->
  print_summary results
  = Some (mkSummary (length results)
            (length (filter (fun r =>
               negb (String.eqb (phone_number r) "Not Available")) results))
            (length results
             - length (filter (fun r =>
                 negb (String.eqb (phone_number r) "Not Available")) results))
            (map preview_line (enumerate 1 (firstn 5 results)))
            (if 10 <? length results
             then map preview_line
                    (enumerate (length results - 4)
                       (skipn (length results - 5) results))
             else [])).
Proof. destruct results; [contradiction|reflexivity]. Qed.

(** X17.  [print_summary] prints nothing but a notice for an empty list.
    Otherwise the two phone counts add up to the number of records, the
    preview shows the first 5 records (or all, if fewer) and, only when there
    are more than 10, the last 5; and every preview line carries the position
    of its record in the list, counted from 1, its name cut at 50 characters
    and its phone.  The line number [k] of the first preview, counted from 0,
    is the line of the record at index [k]; with [n] records, more than 10,
    the line number [k] of the last preview is the line of the record at
    index [n - 5 + k]. *)
Theorem X17_summary_counts_and_preview_positions :
  forall (results : list ListingRecord),
    (print_summary results = None <-> results = [])
    /\ (forall s, print_summary results = Some s ->
          total s = length results
          /\ with_phone s + without_phone s = total s
          /\ length (first_lines s) = Nat.min 5 (length results)
          /\ length (last_lines s) = (if 10 <? length results then 5 else 0)
          /\ (forall line, In line (first_lines s ++ last_lines s) ->
                exists i r,
                  1 <= i /\ nth_error results (i - 1) = Some r
                  /\ line = (i, Py.take 50 (business_name r),
                             phone_number r))
          /\ (forall k r, k < 5 -> nth_error results k = Some r ->
                nth_error (first_lines s) k
                = Some (k + 1, Py.take 50 (business_name r), phone_number r))
          /\ (10 < length results ->
              forall k r, k < 5 ->
                nth_error results (length results - 5 + k) = Some r ->
                nth_error (last_lines s) k
                = Some (length results - 5 + k + 1,
                        Py.take 50 (business_name r), phone_number r))).
Proof.
  intros results. split.
  - destruct results; simpl; split; intros H; try reflexivity; discriminate.
  - intros s H.
    assert (NE : results <> []) by (destruct results; discriminate).
    rewrite (print_summary_nonempty results NE) in H.
    remember (firstn 5 results) as f5 eqn:F5.
    remember (skipn (length results - 5) results) as l5 eqn:L5.
    injection H as <-.
    unfold total, with_phone, without_phone, first_lines, last_lines.
    pose proof (filter_length_le
                  (fun r => negb (String.eqb (phone_number r) "Not Available"))
                  results) as Hle.
    split; [reflexivity|]. split; [lia|].
    split; [rewrite length_map, enumerate_length, F5, length_firstn; reflexivity|].
    split.
    { destruct (10 <? length results) eqn:T; [|reflexivity].
      apply Nat.ltb_lt in T.
      rewrite length_map, enumerate_length, L5, length_skipn. lia. }
    split; [|split].
    2:{ intros k r Hk Hr.
        rewrite nth_error_map, enumerate_nth, F5, (nth_error_firstn_lt _ _ _ Hk).
        rewrite Hr. cbn [option_map preview_line fst snd].
        replace (1 + k) with (k + 1) by lia. reflexivity. }
    2:{ intros T k r Hk Hr.
        rewrite (proj2 (Nat.ltb_lt _ _) T).
        rewrite nth_error_map, enumerate_nth, L5, nth_error_skipn.
        rewrite Hr. cbn [option_map preview_line fst snd].
        replace (length results - 4 + k) with (length results - 5 + k + 1)
          by lia.
        reflexivity. }
    intros line I. apply in_app_or in I. destruct I as [I|I].
    + apply (preview_line_of results 1 f5); [|exact I].
      intros i r Hi. destruct (enumerate_In _ _ _ _ Hi) as (H1 & H2).
      split; [exact H1|]. rewrite F5 in H2.
      apply (nth_error_firstn_some _ _ _ _ H2).
    + destruct (10 <? length results) eqn:T; [|destruct I].
      apply Nat.ltb_lt in T.
      apply (preview_line_of results (length results - 4) l5); [|exact I].
      intros i r Hi. destruct (enumerate_In _ _ _ _ Hi) as (H1 & H2).
      split; [lia|]. rewrite L5, nth_error_skipn in H2.
      replace (i - 1) with (length results - 5 + (i - (length results - 4)))
        by lia.
      exact H2.
Qed.

Lemma X17_summary_counts_and_preview_positions_witness :
  total (mkSummary 1 1 0 [(1, "Joe", "555")] []) = length [mkRecord "Joe" "555"]
  /\ nth_error (first_lines (mkSummary 1 1 0 [(1, "Joe", "555")] [])) 0
     = Some (0 + 1, Py.take 50 "Joe", "555").
Proof.
  destruct (X17_summary_counts_and_preview_positions [mkRecord "Joe" "555"])
    as (_ & H).
  destruct (H (mkSummary 1 1 0 [(1, "Joe", "555")] []) eq_refl)
    as (H1 & _ & _ & _ & _ & H6 & _).
  split; [exact H1|]. apply (H6 0 (mkRecord "Joe" "555")); [lia|reflexivity].
Defined.

End FileExtras.

(* ================================================================== *)
(** * The claim about pagination *)
(* ================================================================== *)

Module NavClaims.
Import Extract Notions MoreNotions Examples WalkFacts.

Lemma try_buttons_proj d btns : forall b,
  fst (Nav.try_buttons d b btns) = Walk.try_buttons d b btns.
Proof.
  induction btns as [|btn btns IH]; intros b; [reflexivity|].
  cbn [Nav.try_buttons Walk.try_buttons].
  destruct (Walk.is_disabled btn); [reflexivity|].
  destruct (click d b btn) as [b'|e]; [|reflexivity].
  destruct (negb (String.eqb (current_url d b') (current_url d b)));
    [reflexivity|].
  specialize (IH b'). destruct (Nav.try_buttons d b' btns) as [[b2 r] ev].
  exact IH.
Qed.

Lemma find_next_proj d sels : forall b,
  fst (Nav.find_next d b sels) = Walk.find_next d b sels.
Proof.
  induction sels as [|sel sels IH]; intros b; [reflexivity|].
  cbn [Nav.find_next Walk.find_next].
  destruct (next_elements d b sel) as [btns|e].
  - pose proof (try_buttons_proj d btns b) as T.
    destruct (Nav.try_buttons d b btns) as [[b1 r] ev]. cbn [fst] in T.
    rewrite <- T.
    destruct r as [[|]|e]; [reflexivity| |];
      specialize (IH b1);
      destruct (Nav.find_next d b1 sels) as [[b2 f] ev']; exact IH.
  - specialize (IH b). destruct (Nav.find_next d b sels) as [[b2 f] ev'].
    exact IH.
Qed.

(** The logged walk returns what [extract_listings] returns. *)
Lemma walk_proj d mr mp fuel : forall b p rs,
  Nav.outcome (Nav.walk d mr mp fuel b p rs) = YP.walk d mr mp fuel b p rs.
Proof.
  induction fuel as [|fuel IH]; intros b p rs; [reflexivity|].
  rewrite YP_walk_S. cbn [Nav.walk].
  destruct (Walk.find_listings d b Walk.listing_selectors) as [|l ls];
    [reflexivity|].
  destruct (Walk.listings_loop mr (l :: ls) rs) as [rs1|rs1]; [|reflexivity].
  destruct (Walk.reached mp p); [reflexivity|].
  pose proof (find_next_proj d Walk.next_button_selectors b) as F.
  destruct (Nav.find_next d b Walk.next_button_selectors) as [[b1 f] ev].
  cbn [fst] in F. rewrite <- F. destruct f; [|reflexivity].
  rewrite <- IH.
  destruct (Nav.walk d mr mp fuel b1 (S p) rs1) as [[[rs2 p2] ev2]|];
    reflexivity.
Qed.

Lemma walk_at_bound d mr m fuel b p rs :
  (m <> 0)%Z -> (m <= Z.of_nat p)%Z ->
  Nav.walk d mr (Some m) (S fuel) b p rs
  = Some (outcome_results
            (Walk.listings_loop mr
               (Walk.find_listings d b Walk.listing_selectors) rs), p, []).
Proof.
  intros H0 Hp. cbn [Nav.walk].
  destruct (Walk.find_listings d b Walk.listing_selectors) as [|l ls];
    [reflexivity|].
  destruct (Walk.listings_loop mr (l :: ls) rs) as [rs1|rs1]; [|reflexivity].
  assert (R : Walk.reached (Some m) p = true)
    by (apply WalkClaims.reached_spec; auto).
  rewrite R. reflexivity.
Qed.

Section Scan.

Variable d : Driver.
Variable b : Browser d.

Lemma try_buttons_dull dull tail :
  Forall (Nav.inert d b) dull ->
  Walk.try_buttons d b (dull ++ tail) = Walk.try_buttons d b tail.
Proof.
  induction dull as [|x dull IH]; intros H; [reflexivity|].
  destruct (Forall_inv H) as (Hd & Hc).
  cbn [app Walk.try_buttons]. rewrite Hd, Hc, String.eqb_refl.
  apply IH. exact (Forall_inv_tail H).
Qed.

Lemma find_next_gives_up sel rest :
  Nav.gives_up d b sel ->
  Walk.find_next d b (sel :: rest) = Walk.find_next d b rest.
Proof.
  intros [(e & H)|(dull & tail & H & Hd & Ht)]; cbn [Walk.find_next];
    rewrite H; [reflexivity|].
  rewrite (try_buttons_dull dull tail Hd).
  destruct Ht as [->|(x & t & -> & Hx)]; [reflexivity|].
  cbn [Walk.try_buttons]. destruct (Walk.is_disabled x) eqn:D; [reflexivity|].
  destruct Hx as [Hx|(e & Hx)]; [discriminate|]. rewrite Hx. reflexivity.
Qed.

Lemma find_next_all_give_up pre rest :
  Forall (Nav.gives_up d b) pre ->
  Walk.find_next d b (pre ++ rest) = Walk.find_next d b rest.
Proof.
  induction pre as [|x pre IH]; intros H; [reflexivity|].
  cbn [app]. rewrite (find_next_gives_up x (pre ++ rest) (Forall_inv H)).
  apply IH. exact (Forall_inv_tail H).
Qed.

Lemma find_next_advances sel btn b' rest :
  Nav.advances d b sel btn b' ->
  Walk.find_next d b (sel :: rest) = (b', true).
Proof.
  intros (dull & post & H & Hd & Hx & Hc & Hu). cbn [Walk.find_next].
  rewrite H, (try_buttons_dull dull (btn :: post) Hd).
  cbn [Walk.try_buttons]. rewrite Hx, Hc.
  apply String.eqb_neq in Hu. rewrite Hu. reflexivity.
Qed.

End Scan.


Lemma dead_end_gives_up :
  Forall (Nav.gives_up dead_end 3) Walk.next_button_selectors.
Proof.
  constructor.
  { right. exists [], [button "next disabled"; button "next"].
    split; [reflexivity|]. split; [constructor|]. right.
    exists (button "next disabled"), [button "next"].
    split; [reflexivity|]. left. reflexivity. }
  constructor.
  { left. exists (OtherException "stale element"). reflexivity. }
  constructor.
  { right. exists [], []. split; [reflexivity|]. split; [constructor|].
    left. reflexivity. }
  constructor.
  { right. exists [], []. split; [reflexivity|]. split; [constructor|].
    left. reflexivity. }
  constructor; [|constructor].
  right. exists [button "more"], []. split; [reflexivity|].
  split; [|left; reflexivity].
  constructor; [split; reflexivity|constructor].
Qed.

Lemma site_advances :
  Nav.advances (site 5 [joe]) 0 "a.next" (button "next ajax-page") 1.
Proof.
  exists [], []. split; [reflexivity|]. split; [constructor|].
  split; [reflexivity|]. split; [reflexivity|]. discriminate.
Qed.

Lemma stuck_has_no_qualifying_control : no_qualifying_control stuck 0.
Proof.
  intros btn b2 b3 _ _ U C. simpl in C. inversion C; subst. exact U.
Qed.


End NavClaims.

(* ================================================================== *)
(** * Where the records come from *)
(* ================================================================== *)

Module ReachExtras.
Import Extract Notions MoreNotions Examples WalkFacts.

Lemma reach_trans d b b1 b2 :
  Nav.reach d b b1 -> Nav.reach d b1 b2 -> Nav.reach d b b2.
Proof.
  intros H1 H2. induction H2 as [|x btn y H2 IH C]; [exact H1|].
  eapply Nav.reach_click; [exact IH|exact C].
Qed.

Lemma try_buttons_reach d btns : forall b b' r,
  Walk.try_buttons d b btns = (b', r) -> Nav.reach d b b'.
Proof.
  induction btns as [|btn btns IH]; intros b b' r H;
    cbn [Walk.try_buttons] in H.
  - inversion H; subst. apply Nav.reach_here.
  - destruct (Walk.is_disabled btn);
      [inversion H; subst; apply Nav.reach_here|].
    destruct (click d b btn) as [b1|e] eqn:C;
      [|inversion H; subst; apply Nav.reach_here].
    assert (R : Nav.reach d b b1)
      by (eapply Nav.reach_click; [apply Nav.reach_here|exact C]).
    destruct (negb (String.eqb (current_url d b1) (current_url d b))).
    + inversion H; subst. exact R.
    + eapply reach_trans; [exact R|]. eapply IH. exact H.
Qed.

Lemma find_next_reach d sels : forall b b' f,
  Walk.find_next d b sels = (b', f) -> Nav.reach d b b'.
Proof.
  induction sels as [|sel sels IH]; intros b b' f H;
    cbn [Walk.find_next] in H.
  - inversion H; subst. apply Nav.reach_here.
  - destruct (next_elements d b sel) as [btns|e]; [|eapply IH; exact H].
    destruct (Walk.try_buttons d b btns) as [b1 r] eqn:T.
    pose proof (try_buttons_reach d btns b b1 r T) as R.
    destruct r as [[|]|e].
    + inversion H; subst. exact R.
    + eapply reach_trans; [exact R|]. eapply IH. exact H.
    + eapply reach_trans; [exact R|]. eapply IH. exact H.
Qed.

Lemma listing_step_from rs l :
  exists tail, listing_step rs l = rs ++ tail
               /\ Forall (fun r => process_listing l = Ok (Some r)) tail.
Proof.
  unfold listing_step. destruct (process_listing l) as [[r|]|e] eqn:E.
  - exists [r]. split; [reflexivity|]. constructor; [reflexivity|constructor].
  - exists []. rewrite app_nil_r. split; [reflexivity|constructor].
  - exists []. rewrite app_nil_r. split; [reflexivity|constructor].
Qed.

Lemma listings_loop_from mr ls : forall rs,
  exists tail,
    outcome_results (Walk.listings_loop mr ls rs) = rs ++ tail
    /\ Forall (fun r => exists l, In l ls /\ process_listing l = Ok (Some r))
              tail.
Proof.
  induction ls as [|l ls IH]; intros rs; cbn [Walk.listings_loop].
  - exists []. rewrite app_nil_r. split; [reflexivity|constructor].
  - destruct (Walk.reached mr (length rs)).
    + exists []. rewrite app_nil_r. split; [reflexivity|constructor].
    + destruct (listing_step_from rs l) as (t1 & E1 & F1).
      destruct (IH (listing_step rs l)) as (t2 & E2 & F2).
      exists (t1 ++ t2). rewrite E2, E1, app_assoc. split; [reflexivity|].
      apply Forall_app. split.
      * eapply Forall_impl; [|exact F1]. intros r Hr. exists l.
        split; [left; reflexivity|exact Hr].
      * eapply Forall_impl; [|exact F2]. intros r (l0 & Hin & Hr).
        exists l0. split; [right; exact Hin|exact Hr].
Qed.

Lemma YP_walk_from d mr mp fuel b0 : forall b p rs rs' p',
  Nav.reach d b0 b ->
  YP.walk d mr mp fuel b p rs = Some (rs', p') ->
  exists tail,
    rs' = rs ++ tail
    /\ Forall (fun r => exists l, Nav.listed_on d b0 l
                                  /\ process_listing l = Ok (Some r)) tail.
Proof.
  induction fuel as [|fuel IH]; intros b p rs rs' p' R H;
    [discriminate | rewrite YP_walk_S in H].
  assert (Done : forall rs1,
    outcome_results (Walk.listings_loop mr
       (Walk.find_listings d b Walk.listing_selectors) rs) = rs1 ->
    exists tail,
      rs1 = rs ++ tail
      /\ Forall (fun r => exists l, Nav.listed_on d b0 l
                                    /\ process_listing l = Ok (Some r)) tail).
  { intros rs1 E.
    destruct (listings_loop_from mr
                (Walk.find_listings d b Walk.listing_selectors) rs)
      as (tail & E' & F).
    exists tail. split; [congruence|].
    eapply Forall_impl; [|exact F]. intros r (l & Hin & Hr).
    exists l. split; [exists b; auto|exact Hr]. }
  destruct (Walk.find_listings d b Walk.listing_selectors) as [|l ls] eqn:FL.
  - inversion H; subst. exists []. rewrite app_nil_r.
    split; [reflexivity|constructor].
  - destruct (Walk.listings_loop mr (l :: ls) rs) as [rs1|rs1] eqn:LL.
    + destruct (Walk.reached mp p).
      * inversion H; subst. apply Done. reflexivity.
      * destruct (Walk.find_next d b Walk.next_button_selectors)
          as [b1 [|]] eqn:FN.
        -- destruct (Done rs1 eq_refl) as (t1 & -> & F1).
           assert (R1 : Nav.reach d b0 b1).
           { eapply reach_trans; [exact R|].
             eapply find_next_reach. exact FN. }
           destruct (IH _ _ _ _ _ R1 H) as (t2 & -> & F2).
           exists (t1 ++ t2). rewrite app_assoc. split; [reflexivity|].
           apply Forall_app. auto.
        -- inversion H; subst. apply Done. reflexivity.
    + inversion H; subst. apply Done. reflexivity.
Qed.

Lemma process_listing_fields l r :
  process_listing l = Ok (Some r) ->
  exists sel raw,
    In sel name_selectors /\ lookup l sel = Ok raw
    /\ business_name r = Py.strip raw
    /\ phone_number r = extract_phone l.
Proof.
  intros H. pose proof (@ExtractFacts.process_listing_name l r H) as (Hn & Hu).
  assert (Hp : phone_number r = extract_phone l).
  { unfold process_listing in H.
    destruct (scroll_into_view l); simpl in H; [|discriminate].
    destruct (extract_name l name_selectors) as [n|]; simpl in H; [|discriminate].
    destruct (String.eqb n name_sentinel); simpl in H; [discriminate|].
    inversion H. reflexivity. }
  unfold extract_name, name_chain in Hn.
  destruct (@CollectorExtras.name_loop_origin l name_selectors name_sentinel
              (business_name r) Hn)
    as [E|(sel & raw & Hin & Hl & E)].
  - rewrite E, String.eqb_refl in Hu. discriminate.
  - exists sel, raw. auto.
Qed.



End ReachExtras.

(* ================================================================== *)
(** * The enricher on a file: the run and the older event lists *)
(* ================================================================== *)

Module RunFacts.
Import Notions MoreNotions Facebook.

Lemma assign_ok pd df idx v :
  Run.stores_text pd df ->
  Run.assign pd df idx v = Ok (Df.set_at df idx "Email" (Str v)).
Proof.
  intros [->|H]; [reflexivity|]. unfold Run.assign.
  destruct pd; [reflexivity|]. rewrite H. reflexivity.
Qed.

Lemma assign_raises df idx v :
  Run.all_missing df "Email" = true ->
  Run.assign Strict df idx v = Raise (OtherException "TypeError").
Proof. intros H. unfold Run.assign. rewrite H. reflexivity. Qed.

Lemma set_nth_keeps_text e : forall (row : list Cell) j,
  Df.notna (nth j row NA) = true ->
  Df.notna (nth j (Df.set_nth j (Str e) row) NA) = true.
Proof.
  induction row as [|h t IH]; intros [|j] H; simpl in *;
    try discriminate; try reflexivity.
  apply IH. exact H.
Qed.

Lemma nth_set_nth_same {A} (v d : A) : forall (row : list A) j,
  j < length row -> nth j (Df.set_nth j v row) d = v.
Proof.
  induction row as [|h t IH]; intros [|j] H; simpl in *;
    try lia; try reflexivity.
  apply IH. lia.
Qed.

Lemma nth_set_nth_other {A} (v d : A) : forall (row : list A) j k,
  k <> j -> nth k (Df.set_nth j v row) d = nth k row d.
Proof.
  induction row as [|h t IH]; intros [|j] [|k] H; simpl;
    try reflexivity; try congruence.
  apply IH. congruence.
Qed.

Lemma update_nth_same {A} (f : A -> A) : forall (l : list A) i a,
  nth_error l i = Some a -> nth_error (Df.update_nth i f l) i = Some (f a).
Proof.
  induction l as [|h t IH]; intros [|i] a H; simpl in *; try discriminate.
  - congruence.
  - apply IH. exact H.
Qed.

Lemma forallb_update_false {A} (f : A -> bool) (g : A -> A) :
  (forall a, f a = false -> f (g a) = false) ->
  forall l i, forallb f l = false -> forallb f (Df.update_nth i g l) = false.
Proof.
  intros Hg. induction l as [|h t IH]; intros [|i] H; simpl in *;
    try discriminate.
  - destruct (f h) eqn:E; simpl in *.
    + destruct (f (g h)); [exact H|reflexivity].
    + rewrite (Hg h E). reflexivity.
  - destruct (f h); simpl in *; [apply IH; exact H|reflexivity].
Qed.

Lemma all_missing_set_at df idx e :
  Run.all_missing df "Email" = false ->
  Run.all_missing (Df.set_at df idx "Email" (Str e)) "Email" = false.
Proof.
  intros H. unfold Df.set_at.
  destruct (Df.index_of "Email" (columns df)) as [j|] eqn:J; [|exact H].
  unfold Run.all_missing in *. cbn [columns rows].
  apply forallb_update_false; [|exact H].
  intros row Hr. unfold Df.row_get in *. rewrite J in *.
  apply negb_false_iff in Hr. apply negb_false_iff.
  apply set_nth_keeps_text. exact Hr.
Qed.

Lemma stores_set_at pd df idx e :
  Run.stores_text pd df ->
  Run.stores_text pd (Df.set_at df idx "Email" (Str e)).
Proof.
  intros [H|H]; [left; exact H|right; apply all_missing_set_at; exact H].
Qed.

(** While the assignment goes through, a looked-up row of the run is
    the looked-up row of the event list. *)
Lemma lookup_row_ok pd w df idx c :
  Run.stores_text pd df ->
  Run.lookup_row pd w df idx c
  = (fst (lookup_row w df idx c), Ok (snd (lookup_row w df idx c))).
Proof.
  intros H. unfold Run.lookup_row, lookup_row.
  destruct (search_google w (Df.format c)) as [ev1 [url|]].
  - destruct (Py.truthy url).
    + destruct (extract_email_from_facebook w url) as [ev2 email].
      destruct (negb (String.eqb email sentinel));
        rewrite (assign_ok pd df idx _ H); reflexivity.
    + rewrite (assign_ok pd df idx _ H). reflexivity.
  - rewrite (assign_ok pd df idx _ H). reflexivity.
Qed.

Lemma lookup_row_strict w df idx c :
  Run.all_missing df "Email" = true ->
  Run.lookup_row Strict w df idx c
  = (fst (lookup_row w df idx c), Raise (OtherException "TypeError")).
Proof.
  intros H. unfold Run.lookup_row, lookup_row.
  destruct (search_google w (Df.format c)) as [ev1 [url|]].
  - destruct (Py.truthy url).
    + destruct (extract_email_from_facebook w url) as [ev2 email].
      destruct (negb (String.eqb email sentinel));
        rewrite (assign_raises df idx _ H); reflexivity.
    + rewrite (assign_raises df idx _ H). reflexivity.
  - rewrite (assign_raises df idx _ H). reflexivity.
Qed.

Lemma rows_loop_ok pd w cols todo : forall idx df,
  Run.stores_text pd df ->
  Run.rows_loop pd w cols todo idx df
  = (fst (rows_loop w cols todo idx df), Ok (snd (rows_loop w cols todo idx df))).
Proof.
  induction todo as [|row todo IH]; intros idx df H; [reflexivity|].
  cbn [Run.rows_loop rows_loop]. cbv zeta.
  destruct (already_has_email (Df.row_get cols row "Email"));
    [apply IH; exact H|].
  rewrite (lookup_row_ok pd w df idx _ H).
  destruct (TableExtras.lookup_row_shape w df idx
              (Df.row_get cols row "Business Name")) as (visits & e & -> & _).
  cbn [fst snd].
  rewrite (IH (S idx) _ (stores_set_at pd df idx e H)).
  destruct (rows_loop w cols todo (S idx) (Df.set_at df idx "Email" (Str e))).
  reflexivity.
Qed.

Lemma rows_loop_skips pd w cols todo : forall idx df,
  (forall row, In row todo ->
     already_has_email (Df.row_get cols row "Email") = true) ->
  Run.rows_loop pd w cols todo idx df = ([], Ok df).
Proof.
  induction todo as [|row todo IH]; intros idx df H; [reflexivity|].
  cbn [Run.rows_loop]. cbv zeta. rewrite (H row (or_introl eq_refl)).
  apply IH. intros r Hr. apply H. right. exact Hr.
Qed.

(** On a table with the two columns, while the assignments go through,
    the events of the run are the older event list and the run ends as the
    previews of the final table end. *)
Lemma process_table_ok pd w df :
  Df.has_column df "Business Name" = true ->
  Df.has_column df "Email" = true ->
  Run.stores_text pd df ->
  Run.process_table pd w df
  = (fst (rows_loop w (columns df) (rows df) 0 df) ++ [ToExcel (final_table w df)],
     Run.preview (final_table w df)).
Proof.
  intros HB HE H. unfold Run.process_table, final_table.
  rewrite HB, HE. cbn [negb].
  rewrite (rows_loop_ok pd w _ _ 0 df H). reflexivity.
Qed.

(** The older event lists are the events of the run with a pandas that
    widens a column of missing values. *)
Lemma events_with_widening w df :
  process_excel_file w (Sheet df) = fst (Run.process_table Widening w df)
  /\ fst (UnifiedEnricher.process_excel_for_emails w (Sheet df))
     = fst (Run.process_table Widening w df).
Proof.
  unfold process_excel_file, UnifiedEnricher.process_excel_for_emails,
    enrich_table, Run.process_table.
  destruct (negb (Df.has_column df "Business Name")); [split; reflexivity|].
  set (df1 := if negb (Df.has_column df "Email")
              then Df.add_column df "Email" (Str sentinel) else df).
  rewrite (rows_loop_ok Widening w (columns df1) (rows df1) 0 df1
             (or_introl eq_refl)).
  destruct (rows_loop w (columns df1) (rows df1) 0 df1). split; reflexivity.
Qed.

Lemma index_of_inj a b : forall cols j,
  Df.index_of a cols = Some j -> Df.index_of b cols = Some j -> a = b.
Proof.
  induction cols as [|c cols IH]; intros j Ha Hb; [discriminate|].
  simpl in Ha, Hb.
  destruct (String.eqb a c) eqn:Ea; destruct (String.eqb b c) eqn:Eb.
  - apply String.eqb_eq in Ea, Eb. congruence.
  - destruct (Df.index_of b cols); [|discriminate].
    inversion Ha; subst. discriminate.
  - destruct (Df.index_of a cols); [|discriminate].
    inversion Hb; subst. discriminate.
  - destruct (Df.index_of a cols) as [i|] eqn:Ia; [|discriminate].
    destruct (Df.index_of b cols) as [k|] eqn:Ib; [|discriminate].
    inversion Ha; subst. inversion Hb; subst. apply (IH i); reflexivity.
Qed.

Lemma set_email_keeps_name cols row row' :
  email_set_or_same cols row row' ->
  Df.row_get cols row' "Business Name" = Df.row_get cols row "Business Name".
Proof.
  intros [->|(j & e & J & ->)]; [reflexivity|]. unfold Df.row_get.
  destruct (Df.index_of "Business Name" cols) as [k|] eqn:K; [|reflexivity].
  apply nth_set_nth_other. intros ->.
  pose proof (index_of_inj _ _ _ _ K J) as E. discriminate E.
Qed.

Lemma Forall2_firstn {A B} (R : A -> B -> Prop) l l' :
  Forall2 R l l' -> forall n, Forall2 R (firstn n l) (firstn n l').
Proof.
  induction 1 as [|a b l l' Hab H IH]; intros [|n]; simpl; constructor; auto.
Qed.

Lemma Forall2_skipn {A B} (R : A -> B -> Prop) l l' :
  Forall2 R l l' -> forall n, Forall2 R (skipn n l) (skipn n l').
Proof.
  induction 1 as [|a b l l' Hab H IH]; intros [|n]; simpl;
    try constructor; auto.
Qed.

Lemma forallb_Forall2 {A B} (f : A -> bool) (g : B -> bool) l l' :
  Forall2 (fun a b => f a = g b) l l' -> forallb f l = forallb g l'.
Proof.
  induction 1 as [|a b l l' Hab H IH]; simpl; [reflexivity|].
  rewrite Hab, IH. reflexivity.
Qed.

(** The previews of a table end as the previews of the table it was
    built from: the enricher leaves the names alone. *)
Lemma preview_kept df df' : kept df df' -> Run.preview df' = Run.preview df.
Proof.
  intros (Hc & Hr). unfold Run.preview.
  replace (forallb
             (fun row => Df.notna (Df.row_get (columns df') row "Business Name"))
             (Run.previewed df'))
    with (forallb
            (fun row => Df.notna (Df.row_get (columns df) row "Business Name"))
            (Run.previewed df)); [reflexivity|].
  apply forallb_Forall2. unfold Run.previewed. cbv zeta.
  rewrite <- (Forall2_length Hr), Hc.
  assert (Hn : Forall2 (fun a b =>
                 Df.notna (Df.row_get (columns df) a "Business Name")
                 = Df.notna (Df.row_get (columns df) b "Business Name"))
                 (rows df) (rows df')).
  { eapply Forall2_impl; [|exact Hr]. intros a b Hab.
    rewrite (set_email_keeps_name _ _ _ Hab). reflexivity. }
  apply Forall2_app; [apply Forall2_firstn; exact Hn|].
  destruct (10 <? length (rows df)); [|constructor].
  apply Forall2_skipn. exact Hn.
Qed.

Lemma unified_run_events pd w file :
  fst (Run.process_excel_for_emails pd w file)
  = fst (Run.process_excel_file pd w file).
Proof.
  destruct file as [| |wb]; try reflexivity.
  unfold Run.process_excel_for_emails, Run.process_excel_file,
    Run.process_table.
  destruct (negb (Df.has_column (Excel.read_excel wb) "Business Name"));
    [reflexivity|].
  destruct (Run.rows_loop pd w _ _ 0 _) as [ev [df'|e]]; reflexivity.
Qed.

Lemma load_store_load c :
  Excel.load_cell (Excel.store_cell (Excel.load_cell c)) = Excel.load_cell c.
Proof.
  destruct c as [|s]; [reflexivity|]. simpl.
  destruct (Excel.na_like s) eqn:E; simpl; [reflexivity|].
  rewrite E. reflexivity.
Qed.

Lemma store_load_plain c :
  Excel.plain_cell c -> Excel.store_cell (Excel.load_cell c) = c.
Proof.
  destruct c as [|s]; simpl; [reflexivity|]. intros ->. reflexivity.
Qed.

Lemma read_write_read wb :
  Excel.read_excel (Excel.to_excel (Excel.read_excel wb)) = Excel.read_excel wb.
Proof.
  unfold Excel.read_excel, Excel.to_excel. cbn [columns rows header body].
  f_equal. rewrite !map_map. apply map_ext. intros row.
  rewrite !map_map. apply map_ext. intros c. apply load_store_load.
Qed.

Lemma write_read_plain wb :
  Excel.plain_book wb -> Excel.to_excel (Excel.read_excel wb) = wb.
Proof.
  intros H. destruct wb as [hd bd]. unfold Excel.plain_book in H.
  unfold Excel.read_excel, Excel.to_excel. cbn [columns rows header body] in *.
  f_equal. rewrite map_map.
  rewrite <- (map_id bd) at 2. apply map_ext_in. intros row Hr.
  rewrite map_map. rewrite <- (map_id row) at 2. apply map_ext_in.
  intros c Hc. apply store_load_plain.
  rewrite Forall_forall in H. specialize (H row Hr).
  rewrite Forall_forall in H. apply H. exact Hc.
Qed.

Lemma index_of_new col : forall cols,
  Df.index_of col cols = None ->
  Df.index_of col (cols ++ [col]) = Some (length cols).
Proof.
  induction cols as [|c cols IH]; simpl; intros H.
  - rewrite String.eqb_refl. reflexivity.
  - destruct (String.eqb col c); [discriminate|].
    destruct (Df.index_of col cols); [discriminate|].
    rewrite (IH eq_refl). reflexivity.
Qed.

Lemma queries_app a b : Run.queries (a ++ b) = Run.queries a ++ Run.queries b.
Proof. unfold Run.queries. apply flat_map_app. Qed.

Lemma rows_loop_queries w cols todo : forall idx df1,
  Run.queries (fst (rows_loop w cols todo idx df1))
  = map (Run.query_of cols) (filter (needs_lookup cols) todo).
Proof.
  induction todo as [|row todo IH]; intros idx df1; [reflexivity|].
  cbn [rows_loop filter]. cbv zeta.
  replace (needs_lookup cols row)
    with (negb (already_has_email (Df.row_get cols row "Email")))
    by reflexivity.
  destruct (already_has_email (Df.row_get cols row "Email")); cbn [negb];
    [apply IH|].
  destruct (TableExtras.lookup_row_shape w df1 idx
              (Df.row_get cols row "Business Name")) as (visits & e & -> & V).
  specialize (IH (S idx) (Df.set_at df1 idx "Email" (Str e))).
  destruct (rows_loop w cols todo (S idx) (Df.set_at df1 idx "Email" (Str e)))
    as [evs df2]. cbn [fst] in *.
  rewrite !queries_app, IH. cbn [map].
  destruct ((idx + 1) mod 10 =? 0); destruct V as [->|(u & ->)]; reflexivity.
Qed.

End RunFacts.

(* ================================================================== *)
(** * The enricher on a file: re-runs and failing lookups *)
(* ================================================================== *)

Module RunClaims.
Import Notions MoreNotions Facebook Examples RunExamples.

Lemma rerun_events pd w wb :
  Df.has_column (Excel.read_excel wb) "Email" = true ->
  (forall row, In row (rows (Excel.read_excel wb)) ->
     exists e, Df.row_get (columns (Excel.read_excel wb)) row "Email" = Str e
               /\ e <> "NaN") ->
  fst (Run.process_excel_file pd w (Book wb))
  = if Df.has_column (Excel.read_excel wb) "Business Name"
    then [ToExcel (Excel.read_excel wb)] else [].
Proof.
  intros Hcol Hrows. unfold Run.process_excel_file, Run.process_table.
  destruct (Df.has_column (Excel.read_excel wb) "Business Name");
    [|reflexivity].
  rewrite Hcol. cbn [negb]. rewrite RunFacts.rows_loop_skips; [reflexivity|].
  intros row Hr. destruct (Hrows row Hr) as (e & -> & Hne).
  apply EnricherClaims.has_email_of_string. exact Hne.
Qed.


Lemma book_done_has_emails :
  forall row, In row (rows (Excel.read_excel book_done)) ->
    exists e, Df.row_get (columns (Excel.read_excel book_done)) row "Email" = Str e
              /\ e <> "NaN".
Proof.
  intros row [<-|[<-|[]]];
    [exists "joe@biz.com" | exists "ann@biz.com"];
    (split; [reflexivity | discriminate]).
Qed.

Lemma book_done_is_plain : Excel.plain_book book_done.
Proof. repeat constructor. Qed.



Lemma set_at_reads_back df idx row j v :
  nth_error (rows df) idx = Some row ->
  Df.index_of "Email" (columns df) = Some j ->
  j < length row ->
  exists row',
    nth_error (rows (Df.set_at df idx "Email" v)) idx = Some row'
    /\ Df.row_get (columns (Df.set_at df idx "Email" v)) row' "Email" = v
    /\ forall k, k <> j -> nth k row' NA = nth k row NA.
Proof.
  intros Hrow J Hj. exists (Df.set_nth j v row). unfold Df.set_at. rewrite J.
  cbn [rows columns]. split; [|split].
  - apply RunFacts.update_nth_same. exact Hrow.
  - unfold Df.row_get. rewrite J. apply RunFacts.nth_set_nth_same. exact Hj.
  - intros k Hk. apply RunFacts.nth_set_nth_other. exact Hk.
Qed.

Lemma run_lookup_row_raises pd w df idx c :
  lookup_raises w (Df.format c) ->
  Run.stores_text pd df ->
  Run.lookup_row pd w df idx c
  = (fst (lookup_row w df idx c), Ok (Df.set_at df idx "Email" (Str "NaN"))).
Proof.
  intros H St. rewrite (RunFacts.lookup_row_ok pd w df idx c St).
  rewrite (@EnricherClaims.lookup_row_raises w df idx c H). reflexivity.
Qed.

(** C7, at the failing input.  The file holds no email yet, so that its
    [Email] column loads as a column of missing values, and the search for
    the first row raises.  The search comes back as no profile; with a pandas
    that does not widen such a column the assignment of ["NaN"] that follows
    raises [TypeError], which no handler of the enricher catches: the call of
    either file ends with that exception after one search, and nothing is
    written.  With a pandas that widens the column the same run ends
    normally, with a write of the table. *)
Theorem C7_assignment_raises_on_a_column_of_missing_values :
  lookup_raises broken_web "Down"
  /\ snd (search_google broken_web "Down") = None
  /\ Run.all_missing (Excel.read_excel book_no_email) "Email" = true
  /\ Run.process_excel_file Strict broken_web (Book book_no_email)
     = ([GoogleSearch (search_query_of "Down")],
        Raise (OtherException "TypeError"))
  /\ Run.process_excel_for_emails Strict broken_web (Book book_no_email)
     = ([GoogleSearch (search_query_of "Down")],
        Raise (OtherException "TypeError"))
  /\ snd (Run.process_excel_file Widening broken_web (Book book_no_email))
     = Ok tt
  /\ filter is_write
       (fst (Run.process_excel_file Widening broken_web (Book book_no_email)))
     <> [].
Proof.
  split; [|split; [|split; [|split; [|split; [|split]]]]].
  - left. exists (OtherException "net::ERR"). reflexivity.
  - reflexivity.
  - reflexivity.
  - reflexivity.
  - reflexivity.
  - reflexivity.
  - vm_compute. discriminate.
Qed.

End RunClaims.

(* ================================================================== *)
(** * The enricher on a file: the table, the searches and the saves *)
(* ================================================================== *)

Module RunExtras.
Import Notions MoreNotions Facebook Examples RunExamples.

Lemma first_row_is_looked_up df row rest :
  rows df = row :: rest ->
  Run.all_missing df "Email" = true ->
  already_has_email (Df.row_get (columns df) row "Email") = false.
Proof.
  intros Hr H. unfold Run.all_missing in H. rewrite Hr in H.
  cbn [forallb] in H. apply andb_true_iff in H. destruct H as (H & _).
  apply negb_true_iff in H. unfold already_has_email. rewrite H. reflexivity.
Qed.

Lemma lookup_row_writes_nothing w df idx c :
  filter is_write (fst (lookup_row w df idx c)) = [].
Proof.
  destruct (TableExtras.lookup_row_shape w df idx c) as (visits & e & -> & V).
  destruct V as [->|(u & ->)]; reflexivity.
Qed.

(** X18.  A listing whose processing raises leaves the
    result list as it was and the loop goes on with the listings after it;
    the records of the list the walk starts a page with are an initial part
    of the list it returns.  A lookup that raises, in the search or on the
    profile page, comes back as no profile or as ["NaN"].  While the
    assignment into the [Email] column goes through, which it does when
    pandas widens a column of missing values or the column holds a text, the
    row of such a lookup reads ["NaN"] in its [Email] cell afterwards, its
    other cells and the other rows are as they were, the loop goes on with
    the rows after it, and the loop over the rows ends without an
    exception. *)
Theorem X18_failing_record_is_contained :
  (forall l e, scroll_into_view l = Raise e ->
               Extract.process_listing l = Raise e)
  /\ (forall l e results,
      Extract.process_listing l = Raise e ->
      Extract.listing_step results l = results)
  /\ (forall l e pre post results,
      Extract.process_listing l = Raise e ->
      fold_left Extract.listing_step (pre ++ l :: post) results
      = fold_left Extract.listing_step (pre ++ post) results)
  /\ (forall d mr mp fuel b p rs rs' p',
      YP.walk d mr mp fuel b p rs = Some (rs', p') ->
      exists tail, rs' = rs ++ tail)
  /\ (forall d fuel b p rs rs' p',
      Unified.walk d fuel b p rs = Some (rs', p') ->
      exists tail, rs' = rs ++ tail)
  /\ (forall w name e,
      search_google_try (google w (search_query_of name)) = Raise e ->
      snd (search_google w name) = None)
  /\ (forall w url e,
      extract_email_try w (normalize_url url) = Raise e ->
      snd (extract_email_from_facebook w url) = "NaN")
  /\ (forall pd w df idx c,
      lookup_raises w (Df.format c) ->
      Run.stores_text pd df ->
      snd (Run.lookup_row pd w df idx c)
      = Ok (Df.set_at df idx "Email" (Str "NaN"))
      /\ (forall i, i <> idx ->
            nth_error (rows (Df.set_at df idx "Email" (Str "NaN"))) i
            = nth_error (rows df) i)
      /\ (forall row j,
            nth_error (rows df) idx = Some row ->
            Df.index_of "Email" (columns df) = Some j ->
            j < length row ->
            exists row',
              nth_error (rows (Df.set_at df idx "Email" (Str "NaN"))) idx
              = Some row'
              /\ Df.row_get (columns (Df.set_at df idx "Email" (Str "NaN")))
                            row' "Email" = Str "NaN"
              /\ forall k, k <> j -> nth k row' NA = nth k row NA))
  /\ (forall pd w cols row rest idx df,
      needs_lookup cols row = true ->
      lookup_raises w (Df.format (Df.row_get cols row "Business Name")) ->
      Run.stores_text pd df ->
      exists ev,
        Run.rows_loop pd w cols (row :: rest) idx df
        = (ev ++ fst (Run.rows_loop pd w cols rest (S idx)
                        (Df.set_at df idx "Email" (Str "NaN"))),
           snd (Run.rows_loop pd w cols rest (S idx)
                  (Df.set_at df idx "Email" (Str "NaN")))))
  /\ (forall pd w cols todo idx df,
      Run.stores_text pd df ->
      exists df', snd (Run.rows_loop pd w cols todo idx df) = Ok df').
Proof.
  split; [|split; [|split; [|split; [|split; [|split; [|split;
    [|split; [|split]]]]]]]].
  - intros l e H. unfold Extract.process_listing. rewrite H. reflexivity.
  - intros l e results H. unfold Extract.listing_step. rewrite H. reflexivity.
  - intros l e pre post results H. rewrite !fold_left_app. simpl.
    unfold Extract.listing_step at 2. rewrite H. reflexivity.
  - intros d mr mp fuel b p rs rs' p' H.
    destruct (WalkFacts.YP_walk_grows _ _ _ _ _ _ _ H) as (tail & E & _).
    exists tail. exact E.
  - intros d fuel b p rs rs' p' H.
    destruct (WalkFacts.Unified_walk_grows _ _ _ _ _ H) as (tail & E & _).
    exists tail. exact E.
  - intros w name e H. unfold search_google. rewrite H. reflexivity.
  - intros w url e H. unfold extract_email_from_facebook. rewrite H. reflexivity.
  - intros pd w df idx c H St. rewrite (RunClaims.run_lookup_row_raises pd w df idx c H St).
    split; [reflexivity|]. split.
    + intros i Hi. apply EnricherClaims.set_at_other. exact Hi.
    + intros row j Hrow J Hj. apply RunClaims.set_at_reads_back; assumption.
  - intros pd w cols row rest idx df Hn H St.
    unfold needs_lookup in Hn. apply negb_true_iff in Hn.
    cbn [Run.rows_loop]. cbv zeta. rewrite Hn.
    rewrite (RunClaims.run_lookup_row_raises pd w df idx _ H St).
    destruct (Run.rows_loop pd w cols rest (S idx)
                (Df.set_at df idx "Email" (Str "NaN"))) as [evs r].
    eexists. cbn [fst snd]. rewrite app_assoc. reflexivity.
  - intros pd w cols todo idx df St.
    rewrite (RunFacts.rows_loop_ok pd w cols todo idx df St).
    eexists. reflexivity.
Qed.

Lemma X18_failing_record_is_contained_witness :
  Extract.listing_step [mkRecord "Joe" "1"] stale = [mkRecord "Joe" "1"]
  /\ snd (search_google broken_web "Down") = None
  /\ snd (extract_email_from_facebook broken_web "www.facebook.com/biz") = "NaN"
  /\ snd (Run.lookup_row Strict broken_web (Excel.read_excel book_mixed) 2
            (Str "Up"))
     = Ok (Df.set_at (Excel.read_excel book_mixed) 2 "Email" (Str "NaN"))
  /\ (exists row',
        nth_error (rows (Df.set_at (Excel.read_excel book_mixed) 2 "Email"
                           (Str "NaN"))) 2 = Some row'
        /\ Df.row_get (columns (Df.set_at (Excel.read_excel book_mixed) 2
                                  "Email" (Str "NaN"))) row' "Email"
           = Str "NaN"
        /\ forall k, k <> 2 -> nth k row' NA
                               = nth k [Str "Up"; Str "Not Available"; NA] NA)
  /\ (exists df', snd (Run.rows_loop Strict broken_web
                         (columns (Excel.read_excel book_mixed))
                         (rows (Excel.read_excel book_mixed)) 0
                         (Excel.read_excel book_mixed)) = Ok df').
Proof.
  destruct X18_failing_record_is_contained
    as (_ & H1 & _ & _ & _ & H4 & H5 & H6 & _ & H8).
  assert (R : lookup_raises broken_web (Df.format (Str "Up"))).
  { right. exists "https://www.facebook.com/pages/biz", TimeoutException.
    repeat split. }
  assert (St : Run.stores_text Strict (Excel.read_excel book_mixed)).
  { right. reflexivity. }
  destruct (H6 Strict broken_web (Excel.read_excel book_mixed) 2 (Str "Up") R St)
    as (K1 & _ & K3).
  split; [|split; [|split; [|split; [|split]]]].
  - apply (H1 stale (OtherException "stale element")). reflexivity.
  - apply (H4 broken_web "Down" (OtherException "net::ERR")). reflexivity.
  - apply (H5 broken_web "www.facebook.com/biz" TimeoutException). reflexivity.
  - exact K1.
  - apply (K3 [Str "Up"; Str "Not Available"; NA] 2); [reflexivity|reflexivity|].
    simpl. lia.
  - apply (H8 Strict broken_web _ _ 0 _ St).
Defined.

(** X12.  On a table that has the two columns: while the assignments
    into the [Email] column go through, the run ends with a write of the
    table it built, followed by the previews of that table; the table has
    the columns and the number of rows of the input, each of its rows is the
    input row or the input row with only the [Email] cell set to a text, and
    a row that already had an email is the input row.  With a pandas that
    does not widen a column of missing values, on a table whose [Email]
    column holds missing values only, the run ends with [TypeError] at the
    first row and writes nothing. *)
Theorem X12_enricher_touches_only_email_cells :
  forall (pd : Pandas) (w : Web) (df : DataFrame),
    Df.has_column df "Business Name" = true ->
    Df.has_column df "Email" = true ->
    (Run.stores_text pd df ->
       (exists ev, Run.process_table pd w df
                   = (ev ++ [ToExcel (final_table w df)],
                      Run.preview (final_table w df)))
       /\ columns (final_table w df) = columns df
       /\ length (rows (final_table w df)) = length (rows df)
       /\ Forall2 (email_set_or_same (columns df))
                  (rows df) (rows (final_table w df))
       /\ (forall i row,
             nth_error (rows df) i = Some row ->
             already_has_email (Df.row_get (columns df) row "Email") = true ->
             nth_error (rows (final_table w df)) i = Some row))
    /\ (pd = Strict ->
        Run.all_missing df "Email" = true ->
        rows df <> [] ->
        exists ev, Run.process_table pd w df
                   = (ev, Raise (OtherException "TypeError"))
                   /\ filter is_write ev = []).
Proof.
  intros pd w df HB HE. split.
  - intros St.
    assert (K : kept df (final_table w df)).
    { apply TableExtras.rows_loop_kept. split; [reflexivity|].
      apply TableExtras.Forall2_same. intros a. left. reflexivity. }
    destruct K as (Kc & Kr).
    split; [eexists; apply RunFacts.process_table_ok; assumption|].
    split; [exact Kc|]. split; [symmetry; apply (Forall2_length Kr)|].
    split; [exact Kr|].
    intros i row Hi Hrow. unfold final_table.
    rewrite TableExtras.rows_loop_untouched; [exact Hi|].
    intros k r Hk Hki. simpl in Hki. subst k. rewrite Hi in Hk.
    inversion Hk; subst. exact Hrow.
  - intros -> Hall Hne. unfold Run.process_table. rewrite HB, HE. cbn [negb].
    destruct (rows df) as [|row rest] eqn:Hr; [congruence|].
    cbn [Run.rows_loop]. cbv zeta.
    rewrite (first_row_is_looked_up df row rest Hr Hall).
    rewrite (RunFacts.lookup_row_strict w df 0 _ Hall).
    eexists. split; [reflexivity|]. apply lookup_row_writes_nothing.
Qed.

Lemma X12_enricher_touches_only_email_cells_witness :
  columns (final_table broken_web (Excel.read_excel book_mixed))
  = columns (Excel.read_excel book_mixed)
  /\ nth_error (rows (final_table broken_web (Excel.read_excel book_mixed))) 0
     = Some [Str "A"; Str "Not Available"; Str "a@biz.com"]
  /\ (exists ev,
        Run.process_table Strict broken_web (Excel.read_excel book_no_email)
        = (ev, Raise (OtherException "TypeError"))
        /\ filter is_write ev = []).
Proof.
  destruct (X12_enricher_touches_only_email_cells Strict broken_web
              (Excel.read_excel book_mixed) eq_refl eq_refl) as (H & _).
  destruct (H (or_intror eq_refl)) as (_ & H1 & _ & _ & H4).
  destruct (X12_enricher_touches_only_email_cells Strict broken_web
              (Excel.read_excel book_no_email) eq_refl eq_refl) as (_ & H5).
  split; [exact H1|]. split.
  - apply (H4 0 [Str "A"; Str "Not Available"; Str "a@biz.com"]); reflexivity.
  - apply H5; [reflexivity|reflexivity|discriminate].
Defined.

(** X13.  On a table that has the two columns, while the assignments go
    through, the searches of the run are, in the order of the rows, the
    searches for the names of the rows that have no email yet: one for each
    such row and none for a row that has an email; and the run visits at
    most one profile for each search. *)
Theorem X13_one_search_per_row_without_email :
  forall (pd : Pandas) (w : Web) (df : DataFrame),
    Df.has_column df "Business Name" = true ->
    Df.has_column df "Email" = true ->
    Run.stores_text pd df ->
    Run.queries (fst (Run.process_table pd w df))
    = map (Run.query_of (columns df))
          (filter (needs_lookup (columns df)) (rows df))
    /\ length (filter is_visit (fst (Run.process_table pd w df)))
       <= length (Run.queries (fst (Run.process_table pd w df))).
Proof.
  intros pd w df HB HE St.
  assert (Q : Run.queries (fst (Run.process_table pd w df))
              = map (Run.query_of (columns df))
                    (filter (needs_lookup (columns df)) (rows df))).
  { rewrite (RunFacts.process_table_ok pd w df HB HE St). cbn [fst].
    rewrite RunFacts.queries_app, RunFacts.rows_loop_queries.
    apply app_nil_r. }
  split; [exact Q|]. rewrite Q, length_map.
  rewrite (RunFacts.process_table_ok pd w df HB HE St). cbn [fst].
  rewrite filter_app, length_app. simpl.
  destruct (TableExtras.rows_loop_counts w (columns df) (rows df) 0 df)
    as (_ & H2).
  lia.
Qed.

Lemma X13_one_search_per_row_without_email_witness :
  Run.queries (fst (Run.process_table Strict broken_web
                      (Excel.read_excel book_mixed)))
  = [search_query_of "Down"; search_query_of "Up"].
Proof.
  destruct (X13_one_search_per_row_without_email Strict broken_web
              (Excel.read_excel book_mixed) eq_refl eq_refl
              (or_intror eq_refl)) as (H & _).
  exact H.
Defined.

Lemma added_row_needs_lookup cols row :
  Df.index_of "Email" cols = None ->
  length row = length cols ->
  Df.row_get (cols ++ ["Email"]) (row ++ [Str sentinel]) "Email" = Str sentinel.
Proof.
  intros HE Hl. unfold Df.row_get. rewrite (RunFacts.index_of_new "Email" cols HE).
  rewrite <- Hl. rewrite app_nth2; [|lia]. rewrite Nat.sub_diag. reflexivity.
Qed.

Lemma added_column_cadence pd w df :
  Df.has_column df "Email" = false ->
  Run.aligned df ->
  write_points 0
    (fst (match Run.rows_loop pd w (columns (Df.add_column df "Email" (Str sentinel)))
                  (rows (Df.add_column df "Email" (Str sentinel))) 0
                  (Df.add_column df "Email" (Str sentinel)) with
          | (ev, Raise e) => (ev, @Raise unit e)
          | (ev, Ok df') => (ev ++ [ToExcel df'], Run.preview df')
          end))
  = filter (fun k => k mod 10 =? 0) (seq 1 (length (rows df)))
    ++ [length (rows df)].
Proof.
  intros HE Ha. unfold Df.has_column in HE.
  destruct (Df.index_of "Email" (columns df)) eqn:J; [discriminate|]. clear HE.
  set (df1 := Df.add_column df "Email" (Str sentinel)).
  assert (N : Forall (fun row => needs_lookup (columns df1) row = true)
                     (rows df1)).
  { unfold df1, Df.add_column. cbn [columns rows]. apply Forall_forall.
    intros r Hr. apply in_map_iff in Hr. destruct Hr as (row & <- & Hin).
    unfold needs_lookup. rewrite added_row_needs_lookup; [reflexivity|exact J|].
    unfold Run.aligned in Ha. rewrite Forall_forall in Ha. apply Ha. exact Hin. }
  assert (L : length (rows df1) = length (rows df)).
  { unfold df1, Df.add_column. cbn [rows]. apply length_map. }
  destruct (rows df) as [|row rest] eqn:Hr.
  - unfold df1, Df.add_column. rewrite Hr. reflexivity.
  - assert (St : Run.stores_text pd df1).
    { right. unfold Run.all_missing, df1, Df.add_column. cbn [columns rows].
      rewrite Hr. cbn [map forallb]. rewrite added_row_needs_lookup;
        [reflexivity|exact J|].
      unfold Run.aligned in Ha. rewrite Hr in Ha. exact (Forall_inv Ha). }
    rewrite (RunFacts.rows_loop_ok pd w _ _ 0 df1 St). cbn [fst].
    rewrite (TableExtras.rows_loop_cadence w (columns df1) (rows df1) 0 df1 _ N).
    rewrite L. reflexivity.
Qed.

(** X14.  On a table that has the [Business Name] column and in which no
    row is skipped, the run writes the table after the searches number 10,
    20, 30, ... and once more after the last row.  This holds for the file
    the collector wrote, which has no [Email] column and one cell per column
    in each row, with any pandas; and for a table that has the [Email] column
    and no email in any row, while the assignments go through. *)
Theorem X14_save_cadence_when_no_row_is_skipped :
  forall (pd : Pandas) (w : Web) (df : DataFrame),
    Df.has_column df "Business Name" = true ->
    (Df.has_column df "Email" = false ->
     Run.aligned df ->
     write_points 0 (fst (Run.process_table pd w df))
     = filter (fun k => k mod 10 =? 0) (seq 1 (length (rows df)))
       ++ [length (rows df)])
    /\ (Df.has_column df "Email" = true ->
        Forall (fun row => needs_lookup (columns df) row = true) (rows df) ->
        Run.stores_text pd df ->
        write_points 0 (fst (Run.process_table pd w df))
        = filter (fun k => k mod 10 =? 0) (seq 1 (length (rows df)))
          ++ [length (rows df)]).
Proof.
  intros pd w df HB. split.
  - intros HE Ha. unfold Run.process_table. rewrite HB, HE. cbn [negb].
    apply added_column_cadence; assumption.
  - intros HE N St. rewrite (RunFacts.process_table_ok pd w df HB HE St).
    cbn [fst].
    rewrite (TableExtras.rows_loop_cadence w (columns df) (rows df) 0 df _ N).
    reflexivity.
Qed.

Lemma first_run_aligned n : Run.aligned (first_run n).
Proof.
  unfold Run.aligned. apply Forall_forall. intros row Hr.
  apply repeat_spec in Hr. subst. reflexivity.
Qed.

Lemma X14_save_cadence_when_no_row_is_skipped_witness :
  write_points 0 (fst (Run.process_table Strict quiet_web (first_run 35)))
  = [10; 20; 30; 35]
  /\ write_points 0 (fst (Run.process_table Widening quiet_web table_35))
     = [10; 20; 30; 35].
Proof.
  destruct (X14_save_cadence_when_no_row_is_skipped Strict quiet_web
              (first_run 35) eq_refl) as (H1 & _).
  destruct (X14_save_cadence_when_no_row_is_skipped Widening quiet_web
              table_35 eq_refl) as (_ & H2).
  split.
  - rewrite (H1 eq_refl (first_run_aligned 35)). reflexivity.
  - rewrite (H2 eq_refl TableExtras.table_35_needs_lookup (or_introl eq_refl)).
    reflexivity.
Defined.

Lemma final_table_kept w df : kept df (final_table w df).
Proof.
  apply TableExtras.rows_loop_kept. split; [reflexivity|].
  apply TableExtras.Forall2_same. intros a. left. reflexivity.
Qed.



End RunExtras.
